(** * Ollama clients: request builder, response reader and statistics

    A shallow embedding of [ollama_client.py] (module [Client]) and of the
    generation path of [ollama_gui.py] (module [Gui]).

    - Values that come out of [json.loads] are the inductive type [json];
      a Python [dict] is a [gmap string json].
    - Code that prints, schedules a callback or raises runs in the monad
      [Eff E]: the events emitted so far, and the outcome ([Return] or
      [Raise]).  Events emitted before an exception stay emitted.
    - The HTTP library and the server are a parameter: a [server] maps the
      request to what [requests.post] and the response's methods do.

    Scope of the model.  JSON numbers are the integers (the counts and the
    nanosecond durations of the server); numbers with a fraction or an
    exponent are not represented.  Python computes the seconds and the
    tokens per second in double precision; the model keeps the exact
    rational, which has the sign of the double and is zero exactly when the
    double is.  A character of a Python [str] is one [ascii]. *)

From Stdlib Require Import ZArith QArith String List Lia.
From stdpp Require Import base option list strings gmap.

Local Set Warnings "-register-all".
Local Open Scope string_scope.
Local Open Scope list_scope.
Local Open Scope Z_scope.

(** ** Python values *)

Inductive json : Type :=
| JNull                             (* None *)
| JBool (b : bool)
| JInt (n : Z)
| JStr (s : string)
| JList (l : list json)
| JDict (d : gmap string json).

(** ** Exceptions

    The classes that the two programs can meet, with their ancestors as
    Python and [requests.exceptions] declare them.  [Response.json()] of
    requests raises [requests.exceptions.JSONDecodeError], which inherits
    from [InvalidJSONError] (a [RequestException]) and from
    [json.JSONDecodeError]; [json.loads] raises the latter alone. *)

Inductive exn_class :=
| Exception
| RequestException
| ConnectionError
| Timeout
| HTTPError
| ChunkedEncodingError
| InvalidJSONError
| RequestsJSONDecodeError
| ValueError
| JSONDecodeError
| UnicodeDecodeError
| AttributeError
| TypeError
| LookupError
| KeyError
| ArithmeticError
| OverflowError
| ZeroDivisionError.

#[global] Instance exn_class_eq_dec : EqDecision exn_class.
Proof. solve_decision. Defined.

(** The method resolution order: the class itself, then its ancestors. *)
Definition mro (c : exn_class) : list exn_class :=
  match c with
  | Exception => [Exception]
  | RequestException => [RequestException; Exception]
  | ConnectionError => [ConnectionError; RequestException; Exception]
  | Timeout => [Timeout; RequestException; Exception]
  | HTTPError => [HTTPError; RequestException; Exception]
  | ChunkedEncodingError => [ChunkedEncodingError; RequestException; Exception]
  | InvalidJSONError => [InvalidJSONError; RequestException; Exception]
  | RequestsJSONDecodeError =>
      [RequestsJSONDecodeError; InvalidJSONError; RequestException;
       JSONDecodeError; ValueError; Exception]
  | ValueError => [ValueError; Exception]
  | JSONDecodeError => [JSONDecodeError; ValueError; Exception]
  | UnicodeDecodeError => [UnicodeDecodeError; ValueError; Exception]
  | AttributeError => [AttributeError; Exception]
  | TypeError => [TypeError; Exception]
  | LookupError => [LookupError; Exception]
  | KeyError => [KeyError; LookupError; Exception]
  | ArithmeticError => [ArithmeticError; Exception]
  | OverflowError => [OverflowError; ArithmeticError; Exception]
  | ZeroDivisionError => [ZeroDivisionError; ArithmeticError; Exception]
  end.

Definition issubclass (c base : exn_class) : bool := bool_decide (base ∈ mro c).

(** An exception: its class and [str(e)]. *)
Record exn := Exn { exn_cls : exn_class; exn_str : string }.

Definition isinstance (e : exn) (base : exn_class) : bool :=
  issubclass (exn_cls e) base.

(** ** The effect monad *)

Inductive result (A : Type) :=
| Return (a : A)
| Raise (e : exn).
Arguments Return {A} a.
Arguments Raise {A} e.

Definition Eff (E A : Type) : Type := list E * result A.

Definition eff_ret {E A} (a : A) : Eff E A := ([], Return a).

Definition eff_bind {E A B} (f : A → Eff E B) (c : Eff E A) : Eff E B :=
  match c with
  | (out, Return a) => let '(out', r) := f a in (out ++ out', r)
  | (out, Raise e) => (out, Raise e)
  end.

#[global] Instance eff_mret {E} : MRet (Eff E) := @eff_ret E.
#[global] Instance eff_mbind {E} : MBind (Eff E) := @eff_bind E.

Definition emit {E} (e : E) : Eff E unit := ([e], Return tt).
Definition raise {E A} (e : exn) : Eff E A := ([], Raise e).
Definition lift {E A} (r : result A) : Eff E A := ([], r).

Definition events {E A} (c : Eff E A) : list E := fst c.
Definition outcome {E A} (c : Eff E A) : result A := snd c.

(** [c] run after the events [pre] have been emitted. *)
Definition after_events {E A} (pre : list E) (c : Eff E A) : Eff E A :=
  (pre ++ events c, outcome c).

(** [try: body except C1 as e: h1 except C2 as e: h2 ...]: the first clause
    whose class the exception is an instance of handles it; with no such
    clause the exception goes on to the caller. *)
Fixpoint find_clause {E A} (clauses : list (exn_class * (exn → Eff E A)))
    (e : exn) : option (Eff E A) :=
  match clauses with
  | [] => None
  | (c, h) :: rest => if isinstance e c then Some (h e) else find_clause rest e
  end.

Definition try_except {E A} (body : Eff E A)
    (clauses : list (exn_class * (exn → Eff E A))) : Eff E A :=
  match body with
  | (out, Return a) => (out, Return a)
  | (out, Raise e) =>
      match find_clause clauses e with
      | Some (out', r) => (out ++ out', r)
      | None => (out, Raise e)
      end
  end.

(** [try: body finally: fin]: [fin] runs either way; the outcome of [body]
    stands unless [fin] itself raises. *)
Definition try_finally {E A} (body : Eff E A) (fin : Eff E unit) : Eff E A :=
  let '(out, r) := body in
  match fin with
  | (out', Return _) => (out ++ out', r)
  | (out', Raise e) => (out ++ out', Raise e)
  end.

(** ** Python operations on values *)

(** Truth value: [if v], [not v]. *)
Definition truthy (v : json) : bool :=
  match v with
  | JNull => false
  | JBool b => b
  | JInt n => negb (n =? 0)
  | JStr s => negb (String.eqb s "")
  | JList l => match l with [] => false | _ => true end
  | JDict d => negb (Nat.eqb (size d) 0)
  end.

Definition type_name (v : json) : string :=
  match v with
  | JNull => "NoneType"
  | JBool _ => "bool"
  | JInt _ => "int"
  | JStr _ => "str"
  | JList _ => "list"
  | JDict _ => "dict"
  end.

(** [data.get(key, default)]: only a dict has the method. *)
Definition py_get (data : json) (key : string) (dflt : json) : result json :=
  match data with
  | JDict d => Return (default dflt (d !! key))
  | _ => Raise (Exn AttributeError
                  ("'" +:+ type_name data +:+ "' object has no attribute 'get'"))
  end.

#[global] Instance result_mret : MRet result := @Return.
#[global] Instance result_mbind : MBind result :=
  λ A B f r, match r with Return a => f a | Raise e => Raise e end.

Definition type_error {A} (msg : string) : result A := Raise (Exn TypeError msg).

(** A bool counts as the integer 0 or 1 in arithmetic and comparisons. *)
Definition as_int (v : json) : option Z :=
  match v with
  | JBool b => Some (Z.b2z b)
  | JInt n => Some n
  | _ => None
  end.

(** [needle in haystack] for two strings. *)
Fixpoint is_substring (needle hay : string) : bool :=
  String.prefix needle hay ||
  match hay with
  | EmptyString => false
  | String _ rest => is_substring needle rest
  end.

Definition is_str (key : string) (v : json) : bool :=
  match v with JStr s => String.eqb s key | _ => false end.

(** [key in data], [key] a string. *)
Definition py_contains (key : string) (data : json) : result bool :=
  match data with
  | JDict d => Return (bool_decide (is_Some (d !! key)))
  | JList l => Return (existsb (is_str key) l)
  | JStr s => Return (is_substring key s)
  | _ => type_error ("argument of type '" +:+ type_name data +:+ "' is not iterable")
  end.

(** [data[key]], [key] a string. *)
Definition py_getitem (data : json) (key : string) : result json :=
  match data with
  | JDict d =>
      match d !! key with
      | Some v => Return v
      | None => Raise (Exn KeyError ("'" +:+ key +:+ "'"))
      end
  | JList _ => type_error "list indices must be integers or slices, not str"
  | JStr _ => type_error "string indices must be integers, not 'str'"
  | _ => type_error ("'" +:+ type_name data +:+ "' object is not subscriptable")
  end.

(** [len(v)]. *)
Definition py_len (v : json) : result Z :=
  match v with
  | JStr s => Return (Z.of_nat (String.length s))
  | JList l => Return (Z.of_nat (length l))
  | JDict d => Return (Z.of_nat (size d))
  | _ => type_error ("object of type '" +:+ type_name v +:+ "' has no len()")
  end.

(** [a + b]: integers add, strings and lists concatenate. *)
Definition py_add (a b : json) : result json :=
  match as_int a, as_int b with
  | Some x, Some y => Return (JInt (x + y))
  | _, _ =>
      match a, b with
      | JStr s, JStr t => Return (JStr (s +:+ t))
      | JList l, JList k => Return (JList (l ++ k))
      | _, _ => type_error ("unsupported operand type(s) for +: '" +:+
                            type_name a +:+ "' and '" +:+ type_name b +:+ "'")
      end
  end.

(** [v > 0] against the integer literal. *)
Definition py_gt0 (v : json) : result bool :=
  match as_int v with
  | Some x => Return (0 <? x)
  | None => type_error ("'>' not supported between instances of '" +:+
                        type_name v +:+ "' and 'int'")
  end.

(** *** Floats

    An [int] operand of a float division is converted to a double first;
    beyond the range of a double the conversion raises [OverflowError].
    [float(n)] exists exactly for [|n| < 2^1024 - 2^970]. *)
Definition float_limit : Z := 2 ^ 1024 - 2 ^ 970.

Definition float_of_int (n : Z) : result Q :=
  if Z.abs n <? float_limit then Return (inject_Z n)
  else Raise (Exn OverflowError "int too large to convert to float").

(** [x > 0] and [x == 0] for a float. *)
Definition Qgt0 (x : Q) : bool := 0 <? Qnum x.
Definition Qzero (x : Q) : bool := Qnum x =? 0.

(** [v / d] with a float divisor [d]. *)
Definition py_truediv (v : json) (d : Q) : result Q :=
  match as_int v with
  | Some n =>
      x ← float_of_int n;
      if Qzero d then Raise (Exn ZeroDivisionError "float division by zero")
      else Return (x / d)%Q
  | None => type_error ("unsupported operand type(s) for /: '" +:+
                        type_name v +:+ "' and 'float'")
  end.

(** The literal [1e9]. *)
Definition _1e9 : Q := inject_Z 1000000000.

(** ** The server and the HTTP library

    A line handed over by [resp.iter_lines()], seen through what
    [line.decode("utf-8")] and [json.loads] make of it. *)
Inductive wire_line :=
| Blank                       (* b"": a falsy value *)
| NotUtf8 (why : string)      (* bytes that are not UTF-8; the codec's complaint *)
| NotJson (why : string)      (* text that json.loads rejects; its complaint *)
| JsonText (v : json).        (* the JSON text of v *)

Definition line_truthy (l : wire_line) : bool :=
  match l with Blank => false | _ => true end.

(** [json.loads(line.decode("utf-8"))]. *)
Definition json_loads_decode (l : wire_line) : result json :=
  match l with
  | Blank => Raise (Exn JSONDecodeError "Expecting value: line 1 column 1 (char 0)")
  | NotUtf8 why => Raise (Exn UnicodeDecodeError why)
  | NotJson why => Raise (Exn JSONDecodeError why)
  | JsonText v => Return v
  end.

(** How a connection fails; each is a [RequestException] of requests. *)
Inductive net_failure := Refused | TimedOut | Interrupted.

Definition net_failure_class (f : net_failure) : exn_class :=
  match f with
  | Refused => ConnectionError
  | TimedOut => Timeout
  | Interrupted => ChunkedEncodingError
  end.

(** The body as [resp.json()] sees it. *)
Inductive body :=
| Body (v : json)
| BadBody (why : string).

Record response := Response {
  status_code : Z;
  http_error : string;       (* str(e) of the HTTPError of a 4xx or 5xx status *)
  lines : list wire_line;                     (* what iter_lines yields *)
  lines_end : option (net_failure * string);  (* then: the end, or a failure *)
  content : body
}.

Inductive reply :=
| NoReply (f : net_failure) (why : string)
| Reply (r : response).

Record request := Request {
  url : string;
  json_kw : gmap string json;
  stream_kw : bool;
  timeout_kw : Z
}.

Definition server : Type := request → reply.

(** [requests.post(url, json=payload, stream=..., timeout=...)]. *)
Definition requests_post (srv : server) (rq : request) : result response :=
  match srv rq with
  | NoReply f why => Raise (Exn (net_failure_class f) why)
  | Reply r => Return r
  end.

(** [resp.raise_for_status()]: a 4xx or 5xx status raises [HTTPError]. *)
Definition raise_for_status (resp : response) : result unit :=
  if (400 <=? status_code resp) && (status_code resp <? 600)
  then Raise (Exn HTTPError (http_error resp))
  else Return tt.

(** [resp.json()].  requests (2.27 and later) wraps the error of the decoder
    in its own class: [raise RequestsJSONDecodeError(e.msg, e.doc, e.pos)]. *)
Definition response_json (resp : response) : result json :=
  match content resp with
  | Body v => Return v
  | BadBody why => Raise (Exn RequestsJSONDecodeError why)
  end.

Definition nl : string := String (Ascii.ascii_of_nat 10) EmptyString.

(** ** ollama_client.py *)
Module Client.

Definition OLLAMA_HOST : string := "http://localhost:11434".

(** What [print(..., file=sys.stderr)] receives.  A line with a fixed text
    is that text; a line that formats a value carries the value. *)
Inductive stderr_line :=
| Text (s : string)
| ModelLine (v : json)                (* Model: {data['model']} *)
| TotalDuration (secs : Q)            (* Total Duration: {:.3f}s *)
| ModelLoadDuration (secs : Q)
| PromptEvalDuration (secs : Q)
| GenerationDuration (secs : Q)
| PromptTokens (v : json)
| GeneratedTokens (v : json)
| TotalTokens (v : json)              (* Total Tokens: {... + ...} *)
| PromptEvalSpeed (tps : Q)           (* Prompt Eval Speed: {:.1f} tokens/s *)
| GenerationSpeed (tps : Q)
| CompletionReason (v : json)
| ContextSize (n : Z).

Inductive event :=
| Recv (l : wire_line)       (* the for loop takes the next line *)
| Stdout (s : string)        (* sys.stdout.write(s), print() *)
| Flush                      (* sys.stdout.flush() *)
| Stderr (l : stderr_line).

Definition print_err (l : stderr_line) : Eff event unit := emit (Stderr l).

(** ["=" * 70] *)
Definition rule : string :=
  "======================================================================".

(** [sys.stdout.write(chunk)] accepts a [str] only. *)
Definition stdout_write (chunk : json) : Eff event unit :=
  match chunk with
  | JStr s => emit (Stdout s)
  | _ => lift (type_error ("write() argument must be str, not " +:+ type_name chunk))
  end.

Definition _print_verbose_stats (data : json) : Eff event unit :=
  print_err (Text (nl +:+ rule));;
  print_err (Text "OLLAMA VERBOSE OUTPUT");;
  print_err (Text rule);;
  (* Model information *)
  has_model ← lift (py_contains "model" data);
  (if has_model : bool
   then m ← lift (py_getitem data "model"); print_err (ModelLine m)
   else mret tt);;
  (* Timing information *)
  total_duration ←
    lift (v ← py_get data "total_duration" (JInt 0); py_truediv v _1e9);
  load_duration ←
    lift (v ← py_get data "load_duration" (JInt 0); py_truediv v _1e9);
  prompt_eval_duration ←
    lift (v ← py_get data "prompt_eval_duration" (JInt 0); py_truediv v _1e9);
  eval_duration ←
    lift (v ← py_get data "eval_duration" (JInt 0); py_truediv v _1e9);
  print_err (Text (nl +:+ "Timing:"));;
  print_err (TotalDuration total_duration);;
  print_err (ModelLoadDuration load_duration);;
  print_err (PromptEvalDuration prompt_eval_duration);;
  print_err (GenerationDuration eval_duration);;
  (* Token counts *)
  prompt_eval_count ← lift (py_get data "prompt_eval_count" (JInt 0));
  eval_count ← lift (py_get data "eval_count" (JInt 0));
  print_err (Text (nl +:+ "Tokens:"));;
  print_err (PromptTokens prompt_eval_count);;
  print_err (GeneratedTokens eval_count);;
  total ← lift (py_add prompt_eval_count eval_count);
  print_err (TotalTokens total);;
  (* Performance metrics *)
  guard ← lift (if Qgt0 prompt_eval_duration then py_gt0 prompt_eval_count
                else Return false);
  (if guard : bool
   then prompt_tokens_per_sec ← lift (py_truediv prompt_eval_count prompt_eval_duration);
        print_err (PromptEvalSpeed prompt_tokens_per_sec)
   else mret tt);;
  guard ← lift (if Qgt0 eval_duration then py_gt0 eval_count else Return false);
  (if guard : bool
   then gen_tokens_per_sec ← lift (py_truediv eval_count eval_duration);
        print_err (GenerationSpeed gen_tokens_per_sec)
   else mret tt);;
  (* Done reason *)
  has_reason ← lift (py_contains "done_reason" data);
  (if has_reason : bool
   then r ← lift (py_getitem data "done_reason"); print_err (CompletionReason r)
   else mret tt);;
  (* Context size *)
  has_context ← lift (py_contains "context" data);
  (if has_context : bool
   then c ← lift (py_getitem data "context");
        n ← lift (py_len c);
        print_err (ContextSize n)
   else mret tt);;
  print_err (Text rule).

(** The request body of [generate]. *)
Definition payload (prompt model : string) (stream : bool) (num_gpu : option Z)
    : gmap string json :=
  let payload : gmap string json :=
    {[ "model" := JStr model; "prompt" := JStr prompt; "stream" := JBool stream ]} in
  (* Add GPU control options if specified *)
  match num_gpu with
  | Some n => <["options" := JDict {[ "num_gpu" := JInt n ]}]> payload
  | None => payload
  end.

(** The loop [for line in resp.iter_lines()], with the variable
    [last_data] it assigns; it returns [last_data] as the loop leaves it. *)
Fixpoint stream_loop (ls : list wire_line) (tail : option (net_failure * string))
    (last_data : json) : Eff event json :=
  match ls with
  | [] =>
      match tail with
      | None => mret last_data
      | Some (f, why) => raise (Exn (net_failure_class f) why)
      end
  | line :: rest =>
      emit (Recv line);;
      if negb (line_truthy line) then stream_loop rest tail last_data
      else
        data ← lift (json_loads_decode line);
        chunk ← lift (py_get data "response" (JStr ""));
        stdout_write chunk;;
        emit Flush;;
        done ← lift (py_get data "done" (JBool false));
        stream_loop rest tail (if truthy done then data else last_data)
  end.

(** Defaults of the source: model "gpt-oss:20b", stream True, timeout 300,
    num_gpu 99, verbose False.  The value returned is [JNull] for [None]. *)
Definition generate (srv : server) (prompt model : string) (stream : bool)
    (timeout : Z) (num_gpu : option Z) (verbose : bool) : Eff event json :=
  let url := OLLAMA_HOST +:+ "/api/generate" in
  let payload := payload prompt model stream num_gpu in
  try_except
    (if stream then
       resp ← lift (requests_post srv (Request url payload true timeout));
       lift (raise_for_status resp);;
       last_data ← stream_loop (lines resp) (lines_end resp) JNull;
       emit (Stdout nl);;
       (* Display verbose statistics if requested *)
       (if verbose && truthy last_data then _print_verbose_stats last_data
        else mret tt);;
       mret JNull
     else
       resp ← lift (requests_post srv (Request url payload false timeout));
       lift (raise_for_status resp);;
       data ← lift (response_json resp);
       (if verbose then _print_verbose_stats data else mret tt);;
       lift (py_get data "response" (JStr "")))
    [ (RequestException, λ e,
         print_err (Text ("[Error] Could not reach Ollama server: " +:+ exn_str e));;
         mret JNull);
      (JSONDecodeError, λ e,
         print_err (Text ("[Error] Invalid JSON from server: " +:+ exn_str e));;
         mret JNull) ].

(** What went to standard output, and the lines taken from the stream. *)
Definition stdout (tr : list event) : string :=
  foldr (λ ev acc, match ev with Stdout s => s +:+ acc | _ => acc end) "" tr.

Definition stderr (tr : list event) : list stderr_line :=
  omap (λ ev, match ev with Stderr l => Some l | _ => None end) tr.

Definition received (tr : list event) : list wire_line :=
  omap (λ ev, match ev with Recv l => Some l | _ => None end) tr.

End Client.

(** ** ollama_gui.py: the generation path *)
Module Gui.

Definition OLLAMA_HOST : string := "http://localhost:11434".

(** *** The UI thread *)

Inductive label :=
| stats_model_label
| stats_total_label
| stats_load_label
| stats_prompt_eval_label
| stats_gen_label
| stats_prompt_tokens_label
| stats_gen_tokens_label
| stats_total_tokens_label
| stats_prompt_speed_label
| stats_gen_speed_label
| stats_completion_label.

#[global] Instance label_eq_dec : EqDecision label.
Proof. solve_decision. Defined.

(** The text of a statistics label, after the label's own caption. *)
Inductive label_text :=
| Dash                         (* "-": nothing to show *)
| NoGenerationYet              (* Status: No generation yet *)
| Value (v : json)             (* a value formatted as it is *)
| Seconds (secs : Q)           (* {:.3f}s *)
| TokPerSec (tps : Q)          (* {:.1f} tok/s *)
| Completed (reason : json).   (* Status: Completed ({reason}) *)

(** [label.config(text=...)] *)
Inductive config_op := Config (l : label) (t : label_text).

Definition config (l : label) (t : label_text) : Eff config_op unit :=
  emit (Config l t).

Definition update_stats (data : json) : Eff config_op unit :=
  if negb (truthy data) then mret tt
  else
    (* Model info *)
    has_model ← lift (py_contains "model" data);
    (if has_model : bool
     then m ← lift (py_getitem data "model"); config stats_model_label (Value m)
     else mret tt);;
    (* Timing *)
    total_duration ←
      lift (v ← py_get data "total_duration" (JInt 0); py_truediv v _1e9);
    load_duration ←
      lift (v ← py_get data "load_duration" (JInt 0); py_truediv v _1e9);
    prompt_eval_duration ←
      lift (v ← py_get data "prompt_eval_duration" (JInt 0); py_truediv v _1e9);
    eval_duration ←
      lift (v ← py_get data "eval_duration" (JInt 0); py_truediv v _1e9);
    config stats_total_label (Seconds total_duration);;
    config stats_load_label (Seconds load_duration);;
    config stats_prompt_eval_label (Seconds prompt_eval_duration);;
    config stats_gen_label (Seconds eval_duration);;
    (* Tokens *)
    prompt_eval_count ← lift (py_get data "prompt_eval_count" (JInt 0));
    eval_count ← lift (py_get data "eval_count" (JInt 0));
    config stats_prompt_tokens_label (Value prompt_eval_count);;
    config stats_gen_tokens_label (Value eval_count);;
    total ← lift (py_add prompt_eval_count eval_count);
    config stats_total_tokens_label (Value total);;
    (* Performance *)
    guard ← lift (if Qgt0 prompt_eval_duration then py_gt0 prompt_eval_count
                  else Return false);
    (if guard : bool
     then prompt_speed ← lift (py_truediv prompt_eval_count prompt_eval_duration);
          config stats_prompt_speed_label (TokPerSec prompt_speed)
     else config stats_prompt_speed_label Dash);;
    guard ← lift (if Qgt0 eval_duration then py_gt0 eval_count else Return false);
    (if guard : bool
     then gen_speed ← lift (py_truediv eval_count eval_duration);
          config stats_gen_speed_label (TokPerSec gen_speed)
     else config stats_gen_speed_label Dash);;
    (* Done reason *)
    has_reason ← lift (py_contains "done_reason" data);
    (if has_reason : bool
     then r ← lift (py_getitem data "done_reason");
          config stats_completion_label (Completed r)
     else mret tt).

Inductive button_state := NORMAL | DISABLED.

(** The part of the window that the generation path touches. *)
Record window := Window {
  is_generating : bool;
  generate_btn : button_state;
  stop_btn : button_state;
  status_label : string * string;        (* text, foreground *)
  output_text : list json;               (* the insertions at END, in order *)
  stats : label → label_text
}.

Definition set_label (l : label) (t : label_text) (f : label → label_text)
    : label → label_text :=
  λ l', if decide (l' = l) then t else f l'.

Definition apply_config (ops : list config_op) (f : label → label_text)
    : label → label_text :=
  foldl (λ f op, match op with Config l t => set_label l t f end) f ops.

Definition update_status (message color : string) (w : window) : window :=
  Window (is_generating w) (generate_btn w) (stop_btn w) (message, color)
         (output_text w) (stats w).

Definition _append_output (text : json) (w : window) : window :=
  Window (is_generating w) (generate_btn w) (stop_btn w) (status_label w)
         (output_text w ++ [text]) (stats w).

Definition _generation_complete (w : window) : window :=
  update_status "Ready" "green"
    (Window false NORMAL DISABLED (status_label w) (output_text w) (stats w)).

Definition stop_generation (w : window) : window :=
  update_status "Stopping..." "orange"
    (Window false (generate_btn w) (stop_btn w) (status_label w)
            (output_text w) (stats w)).

(** The window as [setup_ui] leaves it. *)
Definition initial_window : window :=
  Window false NORMAL DISABLED ("Ready", "green") []
         (λ l, match l with stats_completion_label => NoGenerationYet | _ => Dash end).

(** *** The background thread

    [self.root.after(0, f, *args)] hands a call over to the UI thread; the
    UI thread runs the calls in the order they were handed over. *)
Inductive callback :=
| AppendOutput (text : json)
| UpdateStatus (message color : string)
| UpdateStats (data : json)
| GenerationComplete.

Inductive event :=
| Recv (l : wire_line)
| After (cb : callback).

Definition after (cb : callback) : Eff event unit := emit (After cb).

(** A callback that raises is reported by Tk and the event loop goes on;
    the labels configured before the exception stay configured. *)
Definition run_callback (w : window) (cb : callback) : window :=
  match cb with
  | AppendOutput text => _append_output text w
  | UpdateStatus message color => update_status message color w
  | UpdateStats data =>
      Window (is_generating w) (generate_btn w) (stop_btn w) (status_label w)
             (output_text w) (apply_config (events (update_stats data)) (stats w))
  | GenerationComplete => _generation_complete w
  end.

Definition scheduled (tr : list event) : list callback :=
  omap (λ ev, match ev with After cb => Some cb | _ => None end) tr.

Definition received (tr : list event) : list wire_line :=
  omap (λ ev, match ev with Recv l => Some l | _ => None end) tr.

Definition mainloop (w : window) (tr : list event) : window :=
  foldl run_callback w (scheduled tr).

Definition payload (prompt model : string) (stream : bool) (num_gpu : option Z)
    : gmap string json :=
  let payload : gmap string json :=
    {[ "model" := JStr model; "prompt" := JStr prompt; "stream" := JBool stream ]} in
  match num_gpu with
  | Some n => <["options" := JDict {[ "num_gpu" := JInt n ]}]> payload
  | None => payload
  end.

(** The loop of [_generate_stream].  [flag i] is what [self.is_generating]
    reads when line number [i] has arrived: the UI thread may have cleared
    it in between ([stop_generation]). *)
Fixpoint stream_loop (flag : nat → bool) (i : nat) (ls : list wire_line)
    (tail : option (net_failure * string)) (last_data : json) : Eff event json :=
  match ls with
  | [] =>
      match tail with
      | None => mret last_data
      | Some (f, why) => raise (Exn (net_failure_class f) why)
      end
  | line :: rest =>
      emit (Recv line);;
      if negb (flag i) then mret last_data
      else if negb (line_truthy line) then stream_loop flag (S i) rest tail last_data
      else
        data ← lift (json_loads_decode line);
        chunk ← lift (py_get data "response" (JStr ""));
        (if truthy chunk then after (AppendOutput chunk) else mret tt);;
        done ← lift (py_get data "done" (JBool false));
        stream_loop flag (S i) rest tail (if truthy done then data else last_data)
  end.

Definition _generate_stream (srv : server) (flag : nat → bool) (url : string)
    (payload : gmap string json) : Eff event unit :=
  resp ← lift (requests_post srv (Request url payload true 300));
  lift (raise_for_status resp);;
  last_data ← stream_loop flag 0 (lines resp) (lines_end resp) JNull;
  after (AppendOutput (JStr nl));;
  (* Always show stats *)
  if truthy last_data then after (UpdateStats last_data) else mret tt.

Definition _generate_non_stream (srv : server) (url : string)
    (payload : gmap string json) : Eff event unit :=
  resp ← lift (requests_post srv (Request url payload false 300));
  lift (raise_for_status resp);;
  data ← lift (response_json resp);
  response_text ← lift (py_get data "response" (JStr ""));
  after (AppendOutput response_text);;
  after (AppendOutput (JStr nl));;
  (* Always show stats *)
  after (UpdateStats data).

(** [model], [num_gpu] and [stream] are what the three Tk variables hold;
    an [IntVar] always holds an integer. *)
Definition _generate_thread (srv : server) (flag : nat → bool)
    (model : string) (num_gpu : Z) (stream : bool) (prompt : string)
    : Eff event unit :=
  try_finally
    (try_except
       (let url := OLLAMA_HOST +:+ "/api/generate" in
        let payload := payload prompt model stream (Some num_gpu) in
        if stream then _generate_stream srv flag url payload
        else _generate_non_stream srv url payload)
       [ (Exception, λ e,
            after (AppendOutput (JStr (nl +:+ "[ERROR] " +:+ exn_str e +:+ nl)));;
            after (UpdateStatus "Error" "red")) ])
    (after GenerationComplete).

End Gui.

(** ** ollama_client.py: the entry point *)
Module ClientMain.

(** What [parse_args] hands to [main].  [--num-gpu] has [type=int] and the
    default 99, so the field is an integer, never [None]. *)
Record Namespace := Args {
  prompt : string;
  model : string;
  stream : bool;
  num_gpu : Z;
  verbose : bool
}.

Inductive event :=
| Gen (ev : Client.event)        (* what generate prints and reads *)
| PrintArgs (args : Namespace)   (* print(args, file=sys.stderr) *)
| Print (v : json).              (* print(result) *)

(** A call of [generate] from [main]. *)
Definition call {A} (c : Eff Client.event A) : Eff event A :=
  (Gen <$> events c, outcome c).

Definition is_not_none (v : json) : bool :=
  match v with JNull => false | _ => true end.

(** [main] after [parse_args]; [generate] gets its default timeout. *)
Definition main (srv : server) (args : Namespace) : Eff event unit :=
  (if verbose args then emit (PrintArgs args) else mret tt);;
  result ← call (Client.generate srv (prompt args) (model args) (stream args) 300
                   (Some (num_gpu args)) (verbose args));
  if is_not_none result then emit (Print result) else mret tt.

End ClientMain.

(** ** ollama_gui.py: the buttons *)
Module GuiApp.
Import Gui.

(** [str.isspace] for one character, a code point below 256. *)
Definition is_space (c : Ascii.ascii) : bool :=
  let n := Ascii.nat_of_ascii c in
  ((9 <=? n) && (n <=? 13) || (28 <=? n) && (n <=? 32) ||
   Nat.eqb n 133 || Nat.eqb n 160)%nat.

Fixpoint lstrip (s : string) : string :=
  match s with
  | String c rest => if is_space c then lstrip rest else s
  | EmptyString => EmptyString
  end.

Fixpoint rstrip (s : string) : string :=
  match s with
  | String c rest =>
      match rstrip rest with
      | EmptyString => if is_space c then EmptyString else String c EmptyString
      | r => String c r
      end
  | EmptyString => EmptyString
  end.

(** [s.strip()] *)
Definition strip (s : string) : string := rstrip (lstrip s).

(** ['=' * 70] *)
Definition rule : string :=
  "======================================================================".

Definition insert (text : string) (w : window) : window :=
  Window (is_generating w) (generate_btn w) (stop_btn w) (status_label w)
         (output_text w ++ [JStr text]) (stats w).

(** The Generate button.  [entry] is the text of the prompt widget, which
    [get("1.0", tk.END)] returns with a newline at its end; [now] is the
    time of day as [strftime] formats it.  The result is the window and,
    when a thread is started, the prompt that the thread is given. *)
Definition generate (now entry : string) (w : window) : window * option string :=
  let prompt := strip (entry +:+ nl) in
  if String.eqb prompt "" then (update_status "Please enter a prompt" "red" w, None)
  else if is_generating w then (update_status "Already generating..." "orange" w, None)
  else
    (* Disable controls *)
    let w := Window true DISABLED NORMAL (status_label w) (output_text w) (stats w) in
    let w := update_status "Generating..." "blue" w in
    (* Clear output *)
    let w := insert (nl +:+ rule +:+ nl) w in
    let w := insert ("[" +:+ now +:+ "] Prompt: " +:+ prompt +:+ nl) w in
    let w := insert (rule +:+ nl) w in
    (w, Some prompt).

Definition clear_output (w : window) : window :=
  Window (is_generating w) (generate_btn w) (stop_btn w) (status_label w)
         [] (stats w).

End GuiApp.

(** ** ollama_gui.py: the list of models *)
Module GuiModels.

Inductive event :=
| AvailableModels (l : list json)   (* self.available_models = ... *)
| ComboValues (l : list json)       (* self.model_combo["values"] = ... *)
| ModelVarSet (v : json)            (* self.model_var.set(...) *)
| OutputInsert (s : string).        (* self.output_text.insert(tk.END, ...) *)

(** [requests.get(url, timeout=5)]: [answer] is what the server does with
    the request for [/api/tags]. *)
Definition requests_get (answer : reply) : result response :=
  match answer with
  | NoReply f why => Raise (Exn (net_failure_class f) why)
  | Reply r => Return r
  end.

(** The values that [for x in v] goes through.  A dict gives its keys (in
    the order of the map here, in the order of insertion in Python), a string
    its characters. *)
Definition py_iter (v : json) : result (list json) :=
  match v with
  | JList l => Return l
  | JDict d => Return (JStr <$> (map_to_list d).*1)
  | JStr s => Return ((λ c, JStr (String c EmptyString)) <$> list_ascii_of_string s)
  | _ => type_error ("'" +:+ type_name v +:+ "' object is not iterable")
  end.

(** [[model["name"] for model in models]] *)
Fixpoint names (models : list json) : result (list json) :=
  match models with
  | [] => Return []
  | model :: rest =>
      name ← py_getitem model "name";
      others ← names rest;
      Return (name :: others)
  end.

(** [model_var] is what [self.model_var.get()] returns.  The guarded
    [self.available_models[0]] of an empty list would raise [IndexError], a
    [LookupError]. *)
Definition load_models (answer : reply) (model_var : string) : Eff event unit :=
  try_except
    (resp ← lift (requests_get answer);
     data ← lift (response_json resp);
     available_models ←
       lift (models ← py_get data "models" (JList []);
             l ← py_iter models;
             names l);
     emit (AvailableModels available_models);;
     emit (ComboValues available_models);;
     if truthy (JList available_models) &&
        negb (existsb (is_str model_var) available_models)
     then match available_models with
          | first :: _ => emit (ModelVarSet first)
          | [] => raise (Exn LookupError "list index out of range")
          end
     else mret tt)
    [ (Exception, λ e,
         emit (OutputInsert ("Error loading models: " +:+ exn_str e +:+ nl));;
         emit (ComboValues [JStr "gpt-oss:20b"; JStr "qwen3-coder"])) ].

End GuiModels.

(** ** Vocabulary of the statements *)

(** The [response] and [done] fields of a parsed object, with the defaults
    of [data.get]. *)
Definition response_field (d : gmap string json) : json :=
  default (JStr "") (d !! "response").

Definition done_field (d : gmap string json) : json :=
  default (JBool false) (d !! "done").

(** A well-formed streaming line: blank, or a JSON object whose [response],
    when it has one, is a string. *)
Definition well_formed (l : wire_line) : Prop :=
  match l with
  | Blank => True
  | JsonText (JDict d) => ∃ s, response_field d = JStr s
  | _ => False
  end.

(** The text that a line contributes. *)
Definition chunk_text (l : wire_line) : string :=
  match l with
  | JsonText (JDict d) => match response_field d with JStr s => s | _ => "" end
  | _ => ""
  end.

Definition concat_chunks (ls : list wire_line) : string :=
  foldr (λ l acc, chunk_text l +:+ acc) "" ls.

(** [last_data] after one more line. *)
Definition keep_last (last_data : json) (l : wire_line) : json :=
  match l with
  | JsonText (JDict d) => if truthy (done_field d) then JDict d else last_data
  | _ => last_data
  end.

(** A line that is not valid JSON, and the exception it meets. *)
Definition malformed (l : wire_line) : bool :=
  match l with NotUtf8 _ | NotJson _ => true | _ => false end.

Definition is_raise {A} (c : exn_class) (r : result A) : bool :=
  match r with Raise e => bool_decide (exn_cls e = c) | Return _ => false end.

(** An integer field of the terminal record, 0 when absent. *)
Definition int_field (d : gmap string json) (key : string) : option Z :=
  as_int (default (JInt 0) (d !! key)).

Definition fits_float (n : Z) : bool := Z.abs n <? float_limit.

(** The raw figures of a terminal record: nanoseconds and token counts. *)
Record figures := Figures {
  total_duration : Z;
  load_duration : Z;
  prompt_eval_duration : Z;
  eval_duration : Z;
  prompt_eval_count : Z;
  eval_count : Z
}.

(** The figures of a record whose six fields are integers (or absent) that
    a double can hold; [None] for any other record. *)
Definition figures_of (d : gmap string json) : option figures :=
  td ← int_field d "total_duration";
  ld ← int_field d "load_duration";
  ped ← int_field d "prompt_eval_duration";
  ed ← int_field d "eval_duration";
  pec ← int_field d "prompt_eval_count";
  ec ← int_field d "eval_count";
  if forallb fits_float [td; ld; ped; ed; pec; ec]
  then Some (Figures td ld ped ed pec ec) else None.

(** [len(data['context'])] works: the field is absent or has a length. *)
Definition context_sized (d : gmap string json) : bool :=
  match d !! "context" with
  | None | Some (JStr _) | Some (JList _) | Some (JDict _) => true
  | _ => false
  end.

(** Tokens per second as the code computes them: count / (ns / 1e9). *)
Definition tokens_per_sec (count ns : Z) : Q :=
  (inject_Z count / (inject_Z ns / _1e9))%Q.

Module ClientView.
Import Client.

(** What the loop does for one well-formed line. *)
Definition line_events (l : wire_line) : list event :=
  match l with
  | Blank => [Recv l]
  | _ => [Recv l; Stdout (chunk_text l); Flush]
  end.

Definition prompt_speed_lines (tr : list event) : list Q :=
  omap (λ ev, match ev with Stderr (PromptEvalSpeed q) => Some q | _ => None end) tr.

Definition gen_speed_lines (tr : list event) : list Q :=
  omap (λ ev, match ev with Stderr (GenerationSpeed q) => Some q | _ => None end) tr.

Definition total_tokens_lines (tr : list event) : list json :=
  omap (λ ev, match ev with Stderr (TotalTokens v) => Some v | _ => None end) tr.

(** The lines of [_print_verbose_stats] for a record with the figures [s],
    up to the completion reason. *)
Definition optional_line (d : gmap string json) (key : string)
    (mk : json → stderr_line) : list event :=
  match d !! key with Some v => [Stderr (mk v)] | None => [] end.

Definition speed_line (mk : Q → stderr_line) (count ns : Z) : list event :=
  if (0 <? ns) && (0 <? count) then [Stderr (mk (tokens_per_sec count ns))] else [].

Definition seconds (ns : Z) : Q := (inject_Z ns / _1e9)%Q.

Definition stats_lines (d : gmap string json) (s : figures) : list event :=
  [Stderr (Text (nl +:+ rule)); Stderr (Text "OLLAMA VERBOSE OUTPUT");
   Stderr (Text rule)] ++
  optional_line d "model" ModelLine ++
  [Stderr (Text (nl +:+ "Timing:"));
   Stderr (TotalDuration (seconds (total_duration s)));
   Stderr (ModelLoadDuration (seconds (load_duration s)));
   Stderr (PromptEvalDuration (seconds (prompt_eval_duration s)));
   Stderr (GenerationDuration (seconds (eval_duration s)));
   Stderr (Text (nl +:+ "Tokens:"));
   Stderr (PromptTokens (default (JInt 0) (d !! "prompt_eval_count")));
   Stderr (GeneratedTokens (default (JInt 0) (d !! "eval_count")));
   Stderr (TotalTokens (JInt (prompt_eval_count s + eval_count s)))] ++
  speed_line PromptEvalSpeed (prompt_eval_count s) (prompt_eval_duration s) ++
  speed_line GenerationSpeed (eval_count s) (eval_duration s) ++
  optional_line d "done_reason" CompletionReason.

(** The end of [_print_verbose_stats]: the context size and the closing rule. *)
Definition context_lines (d : gmap string json) : Eff event unit :=
  match d !! "context" with
  | Some c => n ← lift (py_len c); print_err (ContextSize n);; print_err (Text rule)
  | None => print_err (Text rule)
  end.

(** The two error lines of [generate]. *)
Definition could_not_reach (why : string) : event :=
  Stderr (Text ("[Error] Could not reach Ollama server: " +:+ why)).

Definition invalid_json (why : string) : event :=
  Stderr (Text ("[Error] Invalid JSON from server: " +:+ why)).

(** The two [except] clauses of [generate], and its [try] block. *)
Definition handlers : list (exn_class * (exn → Eff event json)) :=
  [ (RequestException, λ e,
       print_err (Text ("[Error] Could not reach Ollama server: " +:+ exn_str e));;
       mret JNull);
    (JSONDecodeError, λ e,
       print_err (Text ("[Error] Invalid JSON from server: " +:+ exn_str e));;
       mret JNull) ].

Definition try_block (srv : server) (prompt model : string) (stream : bool)
    (timeout : Z) (num_gpu : option Z) (verbose : bool) : Eff event json :=
  let url := OLLAMA_HOST +:+ "/api/generate" in
  let payload := payload prompt model stream num_gpu in
  if stream then
    resp ← lift (requests_post srv (Request url payload true timeout));
    lift (raise_for_status resp);;
    last_data ← stream_loop (lines resp) (lines_end resp) JNull;
    emit (Stdout nl);;
    (if verbose && truthy last_data then _print_verbose_stats last_data
     else mret tt);;
    mret JNull
  else
    resp ← lift (requests_post srv (Request url payload false timeout));
    lift (raise_for_status resp);;
    data ← lift (response_json resp);
    (if verbose then _print_verbose_stats data else mret tt);;
    lift (py_get data "response" (JStr "")).

Definition on_stderr (ev : event) : bool :=
  match ev with Stderr _ => true | _ => false end.

(** The request that [generate] sends. *)
Definition request_of (prompt model : string) (stream : bool) (timeout : Z)
    (num_gpu : option Z) : request :=
  Request (OLLAMA_HOST +:+ "/api/generate") (payload prompt model stream num_gpu)
          stream timeout.

End ClientView.

Module GuiView.
Import Gui.

Definition line_events (l : wire_line) : list event :=
  match l with
  | Blank => [Recv l]
  | _ => if String.eqb (chunk_text l) "" then [Recv l]
         else [Recv l; After (AppendOutput (JStr (chunk_text l)))]
  end.

(** The text appended to the output widget by a list of callbacks. *)
Definition appended (cbs : list callback) : list json :=
  omap (λ cb, match cb with AppendOutput t => Some t | _ => None end) cbs.

Definition text_of (v : json) : string :=
  match v with JStr s => s | _ => "" end.

Definition concat_text (vs : list json) : string :=
  foldr (λ v acc, text_of v +:+ acc) "" vs.

(** The labels that [update_stats] configures for a record with the
    figures [s], in order. *)
Definition optional_config (d : gmap string json) (key : string) (l : label)
    (mk : json → label_text) : list config_op :=
  match d !! key with Some v => [Config l (mk v)] | None => [] end.

Definition speed_text (count ns : Z) : label_text :=
  if (0 <? ns) && (0 <? count) then TokPerSec (tokens_per_sec count ns) else Dash.

Definition seconds (ns : Z) : Q := (inject_Z ns / _1e9)%Q.

Definition stats_configs (d : gmap string json) (s : figures) : list config_op :=
  optional_config d "model" stats_model_label Value ++
  [Config stats_total_label (Seconds (seconds (total_duration s)));
   Config stats_load_label (Seconds (seconds (load_duration s)));
   Config stats_prompt_eval_label (Seconds (seconds (prompt_eval_duration s)));
   Config stats_gen_label (Seconds (seconds (eval_duration s)));
   Config stats_prompt_tokens_label (Value (default (JInt 0) (d !! "prompt_eval_count")));
   Config stats_gen_tokens_label (Value (default (JInt 0) (d !! "eval_count")));
   Config stats_total_tokens_label (Value (JInt (prompt_eval_count s + eval_count s)));
   Config stats_prompt_speed_label
          (speed_text (prompt_eval_count s) (prompt_eval_duration s));
   Config stats_gen_speed_label (speed_text (eval_count s) (eval_duration s))] ++
  optional_config d "done_reason" stats_completion_label Completed.

(** What the [except Exception] clause of [_generate_thread] schedules. *)
Definition error_report (r : result unit) : list event :=
  match r with
  | Return _ => []
  | Raise e => [After (AppendOutput (JStr (nl +:+ "[ERROR] " +:+ exn_str e +:+ nl)));
                After (UpdateStatus "Error" "red")]
  end.

(** What [_generate_thread] runs inside its [try]. *)
Definition thread_body (srv : server) (flag : nat → bool) (model : string)
    (num_gpu : Z) (stream : bool) (prompt : string) : Eff event unit :=
  let url := OLLAMA_HOST +:+ "/api/generate" in
  let payload := payload prompt model stream (Some num_gpu) in
  if stream then _generate_stream srv flag url payload
  else _generate_non_stream srv url payload.

Definition request_of (prompt model : string) (stream : bool) (num_gpu : Z)
    : request :=
  Request (OLLAMA_HOST +:+ "/api/generate") (payload prompt model stream (Some num_gpu))
          stream 300.

Definition ready (w : window) : Prop :=
  is_generating w = false ∧ generate_btn w = NORMAL ∧ stop_btn w = DISABLED ∧
  status_label w = ("Ready", "green").

End GuiView.

(** A line whose object has a true [done]. *)
Definition is_done_line (l : wire_line) : bool :=
  match l with
  | JsonText (JDict d) => truthy (done_field d)
  | _ => false
  end.

(** ** Sample servers *)
Module Samples.

Definition obj (fields : list (string * json)) : json := JDict (list_to_map fields).

(** A server that streams the given lines with status 200. *)
Definition streaming (ls : list wire_line) : server :=
  λ _, Reply (Response 200 "" ls None (BadBody "Extra data")).

(** A server that answers with one body and status 200. *)
Definition answering (b : body) : server :=
  λ _, Reply (Response 200 "" [] None b).

Definition unreachable : server := λ _, NoReply Refused "Connection refused".

Definition line_a : wire_line :=
  JsonText (obj [("response", JStr "a"); ("done", JBool false)]).

Definition line_a_done : wire_line :=
  JsonText (obj [("response", JStr "a"); ("done", JBool true)]).

Definition line_b : wire_line := JsonText (obj [("response", JStr "b")]).

Definition line_b_done : wire_line :=
  JsonText (obj [("response", JStr "b"); ("done", JBool true); ("eval_count", JInt 0)]).

(** The terminal record of the end-to-end example of the documentation. *)
Definition hello : gmap string json :=
  list_to_map [("response", JStr "hello"); ("done", JBool true);
               ("eval_count", JInt 2); ("eval_duration", JInt 2000000000)].

Definition hello_figures : figures := Figures 0 0 0 2000000000 0 2.

End Samples.

(** ** Vocabulary of the further properties *)
Module MainView.
Import ClientMain.

(** The values that [main] prints with [print(result)]. *)
Definition printed (tr : list event) : list json :=
  omap (λ ev, match ev with Print v => Some v | _ => None end) tr.

(** What [generate], called from [main], does. *)
Definition generated (tr : list event) : list Client.event :=
  omap (λ ev, match ev with Gen e => Some e | _ => None end) tr.

(** The request that [main] makes [generate] send. *)
Definition request_of (args : Namespace) : request :=
  ClientView.request_of (prompt args) (model args) (stream args) 300
                        (Some (num_gpu args)).

End MainView.

Module ClientMore.
Import Client.

Definition model_lines (tr : list event) : list json :=
  omap (λ ev, match ev with Stderr (ModelLine v) => Some v | _ => None end) tr.

Definition reason_lines (tr : list event) : list json :=
  omap (λ ev, match ev with Stderr (CompletionReason v) => Some v | _ => None end) tr.

Definition context_size_lines (tr : list event) : list Z :=
  omap (λ ev, match ev with Stderr (ContextSize n) => Some n | _ => None end) tr.

(** The timing lines, as the seconds they carry. *)
Definition timing_lines (tr : list event) : list Q :=
  omap (λ ev, match ev with
              | Stderr (TotalDuration q) | Stderr (ModelLoadDuration q)
              | Stderr (PromptEvalDuration q) | Stderr (GenerationDuration q) => Some q
              | _ => None
              end) tr.

(** A duration that [x / 1e9] accepts: an integer (0 when absent) that a
    double can hold. *)
Definition duration_ok (d : gmap string json) (key : string) : bool :=
  match int_field d key with
  | Some n => fits_float n
  | None => false
  end.

Definition duration_keys : list string :=
  ["total_duration"; "load_duration"; "prompt_eval_duration"; "eval_duration"].

End ClientMore.

Module ModelsView.
Import GuiModels.

(** What the model variable holds after the events: the last value set, or
    the one it had. *)
Definition selected (model_var : string) (tr : list event) : json :=
  foldl (λ cur ev, match ev with ModelVarSet v => v | _ => cur end) (JStr model_var) tr.

(** The values of the combo box after the events. *)
Definition combo (before : list json) (tr : list event) : list json :=
  foldl (λ cur ev, match ev with ComboValues l => l | _ => cur end) before tr.

Definition fallback : list json := [JStr "gpt-oss:20b"; JStr "qwen3-coder"].

(** A well-formed answer of [/api/tags]: a list of objects with a name. *)
Definition named (name : json) : json := JDict {[ "name" := name ]}.

(** The names that the first three statements of the [try] obtain. *)
Definition listing (answer : reply) : result (list json) :=
  resp ← requests_get answer;
  data ← response_json resp;
  models ← py_get data "models" (JList []);
  l ← py_iter models;
  names l.

(** The line that the [except] clause inserts. *)
Definition error_line (e : exn) : event :=
  OutputInsert ("Error loading models: " +:+ exn_str e +:+ nl).

(** What the [if] after the two assignments does. *)
Definition selection (model_var : string) (l : list json) : list event :=
  match l with
  | first :: _ => if existsb (is_str model_var) l then [] else [ModelVarSet first]
  | [] => []
  end.

End ModelsView.

Module AppView.
Import Gui GuiApp.

(** One press of Generate and, when a thread starts, the whole run of the
    thread and of the calls it hands over. *)
Definition run (srv : server) (flag : nat → bool) (model : string) (gpu : Z)
    (stream : bool) (now entry : string) (w : window) : window :=
  match generate now entry w with
  | (w', Some prompt) =>
      mainloop w' (events (_generate_thread srv flag model gpu stream prompt))
  | (w', None) => w'
  end.

Definition all_space (s : string) : bool :=
  forallb is_space (list_ascii_of_string s).

Definition starts_with_space (s : string) : bool :=
  match s with String c _ => is_space c | EmptyString => false end.

Fixpoint ends_with_space (s : string) : bool :=
  match s with
  | EmptyString => false
  | String c EmptyString => is_space c
  | String _ rest => ends_with_space rest
  end.

(** The three insertions that open a generation in the output. *)
Definition header (now prompt : string) : list json :=
  [JStr (nl +:+ rule +:+ nl);
   JStr ("[" +:+ now +:+ "] Prompt: " +:+ prompt +:+ nl);
   JStr (rule +:+ nl)].

(** Two windows that differ in the status line at most. *)
Definition same_but_status (w w' : window) : Prop :=
  is_generating w' = is_generating w ∧ generate_btn w' = generate_btn w ∧
  stop_btn w' = stop_btn w ∧ output_text w' = output_text w ∧ stats w' = stats w.

End AppView.

(** * Properties *)

(** ** The monad *)
Section eff_laws.
Context {E A B : Type}.
Implicit Types (c : Eff E A) (f : A → Eff E B).

Lemma after_events_nil c : after_events [] c = c.
Proof. by destruct c. Qed.

Lemma after_events_app (p q : list E) c :
  after_events (p ++ q) c = after_events p (after_events q c).
Proof. unfold after_events; simpl. by rewrite app_assoc. Qed.

Lemma bind_ret (a : A) f : mret a ≫= f = f a.
Proof. unfold mret, mbind, eff_mret, eff_mbind; simpl. by destruct (f a). Qed.

Lemma bind_lift_return (a : A) f : lift (Return a) ≫= f = f a.
Proof. unfold lift, mbind, eff_mbind; simpl. by destruct (f a). Qed.


Lemma bind_after_events (p : list E) c f :
  after_events p c ≫= f = after_events p (c ≫= f).
Proof.
  destruct c as [out [a|e]]; unfold after_events, mbind, eff_mbind; simpl.
  - destruct (f a); simpl. by rewrite app_assoc.
  - reflexivity.
Qed.

Lemma events_bind_return c f a :
  outcome c = Return a → c ≫= f = after_events (events c) (f a).
Proof.
  destruct c as [out r]; simpl; intros ->.
  unfold mbind, eff_mbind, after_events; simpl. by destruct (f a).
Qed.

End eff_laws.

Lemma bind_emit {E B} (e : E) (f : unit → Eff E B) :
  emit e ≫= f = after_events [e] (f tt).
Proof. unfold emit, mbind, eff_mbind, after_events; simpl. by destruct (f tt). Qed.

(** ** The operations on values, where they succeed *)

Lemma result_bind_return {A B} (a : A) (f : A → result B) : (Return a ≫= f) = f a.
Proof. reflexivity. Qed.

Lemma py_get_dict d key dflt :
  py_get (JDict d) key dflt = Return (default dflt (d !! key)).
Proof. reflexivity. Qed.

Lemma py_contains_Some d key v :
  d !! key = Some v → py_contains key (JDict d) = Return true.
Proof. intros H. unfold py_contains. by rewrite H. Qed.

Lemma py_contains_None d key :
  d !! key = None → py_contains key (JDict d) = Return false.
Proof. intros H. unfold py_contains. by rewrite H. Qed.

Lemma py_getitem_Some d key v :
  d !! key = Some v → py_getitem (JDict d) key = Return v.
Proof. intros H. unfold py_getitem. by rewrite H. Qed.

Lemma Qgt0_seconds n : Qgt0 (inject_Z n / _1e9) = (0 <? n).
Proof. unfold Qgt0. simpl. by rewrite Z.mul_1_r. Qed.

Lemma Qgt0_nonzero q : Qgt0 q = true → Qzero q = false.
Proof. unfold Qgt0, Qzero. lia. Qed.

Lemma float_of_int_fits n :
  fits_float n = true → float_of_int n = Return (inject_Z n).
Proof. unfold fits_float, float_of_int. by intros ->. Qed.

Lemma py_truediv_1e9 v n :
  as_int v = Some n → fits_float n = true →
  py_truediv v _1e9 = Return (inject_Z n / _1e9)%Q.
Proof.
  intros Hv Hn. unfold py_truediv. by rewrite Hv, float_of_int_fits.
Qed.

Lemma py_truediv_pos v n q :
  as_int v = Some n → fits_float n = true → Qgt0 q = true →
  py_truediv v q = Return (inject_Z n / q)%Q.
Proof.
  intros Hv Hn Hq. unfold py_truediv. rewrite Hv, float_of_int_fits by done.
  by rewrite result_bind_return, Qgt0_nonzero.
Qed.

Lemma py_add_ints a b x y :
  as_int a = Some x → as_int b = Some y → py_add a b = Return (JInt (x + y)).
Proof. unfold py_add. by intros -> ->. Qed.

Lemma py_gt0_int v x : as_int v = Some x → py_gt0 v = Return (0 <? x).
Proof. unfold py_gt0. by intros ->. Qed.

Lemma truthy_dict d : truthy (JDict d) = true ↔ d ≠ ∅.
Proof.
  simpl. rewrite negb_true_iff, Nat.eqb_neq. apply map_size_non_empty_iff.
Qed.

Lemma figures_of_Some d s :
  figures_of d = Some s →
  (int_field d "total_duration" = Some (total_duration s) ∧
   int_field d "load_duration" = Some (load_duration s) ∧
   int_field d "prompt_eval_duration" = Some (prompt_eval_duration s) ∧
   int_field d "eval_duration" = Some (eval_duration s) ∧
   int_field d "prompt_eval_count" = Some (prompt_eval_count s) ∧
   int_field d "eval_count" = Some (eval_count s)) ∧
  (fits_float (total_duration s) = true ∧ fits_float (load_duration s) = true ∧
   fits_float (prompt_eval_duration s) = true ∧ fits_float (eval_duration s) = true ∧
   fits_float (prompt_eval_count s) = true ∧ fits_float (eval_count s) = true).
Proof.
  unfold figures_of. intros H.
  destruct (int_field d "total_duration") as [td|]; [|done].
  destruct (int_field d "load_duration") as [ld|]; [|done].
  destruct (int_field d "prompt_eval_duration") as [ped|]; [|done].
  destruct (int_field d "eval_duration") as [ed|]; [|done].
  destruct (int_field d "prompt_eval_count") as [pec|]; [|done].
  destruct (int_field d "eval_count") as [ec|]; [|done].
  simpl in H.
  destruct (fits_float td) eqn:?, (fits_float ld) eqn:?, (fits_float ped) eqn:?,
    (fits_float ed) eqn:?, (fits_float pec) eqn:?, (fits_float ec) eqn:?;
    simpl in H; try done.
  by injection H as <-.
Qed.

(** One step of a computation whose next operation is known to succeed. *)
Ltac eff_step :=
  first
    [ rewrite bind_emit
    | rewrite bind_lift_return
    | rewrite bind_ret
    | rewrite bind_after_events
    | rewrite result_bind_return
    | rewrite py_get_dict ]; cbv beta iota.

(** ** Blocks that the two statistics functions share *)
Section blocks.
Context {E : Type}.
Implicit Types (K : unit → Eff E unit).

(** [if key in data: show(data[key])], then the rest. *)
Lemma optional_block d key (mk : json → E) K :
  (lift (py_contains key (JDict d)) ≫= λ has : bool,
     (if has then lift (py_getitem (JDict d) key) ≫= λ v, emit (mk v) else mret tt)
     ≫= K) =
  after_events (match d !! key with Some v => [mk v] | None => [] end) (K tt).
Proof.
  destruct (d !! key) as [v|] eqn:Hk.
  - rewrite (py_contains_Some _ _ _ Hk), (py_getitem_Some _ _ _ Hk).
    by repeat eff_step.
  - rewrite (py_contains_None _ _ Hk). repeat eff_step.
    by rewrite after_events_nil.
Qed.

(** The same block at the end of a function. *)
Lemma optional_block_last d key (mk : json → E) :
  (lift (py_contains key (JDict d)) ≫= λ has : bool,
     if has then lift (py_getitem (JDict d) key) ≫= λ v, emit (mk v) else mret tt) =
  (match d !! key with Some v => [mk v] | None => [] end, Return tt).
Proof.
  destruct (d !! key) as [v|] eqn:Hk.
  - rewrite (py_contains_Some _ _ _ Hk), (py_getitem_Some _ _ _ Hk).
    by repeat eff_step.
  - rewrite (py_contains_None _ _ Hk). by repeat eff_step.
Qed.

(** [if secs > 0 and count > 0: show(count / secs) else: no], then the rest. *)
Lemma speed_block v n ns (yes : Q → E) (no : Eff E unit) (evs : list E) K :
  as_int v = Some n → fits_float n = true → no = (evs, Return tt) →
  (lift (if Qgt0 (inject_Z ns / _1e9) then py_gt0 v else Return false)
   ≫= λ guard : bool,
     (if guard then lift (py_truediv v (inject_Z ns / _1e9)) ≫= λ x, emit (yes x)
      else no) ≫= K) =
  after_events (if (0 <? ns) && (0 <? n) then [yes (tokens_per_sec n ns)] else evs)
               (K tt).
Proof.
  intros Hv Hn ->. rewrite Qgt0_seconds, (py_gt0_int _ _ Hv).
  destruct (0 <? ns) eqn:Hns; [destruct (0 <? n) eqn:Hpos|]; repeat eff_step.
  - rewrite (py_truediv_pos _ _ _ Hv Hn) by (by rewrite Qgt0_seconds).
    by repeat eff_step.
  - by rewrite (events_bind_return _ _ tt).
  - by rewrite (events_bind_return _ _ tt).
Qed.
End blocks.

(** ** The statistics of a record with integer figures *)
Section client_stats.
Import Client ClientView.

Lemma print_verbose_stats_figures d s :
  figures_of d = Some s →
  _print_verbose_stats (JDict d) = after_events (stats_lines d s) (context_lines d).
Proof.
  intros Hs. apply figures_of_Some in Hs as [(Htd & Hld & Hped & Hed & Hpec & Hec)
    (Ftd & Fld & Fped & Fed & Fpec & Fec)].
  unfold _print_verbose_stats, print_err.
  repeat eff_step. rewrite optional_block. repeat eff_step.
  rewrite (py_truediv_1e9 _ _ Htd Ftd), (py_truediv_1e9 _ _ Hld Fld),
    (py_truediv_1e9 _ _ Hped Fped), (py_truediv_1e9 _ _ Hed Fed).
  repeat eff_step.
  rewrite (py_add_ints _ _ _ _ Hpec Hec).
  repeat eff_step.
  rewrite (speed_block _ _ _ _ (mret tt) [] _ Hpec Fpec eq_refl).
  rewrite (speed_block _ _ _ _ (mret tt) [] _ Hec Fec eq_refl).
  rewrite optional_block, <- !after_events_app.
  f_equal.
  - unfold stats_lines, optional_line, speed_line, seconds.
    by rewrite <- !app_assoc.
  - unfold context_lines, print_err.
    destruct (d !! "context") as [c|] eqn:Hc.
    + rewrite (py_contains_Some _ _ _ Hc), (py_getitem_Some _ _ _ Hc).
      repeat eff_step.
      destruct (py_len c) as [n|e]; [by repeat eff_step | done].
    + rewrite (py_contains_None _ _ Hc). by repeat eff_step.
Qed.

Lemma context_lines_returns d :
  context_sized d = true → outcome (context_lines d) = Return tt.
Proof.
  unfold context_sized, context_lines.
  by destruct (d !! "context") as [[]|].
Qed.

Lemma print_verbose_stats_returns d s :
  figures_of d = Some s → context_sized d = true →
  outcome (_print_verbose_stats (JDict d)) = Return tt.
Proof.
  intros Hs Hc. rewrite (print_verbose_stats_figures d s Hs).
  by apply context_lines_returns.
Qed.
End client_stats.

Section gui_stats.
Import Gui GuiView.

Lemma update_stats_figures d s :
  figures_of d = Some s → d ≠ ∅ →
  update_stats (JDict d) = (stats_configs d s, Return tt).
Proof.
  intros Hs Hne. apply figures_of_Some in Hs as [(Htd & Hld & Hped & Hed & Hpec & Hec)
    (Ftd & Fld & Fped & Fed & Fpec & Fec)].
  unfold update_stats, config.
  apply truthy_dict in Hne as ->. cbv beta iota delta [negb].
  rewrite optional_block. repeat eff_step.
  rewrite (py_truediv_1e9 _ _ Htd Ftd), (py_truediv_1e9 _ _ Hld Fld),
    (py_truediv_1e9 _ _ Hped Fped), (py_truediv_1e9 _ _ Hed Fed).
  repeat eff_step.
  rewrite (py_add_ints _ _ _ _ Hpec Hec).
  repeat eff_step.
  rewrite (speed_block _ _ _ _ (emit (Config stats_prompt_speed_label Dash))
             [Config stats_prompt_speed_label Dash] _ Hpec Fpec eq_refl).
  rewrite (speed_block _ _ _ _ (emit (Config stats_gen_speed_label Dash))
             [Config stats_gen_speed_label Dash] _ Hec Fec eq_refl).
  rewrite optional_block_last, <- !after_events_app.
  unfold after_events, stats_configs, optional_config, speed_text, seconds.
  simpl events. simpl outcome. f_equal.
  rewrite <- !app_assoc.
  by destruct ((0 <? prompt_eval_duration s) && (0 <? prompt_eval_count s)),
    ((0 <? eval_duration s) && (0 <? eval_count s)).
Qed.
End gui_stats.

(** ** No division by zero, whatever the record holds *)
Section no_zero_division.
Lemma is_raise_bind {E A B} cls (c : Eff E A) (f : A → Eff E B) :
  is_raise cls (outcome c) = false →
  (∀ a, outcome c = Return a → is_raise cls (outcome (f a)) = false) →
  is_raise cls (outcome (c ≫= f)) = false.
Proof.
  destruct c as [out [a|e]]; simpl; intros Hc Hf; [|done].
  specialize (Hf a eq_refl). unfold mbind, eff_mbind; simpl.
  by destruct (f a).
Qed.

Lemma is_raise_result_bind {A B} cls (r : result A) (f : A → result B) :
  is_raise cls r = false →
  (∀ a, r = Return a → is_raise cls (f a) = false) →
  is_raise cls (r ≫= f) = false.
Proof. destruct r as [a|e]; simpl; intros Hr Hf; [by apply Hf | done]. Qed.

Lemma py_get_no_zd data key dflt :
  is_raise ZeroDivisionError (py_get data key dflt) = false.
Proof. by destruct data. Qed.

Lemma py_contains_no_zd key data :
  is_raise ZeroDivisionError (py_contains key data) = false.
Proof. by destruct data. Qed.

Lemma py_getitem_no_zd data key :
  is_raise ZeroDivisionError (py_getitem data key) = false.
Proof. destruct data; try done. simpl. by destruct (d !! key). Qed.

Lemma py_len_no_zd v : is_raise ZeroDivisionError (py_len v) = false.
Proof. by destruct v. Qed.

Lemma py_add_no_zd a b : is_raise ZeroDivisionError (py_add a b) = false.
Proof. unfold py_add. by destruct a as [|[]| | | |], b as [|[]| | | |]. Qed.

Lemma py_gt0_no_zd v : is_raise ZeroDivisionError (py_gt0 v) = false.
Proof. unfold py_gt0. by destruct (as_int v). Qed.

Lemma py_truediv_no_zd v q :
  Qzero q = false → is_raise ZeroDivisionError (py_truediv v q) = false.
Proof.
  intros Hq. unfold py_truediv, float_of_int.
  destruct (as_int v) as [n|]; [|done].
  destruct (Z.abs n <? float_limit); [|done].
  by rewrite result_bind_return, Hq.
Qed.

Lemma seconds_no_zd data key :
  is_raise ZeroDivisionError
    (v ← py_get data key (JInt 0); py_truediv v _1e9) = false.
Proof.
  apply is_raise_result_bind; [apply py_get_no_zd|].
  intros v _. by apply py_truediv_no_zd.
Qed.

Lemma guard_no_zd q v :
  is_raise ZeroDivisionError (if Qgt0 q then py_gt0 v else Return false) = false.
Proof. destruct (Qgt0 q); [apply py_gt0_no_zd | done]. Qed.

(** The division behind a guard that held. *)
Lemma guarded_truediv_no_zd {E} q v count :
  outcome (lift (E:=E) (if Qgt0 q then py_gt0 v else Return false)) = Return true →
  is_raise ZeroDivisionError (py_truediv count q) = false.
Proof.
  intros H. apply py_truediv_no_zd, Qgt0_nonzero.
  by destruct (Qgt0 q).
Qed.
End no_zero_division.

Ltac no_zd_leaf :=
  lazymatch goal with
  | |- is_raise _ (outcome (emit _)) = false => reflexivity
  | |- is_raise _ (outcome (mret _)) = false => reflexivity
  | |- is_raise _ (outcome (lift ?r)) = false =>
      change (is_raise ZeroDivisionError r = false);
      first [ apply seconds_no_zd | apply guard_no_zd | apply py_get_no_zd
            | apply py_contains_no_zd | apply py_getitem_no_zd | apply py_len_no_zd
            | apply py_add_no_zd | apply py_gt0_no_zd
            | eapply guarded_truediv_no_zd; eassumption ]
  end.

Ltac no_zd_walk :=
  repeat first
    [ no_zd_leaf
    | apply is_raise_bind; [|intros ? ?]
    | match goal with
      | |- is_raise _ (outcome (if ?b then _ else _)) = false => is_var b; destruct b
      end ].

Section stats_no_zero_division.
Lemma print_verbose_stats_no_zd data :
  is_raise ZeroDivisionError (outcome (Client._print_verbose_stats data)) = false.
Proof. unfold Client._print_verbose_stats, Client.print_err. no_zd_walk. Qed.

Lemma update_stats_no_zd data :
  is_raise ZeroDivisionError (outcome (Gui.update_stats data)) = false.
Proof.
  unfold Gui.update_stats, Gui.config.
  destruct (negb (truthy data)); [done|]. no_zd_walk.
Qed.
End stats_no_zero_division.

(** ** The streaming loop of the command-line client *)
Section client_loop.
Import Client ClientView.
Implicit Types (ls pre post : list wire_line) (last_data : json).

Lemma stream_loop_cons line rest tail last_data :
  stream_loop (line :: rest) tail last_data =
  (emit (Recv line);;
   if negb (line_truthy line) then stream_loop rest tail last_data
   else
     data ← lift (json_loads_decode line);
     chunk ← lift (py_get data "response" (JStr ""));
     stdout_write chunk;;
     emit Flush;;
     done ← lift (py_get data "done" (JBool false));
     stream_loop rest tail (if truthy done then data else last_data)).
Proof. reflexivity. Qed.

Lemma stream_loop_well_formed_line l ls tail last_data :
  well_formed l →
  stream_loop (l :: ls) tail last_data =
  after_events (line_events l) (stream_loop ls tail (keep_last last_data l)).
Proof.
  intros Hl. rewrite stream_loop_cons, bind_emit.
  destruct l as [| | |[]]; try done.
  destruct Hl as [s Hs].
  change (negb (line_truthy (JsonText (JDict d)))) with false; cbv iota.
  change (json_loads_decode (JsonText (JDict d))) with (Return (JDict d)).
  rewrite bind_lift_return.
  change (py_get (JDict d) "response" (JStr "")) with (Return (response_field d)).
  rewrite bind_lift_return, Hs.
  change (stdout_write (JStr s)) with (emit (Stdout s)).
  rewrite !bind_emit.
  change (py_get (JDict d) "done" (JBool false)) with (Return (done_field d)).
  rewrite bind_lift_return, <- !after_events_app.
  unfold line_events, chunk_text, keep_last. by rewrite Hs.
Qed.

Lemma stream_loop_malformed_line l ls tail last_data :
  malformed l = true →
  stream_loop (l :: ls) tail last_data = ([Recv l], json_loads_decode l).
Proof. by destruct l. Qed.

Lemma stream_loop_well_formed pre post tail last_data :
  Forall well_formed pre →
  stream_loop (pre ++ post) tail last_data =
  after_events (flat_map line_events pre)
               (stream_loop post tail (foldl keep_last last_data pre)).
Proof.
  intros Hwf. revert last_data.
  induction Hwf as [|l pre Hl _ IH]; intros last_data.
  - change (flat_map line_events []) with (@nil event).
    by rewrite after_events_nil.
  - rewrite <- app_comm_cons, stream_loop_well_formed_line by done.
    rewrite IH. change (flat_map line_events (l :: pre))
      with (line_events l ++ flat_map line_events pre).
    by rewrite after_events_app.
Qed.

(** A whole stream of well-formed lines that ends normally. *)
Lemma stream_loop_all_well_formed ls last_data :
  Forall well_formed ls →
  stream_loop ls None last_data =
  (flat_map line_events ls, Return (foldl keep_last last_data ls)).
Proof.
  intros Hwf. rewrite <- (app_nil_r ls) at 1.
  rewrite stream_loop_well_formed by done.
  unfold after_events; simpl. by rewrite app_nil_r.
Qed.
End client_loop.

(** ** try/except *)
Section try_except_laws.
Context {E A : Type}.
Implicit Types (c : Eff E A) (clauses : list (exn_class * (exn → Eff E A))).

Lemma try_except_after_events (p : list E) c clauses :
  try_except (after_events p c) clauses = after_events p (try_except c clauses).
Proof.
  destruct c as [out [a|e]]; unfold after_events; simpl; [done|].
  destruct (find_clause clauses e) as [[out' r]|]; simpl; [|done].
  by rewrite app_assoc.
Qed.



Lemma outcome_bind_inv {B} c (f : A → Eff E B) (b : B) :
  outcome (c ≫= f) = Return b →
  ∃ a, outcome c = Return a ∧ outcome (f a) = Return b.
Proof.
  destruct c as [out [a|e]]; unfold mbind, eff_mbind; simpl; [|done].
  destruct (f a) as [out' r] eqn:Hf; simpl. intros ->.
  exists a. by rewrite Hf.
Qed.

End try_except_laws.

(** ** generate of the command-line client *)
Section client_generate.
Import Client ClientView.
Context (srv : server) (prompt model : string) (timeout : Z) (num_gpu : option Z).

Lemma generate_unfold stream verbose :
  generate srv prompt model stream timeout num_gpu verbose =
  try_except (try_block srv prompt model stream timeout num_gpu verbose) handlers.
Proof. reflexivity. Qed.

(** The server does not answer. *)
Lemma generate_no_reply stream verbose f why :
  srv (request_of prompt model stream timeout num_gpu) = NoReply f why →
  generate srv prompt model stream timeout num_gpu verbose =
  ([could_not_reach why], Return JNull).
Proof.
  unfold request_of. intros H. unfold generate, requests_post.
  destruct stream; rewrite H; destruct f; reflexivity.
Qed.

(** The server answers with a 4xx or 5xx status. *)
Lemma generate_http_error stream verbose r e :
  srv (request_of prompt model stream timeout num_gpu) = Reply r →
  raise_for_status r = Raise e →
  generate srv prompt model stream timeout num_gpu verbose =
  ([could_not_reach (http_error r)], Return JNull).
Proof.
  unfold request_of. intros H He. unfold generate, requests_post.
  unfold raise_for_status in *.
  destruct stream; rewrite H; repeat eff_step;
    by destruct ((400 <=? status_code r) && (status_code r <? 600)).
Qed.

(** The streaming branch, once the server has answered. *)
Lemma generate_stream_reply verbose r :
  srv (request_of prompt model true timeout num_gpu) = Reply r →
  raise_for_status r = Return tt →
  generate srv prompt model true timeout num_gpu verbose =
  try_except
    (last_data ← stream_loop (lines r) (lines_end r) JNull;
     emit (Stdout nl);;
     (if verbose && truthy last_data then _print_verbose_stats last_data
      else mret tt);;
     mret JNull)
    handlers.
Proof.
  unfold request_of. intros H Hs. unfold generate, requests_post.
  rewrite H. cbv iota. rewrite bind_lift_return, Hs. by rewrite bind_lift_return.
Qed.

(** A stream of well-formed lines that ends normally, without [verbose]. *)
Lemma generate_stream_well_formed r :
  srv (request_of prompt model true timeout num_gpu) = Reply r →
  raise_for_status r = Return tt →
  Forall well_formed (lines r) → lines_end r = None →
  generate srv prompt model true timeout num_gpu false =
  (flat_map line_events (lines r) ++ [Stdout nl], Return JNull).
Proof.
  intros H Hs Hwf Hend. rewrite (generate_stream_reply _ r H Hs), Hend.
  rewrite stream_loop_all_well_formed by done.
  rewrite (events_bind_return _ _ (foldl keep_last JNull (lines r))) by done.
  rewrite try_except_after_events. by repeat eff_step.
Qed.

(** A well-formed prefix, then a line that is not valid JSON. *)
Lemma generate_stream_malformed verbose r pre bad post :
  srv (request_of prompt model true timeout num_gpu) = Reply r →
  raise_for_status r = Return tt →
  lines r = pre ++ bad :: post → Forall well_formed pre → malformed bad = true →
  generate srv prompt model true timeout num_gpu verbose =
  after_events (flat_map line_events pre ++ [Recv bad])
    match bad with
    | NotJson why => ([invalid_json why], Return JNull)
    | _ => ([], json_loads_decode bad)
    end.
Proof.
  intros H Hs Hl Hwf Hbad. rewrite (generate_stream_reply _ r H Hs), Hl.
  rewrite stream_loop_well_formed, stream_loop_malformed_line by done.
  rewrite bind_after_events, try_except_after_events, after_events_app.
  f_equal. by destruct bad.
Qed.

(** Well-formed lines, then the connection breaks. *)
Lemma generate_stream_interrupted verbose r f why :
  srv (request_of prompt model true timeout num_gpu) = Reply r →
  raise_for_status r = Return tt →
  Forall well_formed (lines r) → lines_end r = Some (f, why) →
  generate srv prompt model true timeout num_gpu verbose =
  (flat_map line_events (lines r) ++ [could_not_reach why], Return JNull).
Proof.
  intros H Hs Hwf Hend. rewrite (generate_stream_reply _ r H Hs), Hend.
  rewrite <- (app_nil_r (lines r)) at 1.
  rewrite stream_loop_well_formed by done.
  rewrite bind_after_events, try_except_after_events.
  by destruct f.
Qed.
End client_generate.

(** ** What reaches standard output *)
Section client_output.
Import Client ClientView.

Lemma string_app_assoc (a b c : string) : (a +:+ b) +:+ c = a +:+ (b +:+ c).
Proof.
  induction a as [|x a IH]; [done|].
  change (String x ((a +:+ b) +:+ c) = String x (a +:+ (b +:+ c))).
  by rewrite IH.
Qed.

Lemma string_app_nil_r (a : string) : a +:+ "" = a.
Proof.
  induction a as [|x a IH]; [done|].
  change (String x (a +:+ "") = String x a). by rewrite IH.
Qed.

Lemma stdout_app (p q : list event) : stdout (p ++ q) = stdout p +:+ stdout q.
Proof.
  induction p as [|ev p IH]; [done|].
  destruct ev; try exact IH.
  change (s +:+ stdout (p ++ q) = (s +:+ stdout p) +:+ stdout q).
  by rewrite IH, string_app_assoc.
Qed.

Lemma received_app (p q : list event) : received (p ++ q) = received p ++ received q.
Proof. apply omap_app. Qed.

Lemma stdout_line_events ls : stdout (flat_map line_events ls) = concat_chunks ls.
Proof.
  induction ls as [|l ls IH]; [done|].
  change (flat_map line_events (l :: ls))
    with (line_events l ++ flat_map line_events ls).
  rewrite stdout_app, IH.
  destruct l as [| | |v]; try done.
  change (stdout (line_events (JsonText v)))
    with (chunk_text (JsonText v) +:+ "").
  by rewrite string_app_nil_r.
Qed.

Lemma received_line_events ls : received (flat_map line_events ls) = ls.
Proof.
  induction ls as [|l ls IH]; [done|].
  change (flat_map line_events (l :: ls))
    with (line_events l ++ flat_map line_events ls).
  rewrite received_app, IH. by destruct l.
Qed.

Lemma on_stderr_silent (tr : list event) :
  Forall (λ ev, on_stderr ev = true) tr → stdout tr = "" ∧ received tr = [].
Proof.
  induction 1 as [|ev tr Hev _ [IH1 IH2]]; [done|].
  destruct ev; try done.
Qed.

Lemma on_stderr_bind {A B} (c : Eff event A) (f : A → Eff event B) :
  Forall (λ ev, on_stderr ev = true) (events c) →
  (∀ a, Forall (λ ev, on_stderr ev = true) (events (f a))) →
  Forall (λ ev, on_stderr ev = true) (events (c ≫= f)).
Proof.
  destruct c as [out [a|e]]; unfold mbind, eff_mbind; simpl; intros Hc Hf; [|done].
  specialize (Hf a). destruct (f a) as [out' r]; simpl in *.
  by apply Forall_app.
Qed.

Lemma print_verbose_stats_on_stderr data :
  Forall (λ ev, on_stderr ev = true) (events (_print_verbose_stats data)).
Proof.
  unfold _print_verbose_stats, print_err.
  repeat first
    [ apply on_stderr_bind; [|intros ?]
    | match goal with
      | |- Forall _ (events (emit (Stderr _))) => by apply Forall_singleton
      | |- Forall _ (events (lift _)) => apply Forall_nil_2
      | |- Forall _ (events (mret _)) => apply Forall_nil_2
      | |- Forall _ (events (if ?b then _ else _)) => is_var b; destruct b
      end ].
Qed.

Lemma try_except_on_stderr {A} (c : Eff event A) clauses :
  Forall (λ ev, on_stderr ev = true) (events c) →
  (∀ e h, find_clause clauses e = Some h →
          Forall (λ ev, on_stderr ev = true) (events h)) →
  Forall (λ ev, on_stderr ev = true) (events (try_except c clauses)).
Proof.
  destruct c as [out [a|e]]; simpl; intros Hc Hh; [done|].
  specialize (Hh e). destruct (find_clause clauses e) as [[out' r]|]; [|done].
  simpl. apply Forall_app. split; [done|]. by apply (Hh _ eq_refl).
Qed.
End client_output.

(** ** The streaming loop of the window *)
Section gui_loop.
Import Gui GuiView.
Implicit Types (ls pre post : list wire_line) (last_data : json).

Lemma gui_stream_loop_cons flag i line rest tail last_data :
  stream_loop flag i (line :: rest) tail last_data =
  (emit (Recv line);;
   if negb (flag i) then mret last_data
   else if negb (line_truthy line) then stream_loop flag (S i) rest tail last_data
   else
     data ← lift (json_loads_decode line);
     chunk ← lift (py_get data "response" (JStr ""));
     (if truthy chunk then after (AppendOutput chunk) else mret tt);;
     done ← lift (py_get data "done" (JBool false));
     stream_loop flag (S i) rest tail (if truthy done then data else last_data)).
Proof. reflexivity. Qed.

Lemma gui_stream_loop_stopped flag i l ls tail last_data :
  flag i = false →
  stream_loop flag i (l :: ls) tail last_data = ([Recv l], Return last_data).
Proof. intros H. rewrite gui_stream_loop_cons, H. by rewrite bind_emit. Qed.

Lemma gui_stream_loop_well_formed_line flag i l ls tail last_data :
  flag i = true → well_formed l →
  stream_loop flag i (l :: ls) tail last_data =
  after_events (line_events l) (stream_loop flag (S i) ls tail (keep_last last_data l)).
Proof.
  intros Hi Hl. rewrite gui_stream_loop_cons, bind_emit, Hi. cbv beta iota delta [negb].
  destruct l as [| | |[]]; try done.
  destruct Hl as [s Hs].
  change (line_truthy (JsonText (JDict d))) with true; cbv iota.
  change (json_loads_decode (JsonText (JDict d))) with (Return (JDict d)).
  rewrite bind_lift_return.
  change (py_get (JDict d) "response" (JStr "")) with (Return (response_field d)).
  rewrite bind_lift_return, Hs.
  change (py_get (JDict d) "done" (JBool false)) with (Return (done_field d)).
  unfold line_events, chunk_text, keep_last, after. rewrite Hs.
  change (truthy (JStr s)) with (negb (String.eqb s "")).
  destruct (String.eqb s ""); cbv beta iota delta [negb]; repeat eff_step;
    by rewrite <- ?after_events_app.
Qed.

Lemma gui_stream_loop_well_formed flag i pre post tail last_data :
  (∀ j, flag j = true) → Forall well_formed pre →
  stream_loop flag i (pre ++ post) tail last_data =
  after_events (flat_map line_events pre)
    (stream_loop flag (i + length pre) post tail (foldl keep_last last_data pre)).
Proof.
  intros Hflag Hwf. revert i last_data.
  induction Hwf as [|l pre Hl _ IH]; intros i last_data.
  - change (flat_map line_events []) with (@nil event).
    rewrite after_events_nil. simpl. by rewrite Nat.add_0_r.
  - rewrite <- app_comm_cons, gui_stream_loop_well_formed_line by done.
    rewrite IH. change (flat_map line_events (l :: pre))
      with (line_events l ++ flat_map line_events pre).
    rewrite after_events_app. simpl length.
    by replace (S i + length pre)%nat with (i + S (length pre))%nat by lia.
Qed.

Lemma gui_stream_loop_all_well_formed flag i ls last_data :
  (∀ j, flag j = true) → Forall well_formed ls →
  stream_loop flag i ls None last_data =
  (flat_map line_events ls, Return (foldl keep_last last_data ls)).
Proof.
  intros Hflag Hwf. rewrite <- (app_nil_r ls) at 1.
  rewrite gui_stream_loop_well_formed by done.
  unfold after_events; simpl. by rewrite app_nil_r.
Qed.

Lemma appended_line_events ls :
  concat_text (appended (scheduled (flat_map line_events ls))) = concat_chunks ls.
Proof.
  induction ls as [|l ls IH]; [done|].
  change (flat_map line_events (l :: ls))
    with (line_events l ++ flat_map line_events ls).
  unfold scheduled, appended in *. rewrite !omap_app.
  unfold concat_text in *. rewrite foldr_app, IH.
  change (concat_chunks (l :: ls)) with (chunk_text l +:+ concat_chunks ls).
  destruct l as [| | |v]; try done.
  unfold line_events. destruct (String.eqb_spec (chunk_text (JsonText v)) "") as [->|];
    done.
Qed.

Lemma received_gui_line_events ls : received (flat_map line_events ls) = ls.
Proof.
  induction ls as [|l ls IH]; [done|].
  change (flat_map line_events (l :: ls))
    with (line_events l ++ flat_map line_events ls).
  unfold received in *. rewrite omap_app, IH.
  destruct l as [| | |v]; try done.
  unfold line_events. by destruct (String.eqb (chunk_text (JsonText v)) "").
Qed.
End gui_loop.

(** The terminal record is the last object with a true [done]. *)
Lemma keep_last_not_done l last_data :
  is_done_line l = false → keep_last last_data l = last_data.
Proof. destruct l as [| | |[]]; try done. simpl. by intros ->. Qed.

Lemma keep_last_none ls last_data :
  Forall (λ l, is_done_line l = false) ls → foldl keep_last last_data ls = last_data.
Proof.
  induction 1 as [|l ls Hl _ IH]; [done|]. simpl.
  by rewrite keep_last_not_done.
Qed.

Lemma keep_last_done pre d post last_data :
  truthy (done_field d) = true → Forall (λ l, is_done_line l = false) post →
  foldl keep_last last_data (pre ++ JsonText (JDict d) :: post) = JDict d.
Proof.
  intros Hd Hpost. rewrite foldl_app. simpl. rewrite Hd.
  by apply keep_last_none.
Qed.

(** ** The background thread of the window *)
Section gui_thread.
Import Gui GuiView.
Context (srv : server) (flag : nat → bool) (model : string) (num_gpu : Z)
        (prompt : string).

Lemma isinstance_Exception e : isinstance e Exception = true.
Proof. by destruct e as [[] ?]. Qed.

Lemma generate_thread_unfold stream :
  _generate_thread srv flag model num_gpu stream prompt =
  try_finally
    (try_except (thread_body srv flag model num_gpu stream prompt)
       [ (Exception, λ e,
            after (AppendOutput (JStr (nl +:+ "[ERROR] " +:+ exn_str e +:+ nl)));;
            after (UpdateStatus "Error" "red")) ])
    (after GenerationComplete).
Proof. reflexivity. Qed.

(** Whatever the body does, the thread returns, and the last call it
    hands over is [_generation_complete]. *)
Lemma generate_thread_events stream :
  _generate_thread srv flag model num_gpu stream prompt =
  (events (thread_body srv flag model num_gpu stream prompt) ++
   error_report (outcome (thread_body srv flag model num_gpu stream prompt)) ++
   [After GenerationComplete], Return tt).
Proof.
  rewrite generate_thread_unfold.
  destruct (thread_body srv flag model num_gpu stream prompt) as [out [[]|e]].
  - reflexivity.
  - unfold try_except, find_clause. rewrite isinstance_Exception.
    unfold after. rewrite bind_emit. simpl. by rewrite <- app_assoc.
Qed.

Lemma mainloop_complete w (tr : list event) :
  ready (mainloop w (tr ++ [After GenerationComplete])).
Proof.
  unfold mainloop, scheduled. rewrite omap_app, foldl_app. by repeat split.
Qed.

Lemma thread_body_stream_well_formed r :
  srv (request_of prompt model true num_gpu) = Reply r →
  raise_for_status r = Return tt →
  Forall well_formed (lines r) → lines_end r = None → (∀ i, flag i = true) →
  thread_body srv flag model num_gpu true prompt =
  (flat_map line_events (lines r) ++ After (AppendOutput (JStr nl)) ::
     (if truthy (foldl keep_last JNull (lines r))
      then [After (UpdateStats (foldl keep_last JNull (lines r)))] else []),
   Return tt).
Proof.
  unfold request_of. intros H Hs Hwf Hend Hflag.
  unfold thread_body, _generate_stream, requests_post. rewrite H. cbv iota.
  rewrite bind_lift_return, Hs, bind_lift_return.
  rewrite Hend, gui_stream_loop_all_well_formed by done.
  rewrite (events_bind_return _ _ (foldl keep_last JNull (lines r))) by done.
  unfold after. rewrite bind_emit.
  by destruct (truthy (foldl keep_last JNull (lines r))).
Qed.

Lemma thread_body_non_stream r d :
  srv (request_of prompt model false num_gpu) = Reply r →
  raise_for_status r = Return tt → content r = Body (JDict d) →
  thread_body srv flag model num_gpu false prompt =
  ([After (AppendOutput (response_field d)); After (AppendOutput (JStr nl));
    After (UpdateStats (JDict d))], Return tt).
Proof.
  unfold request_of. intros H Hs Hb.
  unfold thread_body, _generate_non_stream, requests_post, response_json.
  rewrite H. cbv iota. rewrite bind_lift_return, Hs, bind_lift_return, Hb.
  by repeat eff_step.
Qed.
End gui_thread.

(** ** generate: the buffered branch and the call boundary *)
Section client_boundary.
Import Client ClientView.
Context (srv : server) (prompt model : string) (timeout : Z) (num_gpu : option Z).

Lemma handlers_on_stderr e h :
  find_clause handlers e = Some h →
  Forall (λ ev, on_stderr ev = true) (events h).
Proof.
  unfold handlers, find_clause.
  destruct (isinstance e RequestException); [|destruct (isinstance e JSONDecodeError)];
    intros [= <-]; try done; by repeat constructor.
Qed.

(** The outcome of [generate] from the outcome of its [try] block. *)
Lemma handlers_outcome (body : Eff event json) :
  outcome (try_except body handlers) =
  match outcome body with
  | Return v => Return v
  | Raise e =>
      if isinstance e RequestException || isinstance e JSONDecodeError
      then Return JNull else Raise e
  end.
Proof.
  destruct body as [out [v|e]]; [done|]. unfold try_except, handlers, find_clause.
  change (outcome (out, Raise e)) with (@Raise json e). cbv iota.
  destruct (isinstance e RequestException); [reflexivity|].
  destruct (isinstance e JSONDecodeError); reflexivity.
Qed.

(** A [try] block that raises one of the two classes: the message, and
    [None]. *)
Lemma try_except_handlers (body : Eff event json) e :
  outcome body = Raise e →
  (isinstance e RequestException = true →
   try_except body handlers =
   (events body ++ [could_not_reach (exn_str e)], Return JNull)) ∧
  (isinstance e RequestException = false → isinstance e JSONDecodeError = true →
   try_except body handlers =
   (events body ++ [invalid_json (exn_str e)], Return JNull)).
Proof.
  destruct body as [out r]; simpl. intros ->.
  unfold handlers, find_clause. split.
  - by intros ->.
  - by intros -> ->.
Qed.

(** A stream of well-formed lines, with or without [verbose]: after the
    chunks and the newline only standard error is written. *)
Lemma generate_stream_well_formed_verbose verbose r :
  srv (request_of prompt model true timeout num_gpu) = Reply r →
  raise_for_status r = Return tt →
  Forall well_formed (lines r) → lines_end r = None →
  ∃ rest,
    events (generate srv prompt model true timeout num_gpu verbose) =
    flat_map line_events (lines r) ++ Stdout nl :: rest ∧
    Forall (λ ev, on_stderr ev = true) rest.
Proof.
  intros H Hs Hwf Hend. rewrite (generate_stream_reply _ _ _ _ _ _ r H Hs), Hend.
  rewrite stream_loop_all_well_formed by done.
  rewrite (events_bind_return _ _ (foldl keep_last JNull (lines r))) by done.
  rewrite try_except_after_events, bind_emit, try_except_after_events.
  change (events (flat_map line_events (lines r), ?x))
    with (flat_map line_events (lines r)).
  eexists. split; [reflexivity|].
  apply try_except_on_stderr; [|apply handlers_on_stderr].
  apply on_stderr_bind; [|by intros []].
  destruct (verbose && truthy _); [apply print_verbose_stats_on_stderr | done].
Qed.

Lemma generate_non_stream_reply verbose r :
  srv (request_of prompt model false timeout num_gpu) = Reply r →
  raise_for_status r = Return tt →
  generate srv prompt model false timeout num_gpu verbose =
  try_except
    (data ← lift (response_json r);
     (if verbose then _print_verbose_stats data else mret tt);;
     lift (py_get data "response" (JStr "")))
    handlers.
Proof.
  unfold request_of. intros H Hs. unfold generate, requests_post.
  rewrite H. cbv iota. rewrite bind_lift_return, Hs. by rewrite bind_lift_return.
Qed.

(** A body that [resp.json()] rejects. *)
Lemma generate_bad_body verbose r why :
  srv (request_of prompt model false timeout num_gpu) = Reply r →
  raise_for_status r = Return tt → content r = BadBody why →
  generate srv prompt model false timeout num_gpu verbose =
  ([could_not_reach why], Return JNull).
Proof.
  intros H Hs Hb. rewrite (generate_non_stream_reply _ r H Hs).
  unfold response_json. by rewrite Hb.
Qed.

(** A body that is a JSON object. *)
Lemma generate_object verbose r d :
  srv (request_of prompt model false timeout num_gpu) = Reply r →
  raise_for_status r = Return tt → content r = Body (JDict d) →
  (verbose = true → outcome (_print_verbose_stats (JDict d)) = Return tt) →
  generate srv prompt model false timeout num_gpu verbose =
  ((if verbose then events (_print_verbose_stats (JDict d)) else []),
   Return (response_field d)).
Proof.
  intros H Hs Hb Hv. rewrite (generate_non_stream_reply _ r H Hs).
  unfold response_json. rewrite Hb, bind_lift_return.
  destruct verbose.
  - rewrite (events_bind_return _ _ tt) by auto.
    rewrite try_except_after_events. unfold after_events; simpl.
    by rewrite app_nil_r.
  - by rewrite bind_ret.
Qed.

(** What [generate] lets through is neither of the two classes. *)
Lemma generate_escapes stream verbose e :
  outcome (generate srv prompt model stream timeout num_gpu verbose) = Raise e →
  isinstance e RequestException = false ∧ isinstance e JSONDecodeError = false.
Proof.
  rewrite generate_unfold, handlers_outcome.
  destruct (outcome (try_block _ _ _ _ _ _ _)) as [v|e']; [done|].
  destruct (isinstance e' RequestException) eqn:H1; [done|].
  destruct (isinstance e' JSONDecodeError) eqn:H2; [done|].
  by intros [= <-].
Qed.

(** The streaming [try] block returns [None] when it returns. *)
Lemma try_block_stream_returns_none verbose v :
  outcome (try_block srv prompt model true timeout num_gpu verbose) = Return v →
  v = JNull.
Proof.
  unfold try_block. intros H.
  repeat (apply outcome_bind_inv in H as (? & _ & H)).
  by injection H.
Qed.

(** The buffered [try] block returns the [response] of an object body. *)
Lemma try_block_non_stream_returns verbose v :
  outcome (try_block srv prompt model false timeout num_gpu verbose) = Return v →
  ∃ r d, srv (request_of prompt model false timeout num_gpu) = Reply r ∧
         raise_for_status r = Return tt ∧ content r = Body (JDict d) ∧
         v = response_field d.
Proof.
  unfold try_block, request_of. intros H.
  apply outcome_bind_inv in H as (r & Hr & H).
  apply outcome_bind_inv in H as ([] & Hs & H).
  apply outcome_bind_inv in H as (data & Hd & H).
  apply outcome_bind_inv in H as ([] & _ & H).
  exists r. unfold requests_post, response_json, lift, outcome in *; simpl in *.
  destruct (srv _) as [|r']; [done|]. injection Hr as ->.
  destruct (content r) as [data'|]; [|done]. injection Hd as ->.
  destruct data; try done. exists d. by injection H as <-.
Qed.

Lemma generate_returns stream verbose v :
  outcome (generate srv prompt model stream timeout num_gpu verbose) = Return v →
  v = JNull ∨
  outcome (try_block srv prompt model stream timeout num_gpu verbose) = Return v.
Proof.
  rewrite generate_unfold, handlers_outcome.
  destruct (outcome (try_block _ _ _ _ _ _ _)) as [v'|e]; [by right|].
  destruct (_ || _); [|done]. intros [= <-]. by left.
Qed.
End client_boundary.

(** ** What the window appends *)
Section gui_output.
Import Gui GuiView.

Lemma scheduled_app (p q : list event) :
  scheduled (p ++ q) = scheduled p ++ scheduled q.
Proof. apply omap_app. Qed.

Lemma gui_received_app (p q : list event) :
  received (p ++ q) = received p ++ received q.
Proof. apply omap_app. Qed.

Lemma appended_app (p q : list callback) :
  appended (p ++ q) = appended p ++ appended q.
Proof. apply omap_app. Qed.

Lemma concat_text_app (p q : list json) :
  concat_text (p ++ q) = concat_text p +:+ concat_text q.
Proof.
  induction p as [|v p IH]; [done|].
  change (text_of v +:+ concat_text (p ++ q) =
          (text_of v +:+ concat_text p) +:+ concat_text q).
  by rewrite IH, string_app_assoc.
Qed.

(** The events of the thread for a stream of well-formed lines that ends
    normally and is not stopped. *)
Lemma generate_thread_stream_events srv flag model gpu prompt r :
  srv (request_of prompt model true gpu) = Reply r →
  raise_for_status r = Return tt →
  Forall well_formed (lines r) → lines_end r = None → (∀ i, flag i = true) →
  events (_generate_thread srv flag model gpu true prompt) =
  flat_map line_events (lines r) ++
  After (AppendOutput (JStr nl)) ::
  (if truthy (foldl keep_last JNull (lines r))
   then [After (UpdateStats (foldl keep_last JNull (lines r)))] else []) ++
  [After GenerationComplete].
Proof.
  intros Hg Hs Hwf Hend Hflag. rewrite generate_thread_events.
  rewrite (thread_body_stream_well_formed srv flag model gpu prompt r) by done.
  unfold events, outcome, error_report; simpl fst; simpl snd.
  by rewrite <- app_assoc.
Qed.
End gui_output.

(** ** What a stream of well-formed lines presents *)
Section stream_output.
Context (srv : server) (prompt model : string) (r : response).
Hypothesis status_ok : raise_for_status r = Return tt.
Hypothesis lines_ok : Forall well_formed (lines r).
Hypothesis ends : lines_end r = None.

Lemma generate_stream_output timeout num_gpu verbose :
  srv (ClientView.request_of prompt model true timeout num_gpu) = Reply r →
  let tr := events (Client.generate srv prompt model true timeout num_gpu verbose) in
  (∃ rest, tr = flat_map ClientView.line_events (lines r) ++ Client.Stdout nl :: rest ∧
           Forall (λ ev, ClientView.on_stderr ev = true) rest) ∧
  Client.stdout tr = concat_chunks (lines r) +:+ nl ∧
  Client.received tr = lines r.
Proof.
  intros Hc tr.
  destruct (generate_stream_well_formed_verbose srv prompt model timeout num_gpu
              verbose r Hc status_ok lines_ok ends) as (rest & Htr & Hrest).
  fold tr in Htr. split; [by exists rest|].
  apply on_stderr_silent in Hrest as [Hout Hrecv].
  rewrite Htr. change (Client.Stdout nl :: rest) with ([Client.Stdout nl] ++ rest).
  rewrite !stdout_app, !received_app, stdout_line_events, received_line_events.
  rewrite Hout, Hrecv. split; [|by rewrite !app_nil_r].
  change (Client.stdout [Client.Stdout nl]) with (nl +:+ "").
  by rewrite !string_app_nil_r.
Qed.

Lemma generate_thread_stream_output flag gpu :
  srv (GuiView.request_of prompt model true gpu) = Reply r →
  (∀ i, flag i = true) →
  let tg := events (Gui._generate_thread srv flag model gpu true prompt) in
  (∃ rest, tg = flat_map GuiView.line_events (lines r) ++
                Gui.After (Gui.AppendOutput (JStr nl)) :: rest ∧
           GuiView.appended (Gui.scheduled rest) = [] ∧ Gui.received rest = []) ∧
  GuiView.concat_text (GuiView.appended (Gui.scheduled tg)) =
    concat_chunks (lines r) +:+ nl ∧
  Gui.received tg = lines r.
Proof.
  intros Hg Hflag tg. subst tg.
  rewrite (generate_thread_stream_events srv flag model gpu prompt r) by done.
  set (rest := (if truthy _ then _ else _) ++ [Gui.After Gui.GenerationComplete]).
  assert (Hrest : GuiView.appended (Gui.scheduled rest) = [] ∧ Gui.received rest = []).
  { subst rest. by destruct (truthy _). }
  destruct Hrest as [Happ Hrecv].
  split; [by exists rest|].
  change (Gui.After (Gui.AppendOutput (JStr nl)) :: rest)
    with ([Gui.After (Gui.AppendOutput (JStr nl))] ++ rest).
  rewrite !scheduled_app, !appended_app, !concat_text_app, !gui_received_app.
  rewrite appended_line_events, received_gui_line_events, Happ, Hrecv.
  split; [|by rewrite !app_nil_r].
  change (GuiView.concat_text (GuiView.appended (Gui.scheduled [_])))
    with (nl +:+ "").
  change (GuiView.concat_text []) with "".
  by rewrite !string_app_nil_r.
Qed.
End stream_output.

(** ** Reading the statistics off the trace *)
Lemma total_tokens_lines_app (p q : list Client.event) :
  ClientView.total_tokens_lines (p ++ q) =
  ClientView.total_tokens_lines p ++ ClientView.total_tokens_lines q.
Proof. apply omap_app. Qed.

Lemma prompt_speed_lines_app (p q : list Client.event) :
  ClientView.prompt_speed_lines (p ++ q) =
  ClientView.prompt_speed_lines p ++ ClientView.prompt_speed_lines q.
Proof. apply omap_app. Qed.

Lemma gen_speed_lines_app (p q : list Client.event) :
  ClientView.gen_speed_lines (p ++ q) =
  ClientView.gen_speed_lines p ++ ClientView.gen_speed_lines q.
Proof. apply omap_app. Qed.

Section stats_readout.
Context (d : gmap string json) (s : figures).
Hypothesis figures_ok : figures_of d = Some s.

Lemma print_verbose_stats_events :
  events (Client._print_verbose_stats (JDict d)) =
  ClientView.stats_lines d s ++ events (ClientView.context_lines d).
Proof. by rewrite (print_verbose_stats_figures d s). Qed.

Lemma context_lines_no_figures :
  ClientView.total_tokens_lines (events (ClientView.context_lines d)) = [] ∧
  ClientView.prompt_speed_lines (events (ClientView.context_lines d)) = [] ∧
  ClientView.gen_speed_lines (events (ClientView.context_lines d)) = [].
Proof.
  unfold ClientView.context_lines. by destruct (d !! "context") as [[]|].
Qed.

Lemma total_tokens_shown :
  ClientView.total_tokens_lines (events (Client._print_verbose_stats (JDict d))) =
  [JInt (prompt_eval_count s + eval_count s)].
Proof.
  rewrite print_verbose_stats_events, total_tokens_lines_app.
  rewrite (proj1 context_lines_no_figures), app_nil_r.
  unfold ClientView.stats_lines, ClientView.optional_line, ClientView.speed_line.
  by destruct (d !! "model"), (d !! "done_reason"), (_ && _), (_ && _).
Qed.

Lemma prompt_speed_shown :
  ClientView.prompt_speed_lines (events (Client._print_verbose_stats (JDict d))) =
  if (0 <? prompt_eval_duration s) && (0 <? prompt_eval_count s)
  then [tokens_per_sec (prompt_eval_count s) (prompt_eval_duration s)] else [].
Proof.
  rewrite print_verbose_stats_events, prompt_speed_lines_app.
  rewrite (proj1 (proj2 context_lines_no_figures)), app_nil_r.
  unfold ClientView.stats_lines, ClientView.optional_line, ClientView.speed_line.
  by destruct (d !! "model"), (d !! "done_reason"), (_ && _), (_ && _).
Qed.

Lemma gen_speed_shown :
  ClientView.gen_speed_lines (events (Client._print_verbose_stats (JDict d))) =
  if (0 <? eval_duration s) && (0 <? eval_count s)
  then [tokens_per_sec (eval_count s) (eval_duration s)] else [].
Proof.
  rewrite print_verbose_stats_events, gen_speed_lines_app.
  rewrite (proj2 (proj2 context_lines_no_figures)), app_nil_r.
  unfold ClientView.stats_lines, ClientView.optional_line, ClientView.speed_line.
  by destruct (d !! "model"), (d !! "done_reason"), (_ && _), (_ && _).
Qed.

(** The labels of the window after [update_stats]. *)
Lemma update_stats_labels w :
  d ≠ ∅ →
  let labels := Gui.stats (Gui.run_callback w (Gui.UpdateStats (JDict d))) in
  labels Gui.stats_total_tokens_label =
    Gui.Value (JInt (prompt_eval_count s + eval_count s)) ∧
  labels Gui.stats_prompt_speed_label =
    GuiView.speed_text (prompt_eval_count s) (prompt_eval_duration s) ∧
  labels Gui.stats_gen_speed_label =
    GuiView.speed_text (eval_count s) (eval_duration s).
Proof.
  intros Hne labels. subst labels. unfold Gui.run_callback, Gui.stats.
  rewrite (update_stats_figures d s) by done.
  unfold events, fst, GuiView.stats_configs, GuiView.optional_config.
  by destruct (d !! "model"), (d !! "done_reason").
Qed.

Lemma absent_count_is_zero key n :
  d !! key = None → int_field d key = Some n → n = 0.
Proof. unfold int_field. intros ->. by intros [= <-]. Qed.
End stats_readout.

Lemma speed_guard_iff count ns :
  (0 <? ns) && (0 <? count) = true ↔ 0 < count ∧ 0 < ns.
Proof. rewrite andb_true_iff, !Z.ltb_lt. tauto. Qed.

Lemma speed_shown_iff count ns :
  (if (0 <? ns) && (0 <? count) then [tokens_per_sec count ns] else []) ≠ [] ↔
  0 < count ∧ 0 < ns.
Proof. rewrite <- speed_guard_iff. by destruct (_ && _). Qed.

(** * Worked examples

    The two end-to-end examples of the documentation. *)

Example end_to_end_buffered :
  let c := Client.generate (Samples.answering (Body (JDict Samples.hello)))
             "hi" "x" false 300 None true in
  outcome c = Return (JStr "hello") ∧
  ClientView.gen_speed_lines (events c) = [tokens_per_sec 2 2000000000] ∧
  (tokens_per_sec 2 2000000000 == 1)%Q.
Proof. by vm_compute. Qed.

Example end_to_end_streamed :
  let c := Client.generate (Samples.streaming [Samples.line_a; Samples.line_b_done])
             "hi" "x" true 300 None true in
  Client.stdout (events c) = "ab" +:+ nl ∧
  ClientView.gen_speed_lines (events c) = [] ∧
  ClientView.total_tokens_lines (events c) = [JInt 0].
Proof. by vm_compute. Qed.

(** * Main results *)

(** ** Streaming: order of the chunks *)

(** C4.  In streaming mode, for every stream of well-formed lines, the
    chunk of each non-blank line (its [response], the empty string when the
    field is absent) is forwarded right after the line is received and
    before the next line is taken, in the order of receipt; blank lines are
    skipped; the text presented is the concatenation of the chunks in order,
    followed by a newline.  The command-line client writes and flushes each
    chunk; the window schedules the append of each non-empty chunk. *)
Theorem chunks_forwarded_in_receipt_order
    (srv : server) (prompt model : string) (timeout : Z) (num_gpu : option Z)
    (verbose : bool) (gpu : Z) (flag : nat → bool) (r : response) :
  srv (ClientView.request_of prompt model true timeout num_gpu) = Reply r →
  srv (GuiView.request_of prompt model true gpu) = Reply r →
  raise_for_status r = Return tt →
  Forall well_formed (lines r) → lines_end r = None →
  (∀ i, flag i = true) →
  let tr := events (Client.generate srv prompt model true timeout num_gpu verbose) in
  let tg := events (Gui._generate_thread srv flag model gpu true prompt) in
  ((∃ rest, tr = flat_map ClientView.line_events (lines r) ++ Client.Stdout nl :: rest ∧
            Forall (λ ev, ClientView.on_stderr ev = true) rest) ∧
   Client.stdout tr = concat_chunks (lines r) +:+ nl ∧
   Client.received tr = lines r) ∧
  ((∃ rest, tg = flat_map GuiView.line_events (lines r) ++
                 Gui.After (Gui.AppendOutput (JStr nl)) :: rest ∧
            GuiView.appended (Gui.scheduled rest) = [] ∧ Gui.received rest = []) ∧
   GuiView.concat_text (GuiView.appended (Gui.scheduled tg)) =
     concat_chunks (lines r) +:+ nl ∧
   Gui.received tg = lines r).
Proof.
  intros Hc Hg Hs Hwf Hend Hflag tr tg. split.
  - by apply generate_stream_output.
  - by apply generate_thread_stream_output.
Qed.

Lemma chunks_forwarded_in_receipt_order_witness :
  let srv := Samples.streaming [Samples.line_a; Blank; Samples.line_b_done] in
  Client.stdout (events (Client.generate srv "hi" "x" true 300 None true)) =
    "ab" +:+ nl ∧
  GuiView.concat_text (GuiView.appended (Gui.scheduled
    (events (Gui._generate_thread srv (λ _, true) "x" 99 true "hi")))) = "ab" +:+ nl.
Proof.
  intros srv.
  assert (Hwf : Forall well_formed [Samples.line_a; Blank; Samples.line_b_done]).
  { repeat constructor; by eexists. }
  destruct (chunks_forwarded_in_receipt_order srv "hi" "x" 300 None true 99 (λ _, true)
              (Response 200 "" [Samples.line_a; Blank; Samples.line_b_done] None
                        (BadBody "Extra data"))
              eq_refl eq_refl eq_refl Hwf eq_refl (λ _, eq_refl))
    as [(_ & Hout & _) (_ & Hgui & _)].
  split; [exact Hout | exact Hgui].
Defined.

(** ** Streaming: the end of the stream *)

(** C1 fails as stated.  A line after the first [done=true] line is
    received, parsed and forwarded: here the stream is [{"response":"a",
    "done":true}] then [{"response":"b"}], both lines are taken and "ab" is
    written.  And of two [done=true] objects the later one becomes
    [last_data], not the first. *)
Lemma lines_after_done_are_read :
  let srv := Samples.streaming [Samples.line_a_done; Samples.line_b] in
  let tr := events (Client.generate srv "hi" "x" true 300 None false) in
  is_done_line Samples.line_a_done = true ∧
  Client.received tr = [Samples.line_a_done; Samples.line_b] ∧
  Client.received tr ≠ [Samples.line_a_done] ∧
  Client.stdout tr = "ab" +:+ nl ∧
  outcome (Client.stream_loop [Samples.line_a_done; Samples.line_b_done] None JNull) =
    Return (Samples.obj [("response", JStr "b"); ("done", JBool true);
                         ("eval_count", JInt 0)]).
Proof. by vm_compute. Qed.

(** C1, amended.  In streaming mode a [done=true] line does not end the
    reading: for every stream of well-formed lines that ends normally, all
    the lines are received, those after a [done=true] line included, and the
    chunk of every one of them is forwarded; the terminal GenerationResult is
    the last object with a true [done], so the one at hand when no later
    line has a true [done].  In the window this holds as long as the
    generating flag stays set. *)
Theorem reader_consumes_whole_stream
    (srv : server) (prompt model : string) (timeout : Z) (num_gpu : option Z)
    (verbose : bool) (gpu : Z) (flag : nat → bool) (r : response)
    (pre post : list wire_line) (d : gmap string json) :
  srv (ClientView.request_of prompt model true timeout num_gpu) = Reply r →
  srv (GuiView.request_of prompt model true gpu) = Reply r →
  raise_for_status r = Return tt →
  lines r = pre ++ JsonText (JDict d) :: post →
  truthy (done_field d) = true →
  Forall well_formed (lines r) → lines_end r = None →
  (∀ i, flag i = true) →
  let tr := events (Client.generate srv prompt model true timeout num_gpu verbose) in
  let tg := events (Gui._generate_thread srv flag model gpu true prompt) in
  Client.received tr = pre ++ JsonText (JDict d) :: post ∧
  Client.stdout tr = concat_chunks (pre ++ JsonText (JDict d) :: post) +:+ nl ∧
  Gui.received tg = pre ++ JsonText (JDict d) :: post ∧
  GuiView.concat_text (GuiView.appended (Gui.scheduled tg)) =
    concat_chunks (pre ++ JsonText (JDict d) :: post) +:+ nl ∧
  (Forall (λ l, is_done_line l = false) post →
   outcome (Client.stream_loop (lines r) (lines_end r) JNull) = Return (JDict d) ∧
   outcome (Gui.stream_loop flag 0 (lines r) (lines_end r) JNull) = Return (JDict d) ∧
   Gui.UpdateStats (JDict d) ∈ Gui.scheduled tg).
Proof.
  intros Hc Hg Hs Hl Hd Hwf Hend Hflag tr tg.
  destruct (generate_stream_output srv prompt model r Hs Hwf Hend timeout num_gpu
              verbose Hc) as (_ & Hout & Hrecv).
  destruct (generate_thread_stream_output srv prompt model r Hs Hwf Hend flag gpu
              Hg Hflag) as (_ & Hgout & Hgrecv).
  fold tr in Hout, Hrecv. fold tg in Hgout, Hgrecv.
  rewrite <- Hl. repeat split; try done.
  - rewrite Hend, stream_loop_all_well_formed by done.
    rewrite Hl. simpl. by rewrite keep_last_done.
  - rewrite Hend, gui_stream_loop_all_well_formed by done.
    rewrite Hl. simpl. by rewrite keep_last_done.
  - subst tg.
    rewrite (generate_thread_stream_events srv flag model gpu prompt r) by done.
    rewrite Hl, keep_last_done by done.
    change (truthy (JDict d)) with (negb (Nat.eqb (size d) 0)).
    assert (Hne : d ≠ ∅).
    { intros ->. by vm_compute in Hd. }
    apply truthy_dict in Hne. simpl in Hne. rewrite Hne.
    rewrite scheduled_app. apply elem_of_app. right. simpl. right. by left.
Qed.

Lemma reader_consumes_whole_stream_witness :
  let srv := Samples.streaming [Samples.line_a_done; Samples.line_b] in
  Client.received (events (Client.generate srv "hi" "x" true 300 None false)) =
    [Samples.line_a_done; Samples.line_b] ∧
  Client.stdout (events (Client.generate srv "hi" "x" true 300 None false)) =
    "ab" +:+ nl.
Proof.
  intros srv.
  assert (Hwf : Forall well_formed [Samples.line_a_done; Samples.line_b]).
  { repeat constructor; by eexists. }
  destruct (reader_consumes_whole_stream srv "hi" "x" 300 None false 99 (λ _, true)
              (Response 200 "" [Samples.line_a_done; Samples.line_b] None
                        (BadBody "Extra data"))
              [] [Samples.line_b]
              (list_to_map [("response", JStr "a"); ("done", JBool true)])
              eq_refl eq_refl eq_refl eq_refl eq_refl Hwf eq_refl (λ _, eq_refl))
    as (Hrecv & Hout & _).
  split; [exact Hrecv | exact Hout].
Defined.

(** ** Streaming: a line that is not valid JSON *)

(** C3.  In streaming mode, when the lines before it are well-formed, a
    line that is not valid JSON aborts the request at that line with a
    decode error: it is the last line taken from the stream, nothing of the
    lines after it is received or written, and the chunks of the lines before
    it stay written.  For a line that [json.loads] rejects the error is
    [json.JSONDecodeError], reported as "Invalid JSON from server" with
    [None] returned; for bytes that are not UTF-8 it is the
    [UnicodeDecodeError] of [line.decode]. *)
Theorem malformed_line_aborts_request
    (srv : server) (prompt model : string) (timeout : Z) (num_gpu : option Z)
    (verbose : bool) (r : response) (pre post : list wire_line) (bad : wire_line) :
  srv (ClientView.request_of prompt model true timeout num_gpu) = Reply r →
  raise_for_status r = Return tt →
  lines r = pre ++ bad :: post →
  Forall well_formed pre → malformed bad = true →
  let c := Client.generate srv prompt model true timeout num_gpu verbose in
  events c = flat_map ClientView.line_events pre ++ Client.Recv bad ::
             match bad with NotJson why => [ClientView.invalid_json why] | _ => [] end ∧
  Client.received (events c) = pre ++ [bad] ∧
  Client.stdout (events c) = concat_chunks pre ∧
  outcome (Client.stream_loop (lines r) (lines_end r) JNull) = json_loads_decode bad ∧
  (is_raise JSONDecodeError (json_loads_decode bad) ||
   is_raise UnicodeDecodeError (json_loads_decode bad) = true) ∧
  outcome c = match bad with NotJson _ => Return JNull | _ => json_loads_decode bad end.
Proof.
  intros H Hs Hl Hwf Hbad c. subst c.
  rewrite (generate_stream_malformed srv prompt model timeout num_gpu verbose r
             pre bad post H Hs Hl Hwf Hbad).
  rewrite Hl, stream_loop_well_formed, stream_loop_malformed_line by done.
  destruct bad as [|why|why|v]; try done; unfold after_events; simpl events;
    simpl outcome; rewrite ?app_nil_r, <- ?app_assoc;
    (split; [done|]);
    rewrite !received_app, !stdout_app, received_line_events, stdout_line_events;
    by rewrite ?string_app_nil_r.
Qed.

Lemma malformed_line_aborts_request_witness :
  let srv :=
    Samples.streaming [Samples.line_a; NotJson "Expecting value"; Samples.line_b] in
  let c := Client.generate srv "hi" "x" true 300 None false in
  Client.received (events c) = [Samples.line_a; NotJson "Expecting value"] ∧
  Client.stdout (events c) = "a" ∧
  outcome c = Return JNull.
Proof.
  intros srv c.
  assert (Hwf : Forall well_formed [Samples.line_a]).
  { repeat constructor; by eexists. }
  destruct (malformed_line_aborts_request srv "hi" "x" 300 None false
              (Response 200 "" [Samples.line_a; NotJson "Expecting value"; Samples.line_b]
                        None (BadBody "Extra data"))
              [Samples.line_a] [Samples.line_b] (NotJson "Expecting value")
              eq_refl eq_refl eq_refl Hwf eq_refl)
    as (_ & Hrecv & Hout & _ & _ & Hres).
  split; [exact Hrecv | split; [exact Hout | exact Hres]].
Defined.

(** ** Statistics *)

(** C2.  For every terminal record whose figures are integers (absent ones
    count as 0), the prompt speed is shown exactly when [prompt_eval_count]
    and [prompt_eval_duration] are both positive, and then it is the count
    divided by the duration in seconds; likewise the generation speed with
    [eval_count] and [eval_duration].  When a guard fails the command-line
    client prints no speed line and the window sets the label to "-" (the
    window looks at a non-empty record only: [update_stats] returns at once
    on an empty one).  Neither function ever raises [ZeroDivisionError],
    whatever value it is given. *)
Theorem tokens_per_sec_iff_positive
    (d : gmap string json) (s : figures) (w : Gui.window) :
  figures_of d = Some s →
  let tr := events (Client._print_verbose_stats (JDict d)) in
  let labels := Gui.stats (Gui.run_callback w (Gui.UpdateStats (JDict d))) in
  let pec := prompt_eval_count s in
  let ped := prompt_eval_duration s in
  let ec := eval_count s in
  let ed := eval_duration s in
  (ClientView.prompt_speed_lines tr =
     (if (0 <? ped) && (0 <? pec) then [tokens_per_sec pec ped] else []) ∧
   ClientView.gen_speed_lines tr =
     (if (0 <? ed) && (0 <? ec) then [tokens_per_sec ec ed] else [])) ∧
  ((ClientView.prompt_speed_lines tr ≠ [] ↔ 0 < pec ∧ 0 < ped) ∧
   (ClientView.gen_speed_lines tr ≠ [] ↔ 0 < ec ∧ 0 < ed)) ∧
  (d ≠ ∅ →
   labels Gui.stats_prompt_speed_label =
     (if (0 <? ped) && (0 <? pec) then Gui.TokPerSec (tokens_per_sec pec ped)
      else Gui.Dash) ∧
   labels Gui.stats_gen_speed_label =
     (if (0 <? ed) && (0 <? ec) then Gui.TokPerSec (tokens_per_sec ec ed)
      else Gui.Dash)) ∧
  (∀ data,
     is_raise ZeroDivisionError (outcome (Client._print_verbose_stats data)) = false ∧
     is_raise ZeroDivisionError (outcome (Gui.update_stats data)) = false).
Proof.
  intros Hs tr labels pec ped ec ed. subst tr labels pec ped ec ed.
  rewrite (prompt_speed_shown d s Hs), (gen_speed_shown d s Hs).
  split; [done|]. split; [split; apply speed_shown_iff|]. split.
  - intros Hne. split; by apply (update_stats_labels d s Hs w).
  - intros data. split; [apply print_verbose_stats_no_zd | apply update_stats_no_zd].
Qed.

Lemma tokens_per_sec_iff_positive_witness :
  let tr := events (Client._print_verbose_stats (JDict Samples.hello)) in
  ClientView.prompt_speed_lines tr = [] ∧
  ClientView.gen_speed_lines tr = [tokens_per_sec 2 2000000000] ∧
  (tokens_per_sec 2 2000000000 == 1)%Q.
Proof.
  intros tr.
  destruct (tokens_per_sec_iff_positive Samples.hello Samples.hello_figures
              Gui.initial_window eq_refl) as ((Hp & Hg) & _).
  split; [exact Hp | split; [exact Hg | reflexivity]].
Defined.

(** C6.  For every terminal record whose figures are integers, the total
    shown is [prompt_eval_count + eval_count], whatever the durations and
    the speed guards; a count that is absent enters the sum as 0, so the
    total is 0 when both are absent.  The command-line client prints it in
    one "Total Tokens" line, the window sets the "Total" label to it (for a
    non-empty record). *)
Theorem total_tokens_is_sum
    (d : gmap string json) (s : figures) (w : Gui.window) :
  figures_of d = Some s →
  let tr := events (Client._print_verbose_stats (JDict d)) in
  let labels := Gui.stats (Gui.run_callback w (Gui.UpdateStats (JDict d))) in
  ClientView.total_tokens_lines tr = [JInt (prompt_eval_count s + eval_count s)] ∧
  (d ≠ ∅ → labels Gui.stats_total_tokens_label =
           Gui.Value (JInt (prompt_eval_count s + eval_count s))) ∧
  (d !! "prompt_eval_count" = None → prompt_eval_count s = 0) ∧
  (d !! "eval_count" = None → eval_count s = 0) ∧
  (d !! "prompt_eval_count" = None → d !! "eval_count" = None →
   ClientView.total_tokens_lines tr = [JInt 0]).
Proof.
  intros Hs tr labels. subst tr labels.
  rewrite (total_tokens_shown d s Hs).
  pose proof (figures_of_Some d s Hs) as [(_ & _ & _ & _ & Hpec & Hec) _].
  repeat split.
  - intros Hne. by apply (update_stats_labels d s Hs w).
  - intros Hp. by apply (absent_count_is_zero d "prompt_eval_count").
  - intros He. by apply (absent_count_is_zero d "eval_count").
  - intros Hp He.
    rewrite (absent_count_is_zero d "prompt_eval_count" _ Hp Hpec).
    by rewrite (absent_count_is_zero d "eval_count" _ He Hec).
Qed.

Lemma total_tokens_is_sum_witness :
  ClientView.total_tokens_lines
    (events (Client._print_verbose_stats (JDict Samples.hello))) = [JInt 2] ∧
  Gui.stats (Gui.run_callback Gui.initial_window (Gui.UpdateStats (JDict Samples.hello)))
    Gui.stats_total_tokens_label = Gui.Value (JInt 2).
Proof.
  destruct (total_tokens_is_sum Samples.hello Samples.hello_figures
              Gui.initial_window eq_refl) as (Ht & Hl & _).
  split; [exact Ht | apply Hl].
  intros H. apply (f_equal (lookup "done")) in H. by vm_compute in H.
Defined.

(** ** The buffered mode *)

(** C5.  For every request with [stream=false] whose response body is one
    JSON object, the text is the [response] field of that object, the
    empty string when the field is absent: [generate] of the command-line
    client returns it, and the window appends it to the output, followed by
    a newline.  With [verbose] the command-line client prints the statistics
    first, which takes a record with integer figures. *)
Theorem non_stream_text_is_response_field
    (srv : server) (prompt model : string) (timeout : Z) (num_gpu : option Z)
    (verbose : bool) (gpu : Z) (flag : nat → bool) (w : Gui.window)
    (r : response) (d : gmap string json) :
  srv (ClientView.request_of prompt model false timeout num_gpu) = Reply r →
  srv (GuiView.request_of prompt model false gpu) = Reply r →
  raise_for_status r = Return tt →
  content r = Body (JDict d) →
  (verbose = true → is_Some (figures_of d) ∧ context_sized d = true) →
  let c := Client.generate srv prompt model false timeout num_gpu verbose in
  let tg := events (Gui._generate_thread srv flag model gpu false prompt) in
  outcome c = Return (response_field d) ∧
  Client.stdout (events c) = "" ∧
  Gui.scheduled tg =
    [Gui.AppendOutput (response_field d); Gui.AppendOutput (JStr nl);
     Gui.UpdateStats (JDict d); Gui.GenerationComplete] ∧
  Gui.output_text (Gui.mainloop w tg) =
    Gui.output_text w ++ [response_field d; JStr nl] ∧
  (d !! "response" = None → response_field d = JStr "").
Proof.
  intros Hc Hg Hs Hb Hv c tg.
  assert (Hstats : verbose = true →
                   outcome (Client._print_verbose_stats (JDict d)) = Return tt).
  { intros Ht. destruct (Hv Ht) as [[s Hfig] Hctx].
    by apply (print_verbose_stats_returns d s). }
  subst c tg.
  rewrite (generate_object srv prompt model timeout num_gpu verbose r d) by done.
  rewrite generate_thread_events.
  rewrite (thread_body_non_stream srv flag model gpu prompt r d) by done.
  split; [done|]. split.
  - destruct verbose; [|done].
    by apply on_stderr_silent, print_verbose_stats_on_stderr.
  - split; [done|]. split.
    + unfold Gui.mainloop. simpl. by rewrite <- app_assoc.
    + unfold response_field. by intros ->.
Qed.

Lemma non_stream_text_is_response_field_witness :
  let srv := Samples.answering (Body (JDict Samples.hello)) in
  outcome (Client.generate srv "hi" "x" false 300 None true) = Return (JStr "hello") ∧
  Gui.output_text (Gui.mainloop Gui.initial_window
    (events (Gui._generate_thread srv (λ _, true) "x" 99 false "hi"))) =
    [JStr "hello"; JStr nl].
Proof.
  intros srv.
  destruct (non_stream_text_is_response_field srv "hi" "x" 300 None true 99 (λ _, true)
              Gui.initial_window (Response 200 "" [] None (Body (JDict Samples.hello)))
              Samples.hello eq_refl eq_refl eq_refl eq_refl
              (λ _, conj (ex_intro _ Samples.hello_figures eq_refl) eq_refl))
    as (Hret & _ & _ & Hout & _).
  split; [exact Hret | exact Hout].
Defined.

(** ** The request *)

(** C9.  The payload holds [options], an object with the single field
    [num_gpu] set to the given value, exactly when a value is given; with no
    value the payload is the three fields [model], [prompt] and [stream], and
    with one it is those three and [options].  The window builds the same
    payload, and [generate] consults the server with that payload only. *)
Theorem payload_options_iff_num_gpu
    (prompt model : string) (stream : bool) (num_gpu : option Z) :
  let p := Client.payload prompt model stream num_gpu in
  p !! "options" = (λ n, JDict {[ "num_gpu" := JInt n ]}) <$> num_gpu ∧
  (is_Some (p !! "options") ↔ is_Some num_gpu) ∧
  p !! "model" = Some (JStr model) ∧
  p !! "prompt" = Some (JStr prompt) ∧
  p !! "stream" = Some (JBool stream) ∧
  dom p = {[ "model"; "prompt"; "stream" ]} ∪
          match num_gpu with Some _ => {[ "options" ]} | None => ∅ end ∧
  (num_gpu = None →
   p = {[ "model" := JStr model; "prompt" := JStr prompt; "stream" := JBool stream ]}) ∧
  Gui.payload prompt model stream num_gpu = p ∧
  (∀ srv srv' timeout verbose,
     srv (ClientView.request_of prompt model stream timeout num_gpu) =
     srv' (ClientView.request_of prompt model stream timeout num_gpu) →
     Client.generate srv prompt model stream timeout num_gpu verbose =
     Client.generate srv' prompt model stream timeout num_gpu verbose).
Proof.
  intros p. subst p. unfold Client.payload, Gui.payload.
  split; [by destruct num_gpu|].
  split; [destruct num_gpu; simpl; split; intros [? ?]; by eauto|].
  split; [by destruct num_gpu|].
  split; [by destruct num_gpu|].
  split; [by destruct num_gpu|].
  split.
  { destruct num_gpu; rewrite ?dom_insert_L, ?dom_singleton_L; set_solver. }
  split; [by intros ->|].
  split; [done|].
  intros srv srv' timeout verbose H.
  unfold Client.generate, requests_post. unfold ClientView.request_of in H.
  destruct stream; by rewrite H.
Qed.

Lemma payload_options_iff_num_gpu_witness :
  Client.payload "hi" "x" true (Some 99) !! "options" =
    Some (JDict {[ "num_gpu" := JInt 99 ]}) ∧
  Client.payload "hi" "x" true None !! "options" = None.
Proof.
  split.
  - exact (proj1 (payload_options_iff_num_gpu "hi" "x" true (Some 99))).
  - exact (proj1 (payload_options_iff_num_gpu "hi" "x" true None)).
Defined.

(** ** Errors *)

(** C7 fails as stated for the command-line client: an exception that is
    neither a [RequestException] nor a [json.JSONDecodeError] reaches the
    caller of [generate].  A streamed line that is not UTF-8 raises
    [UnicodeDecodeError]; a line or a body that is valid JSON but not an
    object raises [AttributeError] at [data.get]. *)
Lemma generate_lets_exceptions_through :
  outcome (Client.generate (Samples.streaming [NotUtf8 "invalid start byte"])
             "hi" "x" true 300 None false) =
    Raise (Exn UnicodeDecodeError "invalid start byte") ∧
  outcome (Client.generate (Samples.streaming [JsonText (JList [])])
             "hi" "x" true 300 None false) =
    Raise (Exn AttributeError "'list' object has no attribute 'get'") ∧
  outcome (Client.generate (Samples.answering (Body (JList [])))
             "hi" "x" false 300 None false) =
    Raise (Exn AttributeError "'list' object has no attribute 'get'").
Proof. by vm_compute. Qed.

(** C7, amended.  [generate] of the command-line client catches the
    exceptions of the classes [RequestException] and [json.JSONDecodeError]:
    it prints one message to standard error and returns [None].  That covers
    a server that does not answer (connection failure, timeout), an HTTP
    error status, a connection that breaks in mid-stream, a body that
    [resp.json()] rejects and a streamed line that [json.loads] rejects; what
    it lets through to its caller is of neither class.  [_generate_thread] of the window
    catches every exception: it returns, it hands the error text and the
    "Error" status over to the UI thread, its last call is
    [_generation_complete], and after the calls have run the window is ready
    again. *)
Theorem errors_at_the_call_boundary
    (srv : server) (prompt model : string) (stream : bool) (timeout : Z)
    (num_gpu : option Z) (verbose : bool) (gpu : Z) (flag : nat → bool)
    (w : Gui.window) :
  let c := Client.generate srv prompt model stream timeout num_gpu verbose in
  let body := ClientView.try_block srv prompt model stream timeout num_gpu verbose in
  let t := Gui._generate_thread srv flag model gpu stream prompt in
  let tbody := GuiView.thread_body srv flag model gpu stream prompt in
  (∀ e, outcome c = Raise e →
        isinstance e RequestException = false ∧ isinstance e JSONDecodeError = false) ∧
  (∀ e, outcome body = Raise e → isinstance e RequestException = true →
        c = (events body ++ [ClientView.could_not_reach (exn_str e)], Return JNull)) ∧
  (∀ e, outcome body = Raise e → isinstance e RequestException = false →
        isinstance e JSONDecodeError = true →
        c = (events body ++ [ClientView.invalid_json (exn_str e)], Return JNull)) ∧
  (∀ f why, srv (ClientView.request_of prompt model stream timeout num_gpu) =
              NoReply f why →
            c = ([ClientView.could_not_reach why], Return JNull)) ∧
  (∀ r e, srv (ClientView.request_of prompt model stream timeout num_gpu) = Reply r →
          raise_for_status r = Raise e →
          c = ([ClientView.could_not_reach (http_error r)], Return JNull)) ∧
  (∀ r why, stream = false →
            srv (ClientView.request_of prompt model stream timeout num_gpu) = Reply r →
            raise_for_status r = Return tt → content r = BadBody why →
            outcome c = Return JNull) ∧
  (∀ r pre why post, stream = true →
            srv (ClientView.request_of prompt model stream timeout num_gpu) = Reply r →
            raise_for_status r = Return tt →
            lines r = pre ++ NotJson why :: post → Forall well_formed pre →
            outcome c = Return JNull) ∧
  (∀ r f why, stream = true →
            srv (ClientView.request_of prompt model stream timeout num_gpu) = Reply r →
            raise_for_status r = Return tt →
            Forall well_formed (lines r) → lines_end r = Some (f, why) →
            outcome c = Return JNull) ∧
  outcome t = Return tt ∧
  events t = events tbody ++ GuiView.error_report (outcome tbody) ++
             [Gui.After Gui.GenerationComplete] ∧
  GuiView.ready (Gui.mainloop w (events t)).
Proof.
  intros c body t tbody. subst c body t tbody.
  split; [intros e; apply generate_escapes|].
  split.
  { intros e He Hr. rewrite generate_unfold.
    by apply (try_except_handlers _ e He). }
  split.
  { intros e He Hr Hj. rewrite generate_unfold.
    by apply (try_except_handlers _ e He). }
  split; [intros f why; apply generate_no_reply|].
  split; [intros r e; apply generate_http_error|].
  split.
  { intros r why -> H Hs Hb.
    by rewrite (generate_bad_body srv prompt model timeout num_gpu verbose r why). }
  split.
  { intros r pre why post -> H Hs Hl Hwf.
    by rewrite (generate_stream_malformed srv prompt model timeout num_gpu verbose r
                  pre (NotJson why) post). }
  split.
  { intros r f why -> H Hs Hwf Hend.
    by rewrite (generate_stream_interrupted srv prompt model timeout num_gpu verbose
                  r f why). }
  rewrite generate_thread_events.
  split; [done|]. split; [done|].
  unfold events, fst. rewrite app_assoc. apply mainloop_complete.
Qed.

Lemma errors_at_the_call_boundary_witness :
  Client.generate Samples.unreachable "hi" "x" true 300 None false =
    ([ClientView.could_not_reach "Connection refused"], Return JNull) ∧
  GuiView.ready (Gui.mainloop Gui.initial_window
    (events (Gui._generate_thread Samples.unreachable (λ _, true) "x" 99 true "hi"))).
Proof.
  destruct (errors_at_the_call_boundary Samples.unreachable "hi" "x" true 300 None
              false 99 (λ _, true) Gui.initial_window)
    as (_ & _ & _ & Hno & _ & _ & _ & _ & _ & _ & Hready).
  split; [exact (Hno Refused "Connection refused" eq_refl) | exact Hready].
Defined.

(** C8 at the failing input.  In the buffered mode a body that is not
    valid JSON makes [resp.json()] raise the [JSONDecodeError] of requests,
    which is a [RequestException] too; the first [except] clause takes it and
    the message is the one for an unreachable server, not "Invalid JSON from
    server".  The streaming branch, where [json.loads] raises
    [json.JSONDecodeError], does print the dedicated message, and the two
    messages differ whatever the exception texts. *)
Theorem bad_body_reported_as_unreachable :
  let c := Client.generate (Samples.answering (BadBody "Expecting value"))
             "hi" "x" false 300 None false in
  let c' := Client.generate (Samples.streaming [NotJson "Expecting value"])
              "hi" "x" true 300 None false in
  Client.stderr (events c) =
    [Client.Text "[Error] Could not reach Ollama server: Expecting value"] ∧
  outcome c = Return JNull ∧
  Client.stderr (events c') =
    [Client.Text "[Error] Invalid JSON from server: Expecting value"] ∧
  (∀ why why', ClientView.could_not_reach why ≠ ClientView.invalid_json why').
Proof.
  intros c c'. split; [by vm_compute|]. split; [by vm_compute|].
  split; [by vm_compute|].
  intros why why'. unfold ClientView.could_not_reach, ClientView.invalid_json.
  by intros [= H].
Qed.

(** ** The value returned *)

(** C10.  [generate] with [stream=true] returns nothing but [None]: after a
    stream that it read to the end and after an error that it caught alike.
    A value other than [None] is returned only with [stream=false], by a call
    that succeeded, and it is the [response] of the body.  With
    [stream=false] a success whose [response] is a string returns that string,
    the empty one included, and a failure (no answer, an HTTP error status, a
    body that is not JSON) returns [None]. *)
Theorem return_value_by_mode
    (srv : server) (prompt model : string) (timeout : Z) (num_gpu : option Z)
    (verbose : bool) :
  let gen stream := Client.generate srv prompt model stream timeout num_gpu verbose in
  let rq stream := ClientView.request_of prompt model stream timeout num_gpu in
  (∀ v, outcome (gen true) = Return v → v = JNull) ∧
  (∀ r, srv (rq true) = Reply r → raise_for_status r = Return tt →
        Forall well_formed (lines r) → lines_end r = None → verbose = false →
        outcome (gen true) = Return JNull) ∧
  (∀ stream f why, srv (rq stream) = NoReply f why →
                   outcome (gen stream) = Return JNull) ∧
  (∀ stream r e, srv (rq stream) = Reply r → raise_for_status r = Raise e →
                 outcome (gen stream) = Return JNull) ∧
  (∀ stream v, outcome (gen stream) = Return v → v ≠ JNull →
     stream = false ∧
     ∃ r d, srv (rq false) = Reply r ∧ raise_for_status r = Return tt ∧
            content r = Body (JDict d) ∧ v = response_field d) ∧
  (∀ r d s, srv (rq false) = Reply r → raise_for_status r = Return tt →
            content r = Body (JDict d) → response_field d = JStr s →
            (verbose = true → is_Some (figures_of d) ∧ context_sized d = true) →
            outcome (gen false) = Return (JStr s)) ∧
  (∀ r why, srv (rq false) = Reply r → raise_for_status r = Return tt →
            content r = BadBody why → outcome (gen false) = Return JNull).
Proof.
  intros gen rq. subst gen rq. split.
  { intros v Hv. apply generate_returns in Hv as [->|Hv]; [done|].
    by apply try_block_stream_returns_none in Hv. }
  split.
  { intros r H Hs Hwf Hend ->.
    by rewrite (generate_stream_well_formed srv prompt model timeout num_gpu r). }
  split.
  { intros stream f why H.
    by rewrite (generate_no_reply srv prompt model timeout num_gpu stream verbose f why). }
  split.
  { intros stream r e H He.
    by rewrite (generate_http_error srv prompt model timeout num_gpu stream verbose r e). }
  split.
  { intros stream v Hv Hne. apply generate_returns in Hv as [->|Hv]; [done|].
    destruct stream.
    - by apply try_block_stream_returns_none in Hv.
    - split; [done|]. by apply try_block_non_stream_returns in Hv. }
  split.
  { intros r d s H Hs Hb Hr Hv.
    rewrite (generate_object srv prompt model timeout num_gpu verbose r d); try done.
    - simpl. by rewrite Hr.
    - intros Ht. destruct (Hv Ht) as [[fs Hfig] Hctx].
      by apply (print_verbose_stats_returns d fs). }
  intros r why H Hs Hb.
  by rewrite (generate_bad_body srv prompt model timeout num_gpu verbose r why).
Qed.

Lemma return_value_by_mode_witness :
  outcome (Client.generate (Samples.streaming [Samples.line_a; Samples.line_b_done])
             "hi" "x" true 300 None false) = Return JNull ∧
  outcome (Client.generate (Samples.answering (Body (JDict Samples.hello)))
             "hi" "x" false 300 None false) = Return (JStr "hello") ∧
  outcome (Client.generate Samples.unreachable "hi" "x" false 300 None false) =
    Return JNull.
Proof.
  assert (Hwf : Forall well_formed [Samples.line_a; Samples.line_b_done]).
  { repeat constructor; by eexists. }
  split; [|split].
  - destruct (return_value_by_mode
                (Samples.streaming [Samples.line_a; Samples.line_b_done])
                "hi" "x" 300 None false) as (_ & Hok & _).
    exact (Hok (Response 200 "" [Samples.line_a; Samples.line_b_done] None
                         (BadBody "Extra data"))
               eq_refl eq_refl Hwf eq_refl eq_refl).
  - destruct (return_value_by_mode (Samples.answering (Body (JDict Samples.hello)))
                "hi" "x" 300 None false) as (_ & _ & _ & _ & _ & Hok & _).
    exact (Hok (Response 200 "" [] None (Body (JDict Samples.hello))) Samples.hello "hello"
               eq_refl eq_refl eq_refl eq_refl
               (λ H, False_ind _ (Bool.diff_false_true H))).
  - destruct (return_value_by_mode Samples.unreachable "hi" "x" 300 None false)
      as (_ & _ & Hno & _).
    exact (Hno false Refused "Connection refused" eq_refl).
Defined.

(** * Further properties *)

(** ** The command-line client: what [verbose] changes *)
Section verbose_output.
Import Client ClientView.
Context (srv : server) (prompt model : string) (timeout : Z) (num_gpu : option Z).

(** What follows the streamed text writes to standard error only. *)
Lemma stream_tail_silent verbose last_data :
  Forall (λ ev, on_stderr ev = true)
    (events (try_except
       ((if verbose && truthy last_data then _print_verbose_stats last_data
         else mret tt);; mret JNull)
       handlers)).
Proof.
  apply try_except_on_stderr; [|apply handlers_on_stderr].
  apply on_stderr_bind; [|by intros []].
  destruct (verbose && truthy _); [apply print_verbose_stats_on_stderr | done].
Qed.

Lemma buffered_silent (verbose : bool) data :
  Forall (λ ev, on_stderr ev = true)
    (events (try_except
       ((if verbose then _print_verbose_stats data else mret tt);;
        lift (py_get data "response" (JStr "")))
       handlers)).
Proof.
  apply try_except_on_stderr; [|apply handlers_on_stderr].
  apply on_stderr_bind; [|by intros []].
  destruct verbose; [apply print_verbose_stats_on_stderr | done].
Qed.

(** The streaming branch once the loop has come to its end. *)
Lemma generate_stream_loop_returned verbose r evs last_data :
  srv (request_of prompt model true timeout num_gpu) = Reply r →
  raise_for_status r = Return tt →
  stream_loop (lines r) (lines_end r) JNull = (evs, Return last_data) →
  ∃ rest, events (generate srv prompt model true timeout num_gpu verbose) =
          evs ++ Stdout nl :: rest ∧
          Forall (λ ev, on_stderr ev = true) rest.
Proof.
  intros H Hs Hl. rewrite (generate_stream_reply _ _ _ _ _ _ r H Hs), Hl.
  rewrite (events_bind_return _ _ last_data) by done.
  rewrite try_except_after_events, bind_emit, try_except_after_events.
  eexists. split; [reflexivity | apply stream_tail_silent].
Qed.

(** The streaming branch when the loop raises: [verbose] plays no part. *)
Lemma generate_stream_loop_raised verbose r evs e :
  srv (request_of prompt model true timeout num_gpu) = Reply r →
  raise_for_status r = Return tt →
  stream_loop (lines r) (lines_end r) JNull = (evs, Raise e) →
  generate srv prompt model true timeout num_gpu verbose =
  try_except (evs, Raise e) handlers.
Proof.
  intros H Hs Hl. by rewrite (generate_stream_reply _ _ _ _ _ _ r H Hs), Hl.
Qed.

Lemma generate_output_any_verbose stream verbose :
  stdout (events (generate srv prompt model stream timeout num_gpu verbose)) =
  stdout (events (generate srv prompt model stream timeout num_gpu false)) ∧
  received (events (generate srv prompt model stream timeout num_gpu verbose)) =
  received (events (generate srv prompt model stream timeout num_gpu false)).
Proof.
  destruct (srv (request_of prompt model stream timeout num_gpu)) as [f why|r] eqn:H.
  { by rewrite !(generate_no_reply _ _ _ _ _ stream _ f why H). }
  destruct (raise_for_status r) as [[]|e] eqn:Hs.
  2:{ by rewrite !(generate_http_error _ _ _ _ _ stream _ r e H Hs). }
  destruct stream.
  - destruct (stream_loop (lines r) (lines_end r) JNull) as [evs [last|e]] eqn:Hl.
    + destruct (generate_stream_loop_returned verbose r evs last H Hs Hl)
        as (rest & -> & Hrest).
      destruct (generate_stream_loop_returned false r evs last H Hs Hl)
        as (rest' & -> & Hrest').
      apply on_stderr_silent in Hrest as [Ho Hr].
      apply on_stderr_silent in Hrest' as [Ho' Hr'].
      change (Stdout nl :: rest) with ([Stdout nl] ++ rest).
      change (Stdout nl :: rest') with ([Stdout nl] ++ rest').
      by rewrite !stdout_app, !received_app, Ho, Hr, Ho', Hr'.
    + by rewrite !(generate_stream_loop_raised _ r evs e H Hs Hl).
  - rewrite !(generate_non_stream_reply _ _ _ _ _ _ r H Hs).
    destruct (response_json r) as [data|e]; [|done].
    rewrite !bind_lift_return.
    destruct (on_stderr_silent _ (buffered_silent verbose data)) as [-> ->].
    by destruct (on_stderr_silent _ (buffered_silent false data)) as [-> ->].
Qed.
End verbose_output.

(** X1.  [verbose] changes standard error only: for every server and every
    argument, the call with [verbose] writes the same text to standard
    output and takes the same lines from the stream as the call without, and
    a value other than [None] that it returns is the value the call without
    [verbose] returns. *)
Theorem verbose_changes_stderr_only
    (srv : server) (prompt model : string) (stream : bool) (timeout : Z)
    (num_gpu : option Z) :
  let loud := Client.generate srv prompt model stream timeout num_gpu true in
  let quiet := Client.generate srv prompt model stream timeout num_gpu false in
  Client.stdout (events loud) = Client.stdout (events quiet) ∧
  Client.received (events loud) = Client.received (events quiet) ∧
  (∀ v, outcome loud = Return v → v ≠ JNull → outcome quiet = Return v).
Proof.
  intros loud quiet. subst loud quiet.
  destruct (generate_output_any_verbose srv prompt model timeout num_gpu stream true)
    as [Hout Hrecv].
  split; [done|]. split; [done|].
  intros v Hv Hne. apply generate_returns in Hv as [->|Hv]; [done|].
  destruct stream.
  - by apply try_block_stream_returns_none in Hv.
  - apply try_block_non_stream_returns in Hv as (r & d & H & Hs & Hb & ->).
    by rewrite (generate_object srv prompt model timeout num_gpu false r d).
Qed.

Lemma verbose_changes_stderr_only_witness :
  outcome (Client.generate (Samples.answering (Body (JDict Samples.hello)))
             "hi" "x" false 300 None false) = Return (JStr "hello").
Proof.
  apply (verbose_changes_stderr_only (Samples.answering (Body (JDict Samples.hello)))
           "hi" "x" false 300 None); [by vm_compute | done].
Defined.

(** ** The command-line client: any stream at all *)
Section any_stream.
Import Client ClientView.

(** One turn of the loop: a well-formed line is passed on, any other line
    ends the loop with an exception and contributes no text. *)
Lemma stream_loop_step l ls tail last_data :
  (well_formed l ∧
   stream_loop (l :: ls) tail last_data =
   after_events (line_events l) (stream_loop ls tail (keep_last last_data l))) ∨
  (chunk_text l = "" ∧
   ∃ e, stream_loop (l :: ls) tail last_data = ([Recv l], Raise e)).
Proof.
  destruct l as [|why|why|v].
  - left. split; [done|]. by apply stream_loop_well_formed_line.
  - right. split; [done|]. by eexists.
  - right. split; [done|]. by eexists.
  - destruct v as [|b|n|s|l|d]; try (right; split; [done|]; by eexists).
    destruct (response_field d) as [|b|n|s|l|d'] eqn:Hr;
      try (right; split; [unfold chunk_text; by rewrite Hr|];
           rewrite stream_loop_cons, bind_emit;
           change (negb (line_truthy (JsonText (JDict d)))) with false; cbv iota;
           change (json_loads_decode (JsonText (JDict d))) with (Return (JDict d));
           rewrite bind_lift_return;
           change (py_get (JDict d) "response" (JStr ""))
             with (Return (response_field d));
           rewrite bind_lift_return, Hr; by eexists).
    left. assert (Hwf : well_formed (JsonText (JDict d))) by by exists s.
    split; [done|]. by apply stream_loop_well_formed_line.
Qed.

Lemma stream_loop_invariant ls tail last_data :
  let c := stream_loop ls tail last_data in
  received (events c) `prefix_of` ls ∧
  stdout (events c) = concat_chunks (received (events c)) ∧
  (∀ v, outcome c = Return v → received (events c) = ls ∧ tail = None).
Proof.
  revert last_data. induction ls as [|l ls IH]; intros last_data c; subst c.
  - simpl. destruct tail as [[f why]|]; repeat split; try done; by exists [].
  - destruct (stream_loop_step l ls tail last_data) as [[Hwf ->]|[Hc [e ->]]].
    + destruct (IH (keep_last last_data l)) as (Hp & Ho & Hr).
      unfold after_events. simpl events. simpl outcome.
      rewrite received_app, stdout_app, Ho.
      replace (received (line_events l)) with [l] by by destruct l.
      replace (stdout (line_events l)) with (chunk_text l).
      2:{ destruct l as [| | |v]; try done.
          change (stdout (line_events (JsonText v)))
            with (chunk_text (JsonText v) +:+ "").
          by rewrite string_app_nil_r. }
      split; [by apply prefix_cons|]. split; [done|].
      intros v Hv. destruct (Hr v Hv) as [-> ->]. done.
    + simpl. rewrite Hc. repeat split; try done.
      by exists ls.
Qed.
End any_stream.

Lemma try_except_handlers_events (evs : list Client.event) (e : exn) :
  ∃ rest,
    events (try_except (evs, Raise (A:=json) e) ClientView.handlers) = evs ++ rest ∧
    Forall (λ ev, ClientView.on_stderr ev = true) rest.
Proof.
  unfold try_except.
  destruct (find_clause ClientView.handlers e) as [[out r]|] eqn:Hh.
  - exists out. split; [done|]. by apply (handlers_on_stderr e (out, r)).
  - exists []. by rewrite app_nil_r.
Qed.

(** X2.  Whatever the lines of the stream are, well-formed or not, the
    lines that [generate] takes are an initial part of the stream, in order,
    and the text on standard output is the concatenation of their chunks;
    the newline follows only when the whole stream was read and ended
    normally. *)
Theorem stdout_is_chunks_of_lines_read
    (srv : server) (prompt model : string) (timeout : Z) (num_gpu : option Z)
    (verbose : bool) (r : response) :
  srv (ClientView.request_of prompt model true timeout num_gpu) = Reply r →
  raise_for_status r = Return tt →
  let tr := events (Client.generate srv prompt model true timeout num_gpu verbose) in
  Client.received tr `prefix_of` lines r ∧
  (Client.stdout tr = concat_chunks (Client.received tr) ∨
   Client.stdout tr = concat_chunks (Client.received tr) +:+ nl ∧
   Client.received tr = lines r ∧ lines_end r = None).
Proof.
  intros H Hs tr. subst tr.
  pose proof (stream_loop_invariant (lines r) (lines_end r) JNull) as (Hp & Ho & Hr).
  destruct (Client.stream_loop (lines r) (lines_end r) JNull) as [evs [last|e]] eqn:Hl;
    simpl in Hp, Ho, Hr.
  - destruct (generate_stream_loop_returned srv prompt model timeout num_gpu verbose
                r evs last H Hs Hl) as (rest & -> & Hrest).
    apply on_stderr_silent in Hrest as [Hso Hsr].
    change (Client.Stdout nl :: rest) with ([Client.Stdout nl] ++ rest).
    rewrite !received_app, !stdout_app, Hso, Hsr, !app_nil_r, Ho.
    change (Client.stdout [Client.Stdout nl]) with (nl +:+ "").
    rewrite !string_app_nil_r.
    split; [done|]. right. split; [done|]. by apply (Hr last).
  - rewrite (generate_stream_loop_raised srv prompt model timeout num_gpu verbose
               r evs e H Hs Hl).
    destruct (try_except_handlers_events evs e) as (rest & -> & Hrest).
    apply on_stderr_silent in Hrest as [Hso Hsr].
    rewrite received_app, stdout_app, Hso, Hsr, app_nil_r, string_app_nil_r.
    split; [done|]. by left.
Qed.

Lemma stdout_is_chunks_of_lines_read_witness :
  let srv := Samples.streaming [Samples.line_a; JsonText (JInt 7); Samples.line_b] in
  let tr := events (Client.generate srv "hi" "x" true 300 None false) in
  Client.received tr `prefix_of` [Samples.line_a; JsonText (JInt 7); Samples.line_b] ∧
  Client.stdout tr = "a".
Proof.
  intros srv tr.
  destruct (stdout_is_chunks_of_lines_read srv "hi" "x" 300 None false
              (Response 200 "" [Samples.line_a; JsonText (JInt 7); Samples.line_b]
                        None (BadBody "Extra data")) eq_refl eq_refl) as [Hp _].
  split; [exact Hp | reflexivity].
Defined.

(** X3.  When no line of a well-formed stream has a true [done], there is
    no terminal record and no statistics are shown, [verbose] or not: the
    command-line client prints the chunks and the newline and nothing on
    standard error, and the window is handed no [update_stats]. *)
Theorem no_done_no_statistics
    (srv : server) (prompt model : string) (timeout : Z) (num_gpu : option Z)
    (verbose : bool) (gpu : Z) (flag : nat → bool) (r : response) :
  srv (ClientView.request_of prompt model true timeout num_gpu) = Reply r →
  srv (GuiView.request_of prompt model true gpu) = Reply r →
  raise_for_status r = Return tt →
  Forall well_formed (lines r) → lines_end r = None →
  Forall (λ l, is_done_line l = false) (lines r) →
  (∀ i, flag i = true) →
  Client.generate srv prompt model true timeout num_gpu verbose =
    (flat_map ClientView.line_events (lines r) ++ [Client.Stdout nl], Return JNull) ∧
  Client.stderr (events (Client.generate srv prompt model true timeout num_gpu verbose))
    = [] ∧
  events (Gui._generate_thread srv flag model gpu true prompt) =
    flat_map GuiView.line_events (lines r) ++
    [Gui.After (Gui.AppendOutput (JStr nl)); Gui.After Gui.GenerationComplete].
Proof.
  intros Hc Hg Hs Hwf Hend Hnd Hflag.
  assert (Hgen : Client.generate srv prompt model true timeout num_gpu verbose =
    (flat_map ClientView.line_events (lines r) ++ [Client.Stdout nl], Return JNull)).
  { rewrite (generate_stream_reply srv prompt model timeout num_gpu verbose r Hc Hs).
    rewrite Hend, stream_loop_all_well_formed, keep_last_none by done.
    rewrite (events_bind_return _ _ JNull) by done.
    rewrite try_except_after_events, andb_false_r.
    by repeat eff_step. }
  split; [done|]. split.
  - rewrite Hgen. unfold Client.stderr, events, fst. rewrite omap_app.
    assert (Hl : ∀ ls, omap (λ ev, match ev with Client.Stderr l => Some l | _ => None end)
                         (flat_map ClientView.line_events ls) = []).
    { induction ls as [|l ls IH]; [done|]. simpl. rewrite omap_app, IH.
      by destruct l. }
    by rewrite Hl.
  - rewrite (generate_thread_stream_events srv flag model gpu prompt r) by done.
    by rewrite keep_last_none.
Qed.

Lemma no_done_no_statistics_witness :
  let srv := Samples.streaming [Samples.line_a; Samples.line_b] in
  Client.stderr (events (Client.generate srv "hi" "x" true 300 None true)) = [].
Proof.
  intros srv.
  assert (Hwf : Forall well_formed [Samples.line_a; Samples.line_b]).
  { repeat constructor; by eexists. }
  assert (Hnd : Forall (λ l, is_done_line l = false) [Samples.line_a; Samples.line_b]).
  { by repeat constructor. }
  exact (proj1 (proj2 (no_done_no_statistics srv "hi" "x" 300 None true 99 (λ _, true)
           (Response 200 "" [Samples.line_a; Samples.line_b] None (BadBody "Extra data"))
           eq_refl eq_refl eq_refl Hwf eq_refl Hnd (λ _, eq_refl)))).
Defined.

(** ** Failures in the middle of a stream *)
Section stream_failures.
Import Gui GuiView.
Context (srv : server) (flag : nat → bool) (model : string) (gpu : Z) (prompt : string).

Lemma gui_stream_loop_malformed_line i l ls tail last_data :
  flag i = true → malformed l = true →
  stream_loop flag i (l :: ls) tail last_data = ([Recv l], json_loads_decode l).
Proof.
  intros Hi Hl. rewrite gui_stream_loop_cons, bind_emit, Hi. by destruct l.
Qed.

(** The thread when the loop raises: the error report, then completion. *)
Lemma thread_stream_loop_raised r evs e :
  srv (request_of prompt model true gpu) = Reply r →
  raise_for_status r = Return tt →
  stream_loop flag 0 (lines r) (lines_end r) JNull = (evs, Raise e) →
  events (_generate_thread srv flag model gpu true prompt) =
  evs ++ error_report (Raise e) ++ [After GenerationComplete].
Proof.
  unfold request_of. intros H Hs Hl. rewrite generate_thread_events.
  unfold thread_body, _generate_stream, requests_post. rewrite H. cbv iota.
  by rewrite bind_lift_return, Hs, bind_lift_return, Hl.
Qed.
End stream_failures.

(** X4.  When the connection breaks after some well-formed lines, the
    chunks of those lines stay written and no newline follows them; nothing
    is said of statistics, even with [verbose] and a terminal record among the
    lines.  The command-line client prints the message for an unreachable
    server and returns [None]; the window is handed the error text and the
    "Error" status, then completion. *)
Theorem broken_stream_keeps_chunks
    (srv : server) (prompt model : string) (timeout : Z) (num_gpu : option Z)
    (verbose : bool) (gpu : Z) (flag : nat → bool) (r : response)
    (f : net_failure) (why : string) :
  srv (ClientView.request_of prompt model true timeout num_gpu) = Reply r →
  srv (GuiView.request_of prompt model true gpu) = Reply r →
  raise_for_status r = Return tt →
  Forall well_formed (lines r) → lines_end r = Some (f, why) →
  (∀ i, flag i = true) →
  let c := Client.generate srv prompt model true timeout num_gpu verbose in
  c = (flat_map ClientView.line_events (lines r) ++ [ClientView.could_not_reach why],
       Return JNull) ∧
  Client.stdout (events c) = concat_chunks (lines r) ∧
  events (Gui._generate_thread srv flag model gpu true prompt) =
    flat_map GuiView.line_events (lines r) ++
    [Gui.After (Gui.AppendOutput (JStr (nl +:+ "[ERROR] " +:+ why +:+ nl)));
     Gui.After (Gui.UpdateStatus "Error" "red");
     Gui.After Gui.GenerationComplete].
Proof.
  intros Hc Hg Hs Hwf Hend Hflag c. subst c.
  rewrite (generate_stream_interrupted srv prompt model timeout num_gpu verbose r f why)
    by done.
  split; [done|]. split.
  - unfold events, fst. rewrite stdout_app, stdout_line_events.
    by rewrite string_app_nil_r.
  - rewrite (thread_stream_loop_raised srv flag model gpu prompt r
               (flat_map GuiView.line_events (lines r))
               (Exn (net_failure_class f) why)); [done..|].
    rewrite <- (app_nil_r (lines r)) at 1.
    rewrite gui_stream_loop_well_formed, Hend by done.
    unfold after_events. simpl. by rewrite app_nil_r.
Qed.

Lemma broken_stream_keeps_chunks_witness :
  let srv := λ _, Reply (Response 200 "" [Samples.line_a_done]
                           (Some (Interrupted, "Connection broken")) (BadBody "")) in
  Client.stdout (events (Client.generate srv "hi" "x" true 300 None true)) = "a".
Proof.
  intros srv.
  assert (Hwf : Forall well_formed [Samples.line_a_done]).
  { repeat constructor; by eexists. }
  exact (proj1 (proj2 (broken_stream_keeps_chunks srv "hi" "x" 300 None true 99
           (λ _, true)
           (Response 200 "" [Samples.line_a_done]
                     (Some (Interrupted, "Connection broken")) (BadBody ""))
           Interrupted "Connection broken"
           eq_refl eq_refl eq_refl Hwf eq_refl (λ _, eq_refl)))).
Defined.

(** The labels change through [update_stats] only. *)
Lemma mainloop_keeps_stats w (tr : list Gui.event) :
  Forall (λ cb, match cb with Gui.UpdateStats _ => False | _ => True end)
         (Gui.scheduled tr) →
  Gui.stats (Gui.mainloop w tr) = Gui.stats w.
Proof.
  unfold Gui.mainloop. generalize (Gui.scheduled tr) as cbs. intros cbs Hcbs.
  revert w. induction Hcbs as [|cb cbs Hcb _ IH]; intros w; [done|].
  simpl. rewrite IH. by destruct cb.
Qed.

Lemma line_events_no_update ls :
  Forall (λ cb, match cb with Gui.UpdateStats _ => False | _ => True end)
         (Gui.scheduled (flat_map GuiView.line_events ls)).
Proof.
  induction ls as [|l ls IH]; [by constructor|].
  change (flat_map GuiView.line_events (l :: ls))
    with (GuiView.line_events l ++ flat_map GuiView.line_events ls).
  rewrite scheduled_app. apply Forall_app. split; [|done].
  destruct l as [| | |v]; try by repeat constructor.
  unfold GuiView.line_events.
  destruct (String.eqb (chunk_text (JsonText v)) ""); by repeat constructor.
Qed.

(** X5.  The window keeps what it showed when a streamed line is not valid
    JSON: after well-formed lines, the appends of their chunks stay
    scheduled, the line is the last one taken, the error text and the "Error"
    status follow, no statistics are shown, and completion comes last.
    Unlike the command-line client, the thread catches the
    [UnicodeDecodeError] of bytes that are not UTF-8 as well. *)
Theorem window_keeps_chunks_on_malformed_line
    (srv : server) (prompt model : string) (gpu : Z) (flag : nat → bool)
    (w : Gui.window) (r : response) (pre post : list wire_line) (bad : wire_line)
    (why : string) :
  srv (GuiView.request_of prompt model true gpu) = Reply r →
  raise_for_status r = Return tt →
  lines r = pre ++ bad :: post → Forall well_formed pre →
  bad = NotJson why ∨ bad = NotUtf8 why →
  (∀ i, flag i = true) →
  let c := Gui._generate_thread srv flag model gpu true prompt in
  events c =
    flat_map GuiView.line_events pre ++ Gui.Recv bad ::
    [Gui.After (Gui.AppendOutput (JStr (nl +:+ "[ERROR] " +:+ why +:+ nl)));
     Gui.After (Gui.UpdateStatus "Error" "red");
     Gui.After Gui.GenerationComplete] ∧
  outcome c = Return tt ∧
  Gui.received (events c) = pre ++ [bad] ∧
  GuiView.concat_text (GuiView.appended (Gui.scheduled (events c))) =
    concat_chunks pre +:+ (nl +:+ "[ERROR] " +:+ why +:+ nl) ∧
  Gui.stats (Gui.mainloop w (events c)) = Gui.stats w.
Proof.
  intros Hg Hs Hl Hwf Hbad Hflag c. subst c.
  assert (Hm : malformed bad = true) by by destruct Hbad as [-> | ->].
  assert (Hloop : Gui.stream_loop flag 0 (lines r) (lines_end r) JNull =
                  (flat_map GuiView.line_events pre ++ [Gui.Recv bad],
                   json_loads_decode bad)).
  { rewrite Hl, gui_stream_loop_well_formed by done.
    by rewrite gui_stream_loop_malformed_line. }
  assert (Hev : events (Gui._generate_thread srv flag model gpu true prompt) =
    flat_map GuiView.line_events pre ++ Gui.Recv bad ::
    [Gui.After (Gui.AppendOutput (JStr (nl +:+ "[ERROR] " +:+ why +:+ nl)));
     Gui.After (Gui.UpdateStatus "Error" "red");
     Gui.After Gui.GenerationComplete]).
  { destruct Hbad as [-> | ->];
      (erewrite thread_stream_loop_raised; [|done..|exact Hloop]);
      by rewrite <- app_assoc. }
  rewrite Hev. split; [done|].
  split; [by rewrite generate_thread_events|].
  split; [|split].
  - rewrite gui_received_app, received_gui_line_events.
    by destruct Hbad as [-> | ->].
  - rewrite scheduled_app, appended_app, concat_text_app, appended_line_events.
    f_equal. destruct Hbad as [-> | ->]; simpl;
      change (GuiView.concat_text [JStr ?t]) with (t +:+ "");
      by rewrite string_app_nil_r.
  - apply mainloop_keeps_stats. rewrite scheduled_app. apply Forall_app.
    split; [apply line_events_no_update|].
    destruct Hbad as [-> | ->]; by repeat constructor.
Qed.

Lemma window_keeps_chunks_on_malformed_line_witness :
  let srv := Samples.streaming [Samples.line_a; NotUtf8 "invalid start byte"] in
  let c := Gui._generate_thread srv (λ _, true) "x" 99 true "hi" in
  outcome c = Return tt ∧
  Gui.received (events c) = [Samples.line_a; NotUtf8 "invalid start byte"].
Proof.
  intros srv c.
  assert (Hwf : Forall well_formed [Samples.line_a]).
  { repeat constructor; by eexists. }
  destruct (window_keeps_chunks_on_malformed_line srv "hi" "x" 99 (λ _, true)
              Gui.initial_window
              (Response 200 "" [Samples.line_a; NotUtf8 "invalid start byte"] None
                        (BadBody "Extra data"))
              [Samples.line_a] [] (NotUtf8 "invalid start byte") "invalid start byte"
              eq_refl eq_refl eq_refl Hwf (or_intror eq_refl) (λ _, eq_refl))
    as (_ & Hout & Hrecv & _).
  split; [exact Hout | exact Hrecv].
Defined.

(** ** The window: Stop *)
Section cancellation.
Import Gui GuiView.

Lemma gui_stream_loop_until flag i pre post tail last_data :
  (∀ j, (i ≤ j < i + length pre)%nat → flag j = true) → Forall well_formed pre →
  stream_loop flag i (pre ++ post) tail last_data =
  after_events (flat_map line_events pre)
    (stream_loop flag (i + length pre) post tail (foldl keep_last last_data pre)).
Proof.
  intros Hflag Hwf. revert i last_data Hflag.
  induction Hwf as [|l pre Hl _ IH]; intros i last_data Hflag.
  - change (flat_map line_events []) with (@nil event).
    rewrite after_events_nil. simpl. by rewrite Nat.add_0_r.
  - rewrite <- app_comm_cons, gui_stream_loop_well_formed_line; [|apply Hflag|done].
    2:{ simpl. lia. }
    rewrite IH.
    2:{ intros j Hj. apply Hflag. simpl. lia. }
    change (flat_map line_events (l :: pre))
      with (line_events l ++ flat_map line_events pre).
    rewrite after_events_app. simpl length.
    by replace (S i + length pre)%nat with (i + S (length pre))%nat by lia.
Qed.
End cancellation.

(** X6.  Stop is noticed when the next line arrives.  If the generating
    flag is still set for the first lines of a stream, all well-formed, and
    is found cleared when the next line comes in, that line is taken from
    the stream and dropped unread (whatever it holds), nothing after it is
    taken, the chunks of the lines before it stay appended, the newline and
    the statistics of the terminal record seen so far follow as after a
    complete stream, and the thread ends without an error. *)
Theorem stop_ends_stream_at_next_line
    (srv : server) (prompt model : string) (gpu : Z) (flag : nat → bool)
    (r : response) (pre post : list wire_line) (l : wire_line) :
  srv (GuiView.request_of prompt model true gpu) = Reply r →
  raise_for_status r = Return tt →
  lines r = pre ++ l :: post → Forall well_formed pre →
  (∀ j, (j < length pre)%nat → flag j = true) → flag (length pre) = false →
  let c := Gui._generate_thread srv flag model gpu true prompt in
  let last_data := foldl keep_last JNull pre in
  events c =
    flat_map GuiView.line_events pre ++ Gui.Recv l ::
    Gui.After (Gui.AppendOutput (JStr nl)) ::
    (if truthy last_data then [Gui.After (Gui.UpdateStats last_data)] else []) ++
    [Gui.After Gui.GenerationComplete] ∧
  outcome c = Return tt ∧
  Gui.received (events c) = pre ++ [l] ∧
  GuiView.concat_text (GuiView.appended (Gui.scheduled (events c))) =
    concat_chunks pre +:+ nl.
Proof.
  intros Hg Hs Hl Hwf Hflag Hstop c last_data. subst c.
  assert (Hev : events (Gui._generate_thread srv flag model gpu true prompt) =
    flat_map GuiView.line_events pre ++ Gui.Recv l ::
    Gui.After (Gui.AppendOutput (JStr nl)) ::
    (if truthy last_data then [Gui.After (Gui.UpdateStats last_data)] else []) ++
    [Gui.After Gui.GenerationComplete]).
  { rewrite generate_thread_events.
    unfold GuiView.thread_body, Gui._generate_stream, requests_post.
    unfold GuiView.request_of in Hg. rewrite Hg. cbv iota.
    rewrite bind_lift_return, Hs, bind_lift_return, Hl.
    rewrite gui_stream_loop_until; [|intros j Hj; apply Hflag; lia|done].
    rewrite gui_stream_loop_stopped by done.
    rewrite bind_after_events.
    rewrite (events_bind_return _ _ (foldl keep_last JNull pre)) by done.
    unfold Gui.after. rewrite bind_emit. fold last_data.
    unfold after_events, events, outcome, GuiView.error_report. simpl fst. simpl snd.
    rewrite <- !app_assoc. simpl.
    by destruct (truthy last_data). }
  rewrite Hev. split; [done|].
  split; [by rewrite generate_thread_events|].
  set (rest := (if truthy last_data then _ else _) ++ [Gui.After Gui.GenerationComplete]).
  assert (Hrest : GuiView.appended (Gui.scheduled rest) = [] ∧ Gui.received rest = []).
  { subst rest. by destruct (truthy last_data). }
  destruct Hrest as [Happ Hrecv].
  change (Gui.Recv l :: Gui.After (Gui.AppendOutput (JStr nl)) :: rest)
    with ([Gui.Recv l; Gui.After (Gui.AppendOutput (JStr nl))] ++ rest).
  rewrite !scheduled_app, !appended_app, !concat_text_app, !gui_received_app.
  rewrite appended_line_events, received_gui_line_events, Happ, Hrecv.
  split; [by rewrite app_nil_r|].
  change (GuiView.concat_text (GuiView.appended (Gui.scheduled [_; _])))
    with (nl +:+ "").
  change (GuiView.concat_text []) with "".
  by rewrite !string_app_nil_r.
Qed.

Lemma stop_ends_stream_at_next_line_witness :
  let srv := Samples.streaming [Samples.line_a; NotJson "dropped"; Samples.line_b] in
  let c := Gui._generate_thread srv (λ i, Nat.eqb i 0) "x" 99 true "hi" in
  outcome c = Return tt ∧
  Gui.received (events c) = [Samples.line_a; NotJson "dropped"].
Proof.
  intros srv c.
  assert (Hwf : Forall well_formed [Samples.line_a]).
  { repeat constructor; by eexists. }
  assert (Hflag : ∀ j, (j < 1)%nat → Nat.eqb j 0 = true).
  { intros j Hj. apply Nat.eqb_eq. lia. }
  destruct (stop_ends_stream_at_next_line srv "hi" "x" 99 (λ i, Nat.eqb i 0)
              (Response 200 "" [Samples.line_a; NotJson "dropped"; Samples.line_b]
                        None (BadBody "Extra data"))
              [Samples.line_a] [Samples.line_b] (NotJson "dropped")
              eq_refl eq_refl eq_refl Hwf Hflag eq_refl)
    as (_ & Hout & Hrecv & _).
  split; [exact Hout | exact Hrecv].
Defined.

(** ** The command-line client: the status of the answer *)

(** X7.  [generate] takes the statuses from 400 to 599 for errors and
    every other status for a success.  In buffered mode with an object body:
    a status in that range gives the message for an unreachable server and
    [None], and the body is not looked at; any status below 400 or from 600
    on gives the [response] of the body. *)
Theorem status_gate
    (srv : server) (prompt model : string) (timeout : Z) (num_gpu : option Z)
    (r : response) (d : gmap string json) :
  srv (ClientView.request_of prompt model false timeout num_gpu) = Reply r →
  content r = Body (JDict d) →
  Client.generate srv prompt model false timeout num_gpu false =
  if (400 <=? status_code r) && (status_code r <? 600)
  then ([ClientView.could_not_reach (http_error r)], Return JNull)
  else ([], Return (response_field d)).
Proof.
  intros H Hb.
  destruct ((400 <=? status_code r) && (status_code r <? 600)) eqn:Hst.
  - apply (generate_http_error srv prompt model timeout num_gpu false false r
             (Exn HTTPError (http_error r)) H).
    unfold raise_for_status. by rewrite Hst.
  - apply (generate_object srv prompt model timeout num_gpu false r d H); [|done..].
    unfold raise_for_status. by rewrite Hst.
Qed.

Lemma status_gate_witness :
  Client.generate (λ _, Reply (Response 399 "" [] None (Body (JDict Samples.hello))))
    "hi" "x" false 300 None false = ([], Return (JStr "hello")) ∧
  Client.generate (λ _, Reply (Response 400 "Bad Request" [] None
                                 (Body (JDict Samples.hello))))
    "hi" "x" false 300 None false =
    ([ClientView.could_not_reach "Bad Request"], Return JNull).
Proof.
  split.
  - exact (status_gate (λ _, Reply (Response 399 "" [] None (Body (JDict Samples.hello))))
             "hi" "x" 300 None _ Samples.hello eq_refl eq_refl).
  - exact (status_gate (λ _, Reply (Response 400 "Bad Request" [] None
                                      (Body (JDict Samples.hello))))
             "hi" "x" 300 None _ Samples.hello eq_refl eq_refl).
Defined.

(** ** The statistics: the optional lines *)
Section optional_lines.
Import Client ClientView ClientMore.

Lemma model_lines_app (p q : list event) :
  model_lines (p ++ q) = model_lines p ++ model_lines q.
Proof. apply omap_app. Qed.

Lemma reason_lines_app (p q : list event) :
  reason_lines (p ++ q) = reason_lines p ++ reason_lines q.
Proof. apply omap_app. Qed.

Lemma context_size_lines_app (p q : list event) :
  context_size_lines (p ++ q) = context_size_lines p ++ context_size_lines q.
Proof. apply omap_app. Qed.

Lemma stats_lines_optional d s :
  model_lines (stats_lines d s) = option_list (d !! "model") ∧
  reason_lines (stats_lines d s) = option_list (d !! "done_reason") ∧
  context_size_lines (stats_lines d s) = [].
Proof.
  unfold stats_lines, optional_line, speed_line.
  by destruct (d !! "model"), (d !! "done_reason"), (_ && _), (_ && _).
Qed.

Lemma context_lines_optional d :
  model_lines (events (context_lines d)) = [] ∧
  reason_lines (events (context_lines d)) = [] ∧
  context_size_lines (events (context_lines d)) =
    match d !! "context" with
    | Some c => match py_len c with Return n => [n] | Raise _ => [] end
    | None => []
    end.
Proof.
  unfold context_lines. by destruct (d !! "context") as [[]|].
Qed.
End optional_lines.

(** X8.  For a terminal record with integer figures, [_print_verbose_stats]
    prints the "Model" line exactly when the record has [model], the
    "Completion Reason" line exactly when it has [done_reason], each with the
    value of the field, and the "Context Size" line with the number of
    elements of [context] when that is a list.  A [context] without a length
    (a number, [null], a boolean) makes it raise [TypeError] at the very end:
    every other line is printed by then. *)
Theorem verbose_optional_lines (d : gmap string json) (s : figures) :
  figures_of d = Some s →
  let c := Client._print_verbose_stats (JDict d) in
  ClientMore.model_lines (events c) = option_list (d !! "model") ∧
  ClientMore.reason_lines (events c) = option_list (d !! "done_reason") ∧
  (∀ l, d !! "context" = Some (JList l) →
        ClientMore.context_size_lines (events c) = [Z.of_nat (length l)] ∧
        outcome c = Return tt) ∧
  (d !! "context" = None →
   ClientMore.context_size_lines (events c) = [] ∧ outcome c = Return tt) ∧
  (context_sized d = false →
   is_raise TypeError (outcome c) = true ∧
   events c = ClientView.stats_lines d s).
Proof.
  intros Hs c. subst c.
  assert (Hout : outcome (Client._print_verbose_stats (JDict d)) =
                 outcome (ClientView.context_lines d)).
  { by rewrite (print_verbose_stats_figures d s Hs). }
  rewrite (print_verbose_stats_events d s Hs), Hout.
  rewrite model_lines_app, reason_lines_app, context_size_lines_app.
  destruct (stats_lines_optional d s) as (-> & -> & ->).
  destruct (context_lines_optional d) as (-> & -> & ->).
  rewrite !app_nil_r. split; [done|]. split; [done|].
  unfold ClientView.context_lines, context_sized.
  split; [|split].
  - by intros l ->.
  - by intros ->.
  - destruct (d !! "context") as [[]|]; try done; by rewrite app_nil_r.
Qed.

Lemma verbose_optional_lines_witness :
  ClientMore.model_lines (events (Client._print_verbose_stats (JDict Samples.hello)))
    = [] ∧
  outcome (Client._print_verbose_stats (JDict Samples.hello)) = Return tt.
Proof.
  destruct (verbose_optional_lines Samples.hello Samples.hello_figures eq_refl)
    as (Hm & _ & _ & Hc & _).
  split; [exact Hm | exact (proj2 (Hc eq_refl))].
Defined.

(** ** The statistics: a duration that is not a number *)
Section bad_duration.
Import Client ClientView ClientMore.

Lemma bind_raised {E A B} (c : Eff E A) (f : A → Eff E B) e :
  outcome c = Raise e → c ≫= f = (events c, Raise e).
Proof. destruct c as [out r]; simpl; by intros ->. Qed.

Lemma py_truediv_1e9_bad d key :
  duration_ok d key = false →
  ∃ e, py_truediv (default (JInt 0) (d !! key)) _1e9 = Raise e ∧
       (exn_cls e = TypeError ∨ exn_cls e = OverflowError).
Proof.
  unfold duration_ok, int_field, py_truediv, float_of_int, fits_float.
  destruct (as_int _) as [n|].
  - intros ->. eexists. split; [reflexivity | by right].
  - intros _. eexists. split; [reflexivity | by left].
Qed.

Lemma py_truediv_1e9_ok d key :
  duration_ok d key = true →
  ∃ n, py_truediv (default (JInt 0) (d !! key)) _1e9 = Return (inject_Z n / _1e9)%Q.
Proof.
  unfold duration_ok, int_field. destruct (as_int _) as [n|] eqn:Hn; [|done].
  intros Hf. exists n. by apply py_truediv_1e9.
Qed.

(** With a duration that is not acceptable the function stops before the
    "Timing" heading: only the banner and the model line are out. *)
Lemma print_verbose_stats_bad_duration d :
  forallb (duration_ok d) duration_keys = false →
  ∃ e, _print_verbose_stats (JDict d) =
       ([Stderr (Text (nl +:+ rule)); Stderr (Text "OLLAMA VERBOSE OUTPUT");
         Stderr (Text rule)] ++ optional_line d "model" ModelLine, Raise e) ∧
       (exn_cls e = TypeError ∨ exn_cls e = OverflowError).
Proof.
  unfold duration_keys, forallb. intros Hbad.
  unfold _print_verbose_stats, print_err.
  repeat eff_step. rewrite optional_block. repeat eff_step.
  assert (Hstop : ∀ e (K : Q → Eff event unit),
    after_events [Stderr (Text (nl +:+ rule))]
      (after_events [Stderr (Text "OLLAMA VERBOSE OUTPUT")]
         (after_events [Stderr (Text rule)]
            (after_events (match d !! "model" with
                           | Some v => [Stderr (ModelLine v)]
                           | None => []
                           end) (lift (Raise e) ≫= K)))) =
    ([Stderr (Text (nl +:+ rule)); Stderr (Text "OLLAMA VERBOSE OUTPUT");
      Stderr (Text rule)] ++ optional_line d "model" ModelLine, Raise e)).
  { intros e K. unfold after_events, optional_line. simpl. by rewrite app_nil_r. }
  destruct (duration_ok d "total_duration") eqn:H1.
  2:{ destruct (py_truediv_1e9_bad d _ H1) as (e & -> & He). exists e.
      split; [apply Hstop | done]. }
  destruct (py_truediv_1e9_ok d _ H1) as (n1 & ->). repeat eff_step.
  destruct (duration_ok d "load_duration") eqn:H2.
  2:{ destruct (py_truediv_1e9_bad d _ H2) as (e & -> & He). exists e.
      split; [apply Hstop | done]. }
  destruct (py_truediv_1e9_ok d _ H2) as (n2 & ->). repeat eff_step.
  destruct (duration_ok d "prompt_eval_duration") eqn:H3.
  2:{ destruct (py_truediv_1e9_bad d _ H3) as (e & -> & He). exists e.
      split; [apply Hstop | done]. }
  destruct (py_truediv_1e9_ok d _ H3) as (n3 & ->). repeat eff_step.
  destruct (duration_ok d "eval_duration") eqn:H4; [done|].
  destruct (py_truediv_1e9_bad d _ H4) as (e & -> & He). exists e.
  split; [apply Hstop | done].
Qed.
End bad_duration.

(** X9.  A terminal record with a duration that is not a number (a string,
    [null], a list, an object), or with an integer too large for a double,
    makes [_print_verbose_stats] raise [TypeError] or [OverflowError] before
    the first timing line: the banner and the model line are all it prints.
    In a streaming call with [verbose] the exception comes after the whole
    text and the newline have been written, and it is not caught by
    [generate]. *)
Theorem bad_duration_raises_after_text
    (srv : server) (prompt model : string) (timeout : Z) (num_gpu : option Z)
    (r : response) (pre post : list wire_line) (d : gmap string json) :
  forallb (ClientMore.duration_ok d) ClientMore.duration_keys = false →
  srv (ClientView.request_of prompt model true timeout num_gpu) = Reply r →
  raise_for_status r = Return tt →
  lines r = pre ++ JsonText (JDict d) :: post →
  truthy (done_field d) = true →
  Forall (λ l, is_done_line l = false) post →
  Forall well_formed (lines r) → lines_end r = None →
  let stats := Client._print_verbose_stats (JDict d) in
  let c := Client.generate srv prompt model true timeout num_gpu true in
  (is_raise TypeError (outcome stats) || is_raise OverflowError (outcome stats) = true) ∧
  ClientMore.timing_lines (events stats) = [] ∧
  ClientView.total_tokens_lines (events stats) = [] ∧
  (is_raise TypeError (outcome c) || is_raise OverflowError (outcome c) = true) ∧
  Client.stdout (events c) = concat_chunks (lines r) +:+ nl.
Proof.
  intros Hbad H Hs Hl Hd Hnd Hwf Hend stats c. subst stats c.
  destruct (print_verbose_stats_bad_duration d Hbad) as (e & Hst & He).
  assert (Hcls : ∀ A, is_raise TypeError (Raise (A:=A) e) ||
                      is_raise OverflowError (Raise (A:=A) e) = true).
  { intros A. destruct e as [cls msg]. simpl in *. by destruct He as [-> | ->]. }
  rewrite Hst. simpl outcome. simpl events.
  split; [apply Hcls|].
  split; [unfold ClientView.optional_line; by destruct (d !! "model")|].
  split; [unfold ClientView.optional_line; by destruct (d !! "model")|].
  split.
  - rewrite (generate_stream_reply srv prompt model timeout num_gpu true r H Hs).
    rewrite Hend, stream_loop_all_well_formed, Hl, keep_last_done by done.
    rewrite (events_bind_return _ _ (JDict d)) by done.
    rewrite try_except_after_events, bind_emit, try_except_after_events.
    assert (Ht : truthy (JDict d) = true).
    { apply truthy_dict. intros ->. by vm_compute in Hd. }
    rewrite Ht. cbv beta iota delta [andb].
    rewrite (bind_raised _ _ e) by by rewrite Hst.
    change (outcome (after_events ?p (after_events ?q ?x))) with (outcome x).
    rewrite handlers_outcome. simpl outcome.
    destruct e as [cls msg]. simpl in He.
    destruct He as [-> | ->]; reflexivity.
  - by apply (generate_stream_output srv prompt model r Hs Hwf Hend timeout num_gpu true).
Qed.

Lemma bad_duration_raises_after_text_witness :
  let d : gmap string json :=
    list_to_map [("response", JStr "a"); ("done", JBool true);
                 ("total_duration", JNull)] in
  let c := Client.generate (Samples.streaming [JsonText (JDict d)])
             "hi" "x" true 300 None true in
  is_raise TypeError (outcome c) || is_raise OverflowError (outcome c) = true ∧
  Client.stdout (events c) = "a" +:+ nl.
Proof.
  intros d c.
  assert (Hwf : Forall well_formed [JsonText (JDict d)]).
  { repeat constructor; by eexists. }
  destruct (bad_duration_raises_after_text (Samples.streaming [JsonText (JDict d)])
              "hi" "x" 300 None
              (Response 200 "" [JsonText (JDict d)] None (BadBody "Extra data"))
              [] [] d eq_refl eq_refl eq_refl eq_refl eq_refl (Forall_nil_2 _) Hwf eq_refl)
    as (_ & _ & _ & Hr & Ho).
  split; [exact Hr | exact Ho].
Defined.

(** ** The entry point of the command-line client *)
Section client_main.
Import ClientMain MainView.

Lemma generate_ext srv srv' prompt model stream timeout num_gpu verbose :
  srv (ClientView.request_of prompt model stream timeout num_gpu) =
  srv' (ClientView.request_of prompt model stream timeout num_gpu) →
  Client.generate srv prompt model stream timeout num_gpu verbose =
  Client.generate srv' prompt model stream timeout num_gpu verbose.
Proof.
  unfold ClientView.request_of, Client.generate, requests_post. intros H.
  destruct stream; by rewrite H.
Qed.

(** In buffered mode [generate] writes nothing to standard output. *)
Lemma generate_buffered_stdout srv prompt model timeout num_gpu verbose :
  Client.stdout (events (Client.generate srv prompt model false timeout num_gpu verbose))
  = "".
Proof.
  destruct (srv (ClientView.request_of prompt model false timeout num_gpu))
    as [f why|r] eqn:H.
  { by rewrite (generate_no_reply _ _ _ _ _ false _ f why H). }
  destruct (raise_for_status r) as [[]|e] eqn:Hs.
  2:{ by rewrite (generate_http_error _ _ _ _ _ false _ r e H Hs). }
  rewrite (generate_non_stream_reply _ _ _ _ _ _ r H Hs).
  destruct (response_json r) as [data|e].
  - rewrite bind_lift_return.
    by destruct (on_stderr_silent _ (buffered_silent verbose data)) as [-> _].
  - destruct (try_except_handlers_events [] e) as (rest & He & Hr).
    change (Client.stdout
              (events (try_except ([], Raise (A:=json) e) ClientView.handlers)) = "").
    rewrite He. change ([] ++ rest) with rest.
    by apply on_stderr_silent in Hr as [Hr _].
Qed.

Lemma main_events srv args :
  main srv args =
  let g := Client.generate srv (prompt args) (model args) (stream args) 300
             (Some (num_gpu args)) (verbose args) in
  ((if verbose args then [PrintArgs args] else []) ++ (Gen <$> events g) ++
   match outcome g with
   | Return v => if is_not_none v then [Print v] else []
   | Raise _ => []
   end,
   match outcome g with Return _ => Return tt | Raise e => Raise e end).
Proof.
  unfold main, call. cbv zeta.
  destruct (Client.generate _ _ _ _ _ _ _) as [evs [v|e]].
  - destruct (verbose args); unfold mbind, eff_mbind, emit; simpl;
      destruct (is_not_none v); simpl; by rewrite ?app_nil_r.
  - destruct (verbose args); unfold mbind, eff_mbind, emit; simpl;
      by rewrite ?app_nil_r.
Qed.

Lemma printed_generated (evs : list Client.event) :
  printed (Gen <$> evs) = [] ∧ generated (Gen <$> evs) = evs.
Proof.
  induction evs as [|ev evs [IH1 IH2]]; [done|]. split; [done|].
  change (ev :: generated (Gen <$> evs) = ev :: evs). by rewrite IH2.
Qed.

Lemma printed_app tr tr' : printed (tr ++ tr') = printed tr ++ printed tr'.
Proof. apply omap_app. Qed.

Lemma generated_app tr tr' : generated (tr ++ tr') = generated tr ++ generated tr'.
Proof. apply omap_app. Qed.

Lemma main_printed srv args :
  let g := Client.generate srv (prompt args) (model args) (stream args) 300
             (Some (num_gpu args)) (verbose args) in
  printed (events (main srv args)) =
    match outcome g with
    | Return v => if is_not_none v then [v] else []
    | Raise _ => []
    end ∧
  generated (events (main srv args)) = events g.
Proof.
  intros g. rewrite main_events. cbv zeta. fold g.
  change (events (?a, ?b)) with a.
  rewrite !printed_app, !generated_app.
  destruct (printed_generated (events g)) as [-> ->].
  destruct (outcome g) as [v|e]; destruct (verbose args);
    try destruct (is_not_none v); simpl; by rewrite ?app_nil_r.
Qed.
End client_main.

(** X10.  [main] prints a result exactly when [generate] returns a value
    other than [None], and then that value: never in streaming mode; in
    buffered mode the [response] of an object body, an empty string included
    (an empty line), but not a [null].  When the buffered call fails (no
    answer, an HTTP error status, a body that is not JSON) nothing at all
    reaches standard output. *)
Theorem main_prints_result
    (srv : server) (args : ClientMain.Namespace) :
  let g := Client.generate srv (ClientMain.prompt args) (ClientMain.model args)
             (ClientMain.stream args) 300 (Some (ClientMain.num_gpu args))
             (ClientMain.verbose args) in
  let tr := events (ClientMain.main srv args) in
  (∀ v, MainView.printed tr = [v] ↔ outcome g = Return v ∧ v ≠ JNull) ∧
  (MainView.printed tr = [] ∨ ∃ v, MainView.printed tr = [v]) ∧
  (ClientMain.stream args = true → MainView.printed tr = []) ∧
  (ClientMain.stream args = false →
   Client.stdout (MainView.generated tr) = "" ∧
   (outcome g = Return JNull → MainView.printed tr = []) ∧
   (∀ r d, srv (MainView.request_of args) = Reply r → raise_for_status r = Return tt →
           content r = Body (JDict d) → ClientMain.verbose args = false →
           tr = if ClientMain.is_not_none (response_field d)
                then [ClientMain.Print (response_field d)] else [])).
Proof.
  intros g tr. subst tr.
  destruct (main_printed srv args) as [Hp Hg]. fold g in Hp, Hg.
  rewrite Hp, Hg.
  split.
  { intros v. destruct (outcome g) as [v'|e].
    - split.
      + destruct (ClientMain.is_not_none v') eqn:Hn; [|done].
        intros [= <-]. split; [done|]. by intros ->.
      + intros [[= ->] Hne]. by destruct v.
    - split; [done|]. by intros [? ?]. }
  split.
  { destruct (outcome g) as [v'|e]; [|by left].
    destruct (ClientMain.is_not_none v'); [right; by eexists | by left]. }
  split.
  { intros Hst. destruct (outcome g) as [v|e] eqn:Ho; [|done].
    subst g. rewrite Hst in Ho.
    apply generate_returns in Ho as [->|Ho]; [done|].
    by apply try_block_stream_returns_none in Ho as ->. }
  intros Hst. subst g. rewrite Hst. split; [apply generate_buffered_stdout|].
  split; [by intros ->|].
  intros r d H Hs Hb Hv. unfold MainView.request_of in H. rewrite Hst in H.
  rewrite main_events. cbv zeta. rewrite Hst, Hv.
  rewrite (generate_object srv _ _ 300 _ false r d H Hs Hb) by done.
  simpl. by destruct (ClientMain.is_not_none (response_field d)).
Qed.

Lemma main_prints_result_witness :
  events (ClientMain.main (Samples.answering (Body (JDict Samples.hello)))
            (ClientMain.Args "hi" "x" false 99 false)) =
    [ClientMain.Print (JStr "hello")].
Proof.
  destruct (main_prints_result (Samples.answering (Body (JDict Samples.hello)))
              (ClientMain.Args "hi" "x" false 99 false)) as (_ & _ & _ & Hb).
  destruct (Hb eq_refl) as (_ & _ & Hok).
  exact (Hok (Response 200 "" [] None (Body (JDict Samples.hello))) Samples.hello
             eq_refl eq_refl eq_refl eq_refl).
Defined.

(** X11.  [main] catches nothing and always asks for a number of GPU
    layers.  An exception that [generate] lets through passes through
    [main], and [main] returns normally otherwise.  The one request it makes
    has the timeout 300 and a payload whose [options] is [{"num_gpu": n}],
    [n] the integer of the command line (99 by default): the command line
    cannot leave [options] out. *)
Theorem main_passes_exceptions_and_options
    (srv : server) (args : ClientMain.Namespace) :
  let g := Client.generate srv (ClientMain.prompt args) (ClientMain.model args)
             (ClientMain.stream args) 300 (Some (ClientMain.num_gpu args))
             (ClientMain.verbose args) in
  (∀ e, outcome (ClientMain.main srv args) = Raise e ↔ outcome g = Raise e) ∧
  (outcome (ClientMain.main srv args) = Return tt ↔ ∃ v, outcome g = Return v) ∧
  (∀ srv', srv (MainView.request_of args) = srv' (MainView.request_of args) →
           ClientMain.main srv args = ClientMain.main srv' args) ∧
  timeout_kw (MainView.request_of args) = 300 ∧
  stream_kw (MainView.request_of args) = ClientMain.stream args ∧
  json_kw (MainView.request_of args) !! "options" =
    Some (JDict {[ "num_gpu" := JInt (ClientMain.num_gpu args) ]}).
Proof.
  intros g. rewrite main_events. cbv zeta. fold g. simpl outcome.
  split.
  { intros e. destruct (outcome g) as [v|e']; split; try done; by intros [= ->]. }
  split.
  { destruct (outcome g) as [v|e']; split; try done; [by eexists | by intros [? ?]]. }
  split.
  { intros srv' H. rewrite !main_events. subst g. cbv zeta.
    by rewrite (generate_ext srv srv' _ _ _ _ _ _ H). }
  done.
Qed.

Lemma main_passes_exceptions_and_options_witness :
  outcome (ClientMain.main (Samples.streaming [NotUtf8 "invalid start byte"])
             (ClientMain.Args "hi" "x" true 99 false)) =
    Raise (Exn UnicodeDecodeError "invalid start byte").
Proof.
  apply (main_passes_exceptions_and_options
           (Samples.streaming [NotUtf8 "invalid start byte"])
           (ClientMain.Args "hi" "x" true 99 false)).
  reflexivity.
Defined.

(** ** The list of models of the window *)
Section load_models.
Import GuiModels ModelsView.

Lemma load_models_events answer model_var :
  load_models answer model_var =
  match listing answer with
  | Return l =>
      ([AvailableModels l; ComboValues l] ++ selection model_var l, Return tt)
  | Raise e => ([error_line e; ComboValues fallback], Return tt)
  end.
Proof.
  assert (Hexc : ∀ e, try_except (A:=unit) ([], Raise e)
            [ (Exception, λ e,
                 emit (OutputInsert ("Error loading models: " +:+ exn_str e +:+ nl));;
                 emit (ComboValues [JStr "gpt-oss:20b"; JStr "qwen3-coder"])) ] =
          ([error_line e; ComboValues fallback], Return tt)).
  { intros e. unfold try_except, find_clause. simpl. by rewrite isinstance_Exception. }
  unfold load_models, listing.
  destruct (requests_get answer) as [resp|e]; [|apply Hexc].
  rewrite bind_lift_return, result_bind_return.
  destruct (response_json resp) as [data|e]; [|apply Hexc].
  rewrite bind_lift_return, result_bind_return.
  destruct (py_get data "models" (JList [])) as [models|e]; [|apply Hexc].
  rewrite result_bind_return.
  destruct (py_iter models) as [l|e]; [|apply Hexc].
  rewrite result_bind_return.
  destruct (names l) as [ns|e]; [|apply Hexc].
  rewrite bind_lift_return.
  destruct ns as [|first rest]; [done|].
  unfold selection. change (truthy (JList (first :: rest))) with true.
  by destruct (existsb (is_str model_var) (first :: rest)).
Qed.

Lemma names_named (ns : list json) : names (named <$> ns) = Return ns.
Proof.
  induction ns as [|n ns IH]; [done|].
  change (names (named <$> n :: ns)) with
    (name ← py_getitem (named n) "name"; others ← names (named <$> ns);
     Return (name :: others)).
  rewrite IH. unfold named, py_getitem. by rewrite lookup_singleton.
Qed.

Lemma names_app (l l' : list json) :
  names (l ++ l') =
  ns ← names l; ns' ← names l'; Return (ns ++ ns').
Proof.
  induction l as [|m l IH]; simpl.
  - by destruct (names l').
  - destruct (py_getitem m "name") as [n|e]; [|done]. simpl. rewrite IH.
    destruct (names l) as [ns|e]; [|done]. simpl.
    by destruct (names l').
Qed.
End load_models.

Lemma existsb_is_str (key : string) (l : list json) :
  existsb (is_str key) l = true ↔ JStr key ∈ l.
Proof.
  rewrite existsb_exists. split.
  - intros (x & Hin & Hx). destruct x; try done.
    apply String.eqb_eq in Hx as ->. by apply list_elem_of_In.
  - intros Hin. exists (JStr key). split; [by apply list_elem_of_In|].
    apply String.eqb_refl.
Qed.

(** X12.  [load_models] never raises, whatever the server does.  When the
    names cannot be obtained it inserts one line, "Error loading models: "
    and the text of the exception, gives the combo box the two built-in
    names and leaves the selected model alone.  That is what happens when
    the server does not answer, when the body is not JSON, and when one entry
    of the list has no [name]: the names of the other entries are dropped
    with it. *)
Theorem load_models_falls_back (answer : reply) (model_var : string) :
  let tr := events (GuiModels.load_models answer model_var) in
  outcome (GuiModels.load_models answer model_var) = Return tt ∧
  (∀ e, ModelsView.listing answer = Raise e →
        tr = [ModelsView.error_line e; GuiModels.ComboValues ModelsView.fallback] ∧
        (∀ before, ModelsView.combo before tr = ModelsView.fallback) ∧
        ModelsView.selected model_var tr = JStr model_var) ∧
  (∀ f why, answer = NoReply f why →
            ModelsView.listing answer = Raise (Exn (net_failure_class f) why)) ∧
  (∀ r why, answer = Reply r → content r = BadBody why →
            ModelsView.listing answer = Raise (Exn RequestsJSONDecodeError why)) ∧
  (∀ r d pre ns m post, answer = Reply r → content r = Body (JDict d) →
            d !! "models" = Some (JList (pre ++ JDict m :: post)) →
            GuiModels.names pre = Return ns → m !! "name" = None →
            ModelsView.listing answer = Raise (Exn KeyError "'name'")).
Proof.
  intros tr. subst tr. rewrite load_models_events.
  split; [by destruct (ModelsView.listing answer)|].
  split; [by intros e ->|].
  split; [by intros f why ->|].
  split.
  { intros r why -> Hb. unfold ModelsView.listing, response_json. simpl.
    by rewrite Hb. }
  intros r d pre ns m post -> Hb Hm Hpre Hn.
  unfold ModelsView.listing, response_json. simpl. rewrite Hb.
  rewrite result_bind_return, py_get_dict, Hm. simpl.
  rewrite names_app, Hpre.
  rewrite result_bind_return. simpl. by rewrite Hn.
Qed.

Lemma load_models_falls_back_witness :
  events (GuiModels.load_models (NoReply Refused "refused") "gpt-oss:20b") =
  [ModelsView.error_line (Exn (net_failure_class Refused) "refused");
   GuiModels.ComboValues ModelsView.fallback].
Proof.
  destruct (load_models_falls_back (NoReply Refused "refused") "gpt-oss:20b")
    as (_ & Hf & Hn & _).
  exact (proj1 (Hf _ (Hn _ _ eq_refl))).
Defined.

(** X13.  When the body is an object whose [models] is a list of entries
    with a [name], whatever the status code of the answer, the combo box
    gets the names in the order of the list.  The selected model stays when
    it is one of the names or when there are none; otherwise it becomes the
    first name, so that with a list that is not empty the selected model is
    always one of the names.  A body without [models] gives an empty combo
    box and no error line. *)
Theorem load_models_lists_names
    (r : response) (d : gmap string json) (l ns : list json) (model_var : string)
    (Hbody : content r = Body (JDict d))
    (Hmodels : d !! "models" = Some (JList l) ∨ (d !! "models" = None ∧ l = []))
    (Hnames : GuiModels.names l = Return ns) :
  let tr := events (GuiModels.load_models (Reply r) model_var) in
  tr = [GuiModels.AvailableModels ns; GuiModels.ComboValues ns] ++
       ModelsView.selection model_var ns ∧
  (∀ before, ModelsView.combo before tr = ns) ∧
  (JStr model_var ∈ ns ∨ ns = [] → ModelsView.selected model_var tr = JStr model_var) ∧
  (∀ first rest, ns = first :: rest → JStr model_var ∉ ns →
                 ModelsView.selected model_var tr = first) ∧
  (ns ≠ [] → ModelsView.selected model_var tr ∈ ns).
Proof.
  intros tr.
  assert (Hl : ModelsView.listing (Reply r) = Return ns).
  { unfold ModelsView.listing, response_json. simpl. rewrite Hbody.
    rewrite result_bind_return, py_get_dict.
    destruct Hmodels as [-> | [-> ->]]; simpl; [by rewrite Hnames|].
    by injection Hnames as <-. }
  assert (Htr : tr = [GuiModels.AvailableModels ns; GuiModels.ComboValues ns] ++
                     ModelsView.selection model_var ns).
  { subst tr. by rewrite load_models_events, Hl. }
  split; [done|]. rewrite Htr. clear Htr tr.
  assert (Hsel : ModelsView.selected model_var
                   ([GuiModels.AvailableModels ns; GuiModels.ComboValues ns] ++
                    ModelsView.selection model_var ns) =
                 match ns with
                 | first :: _ => if existsb (is_str model_var) ns
                                 then JStr model_var else first
                 | [] => JStr model_var
                 end).
  { destruct ns as [|first rest]; [done|]. unfold ModelsView.selection.
    by destruct (existsb (is_str model_var) (first :: rest)). }
  split.
  { intros before. destruct ns as [|first rest]; [done|]. unfold ModelsView.selection.
    by destruct (existsb (is_str model_var) (first :: rest)). }
  rewrite Hsel. clear Hsel.
  split.
  { intros [Hin | ->]; [|done]. apply existsb_is_str in Hin.
    destruct ns; [done|]. by rewrite Hin. }
  split.
  { intros first rest -> Hnin.
    destruct (existsb (is_str model_var) (first :: rest)) eqn:He; [|done].
    by apply existsb_is_str in He. }
  intros Hne. destruct ns as [|first rest]; [done|].
  destruct (existsb (is_str model_var) (first :: rest)) eqn:He.
  - by apply existsb_is_str.
  - apply elem_of_cons. by left.
Qed.

Lemma load_models_lists_names_witness :
  ModelsView.selected "gpt-oss:20b"
    (events (GuiModels.load_models
       (Reply (Response 500 "Server Error" [] None
                 (Body (JDict {[ "models" :=
                    JList (ModelsView.named <$> [JStr "llama3"; JStr "phi3"]) ]}))))
       "gpt-oss:20b")) = JStr "llama3".
Proof.
  refine (proj1 (proj2 (proj2 (proj2 (load_models_lists_names
            (Response 500 "Server Error" [] None
               (Body (JDict {[ "models" :=
                  JList (ModelsView.named <$> [JStr "llama3"; JStr "phi3"]) ]})))
            {[ "models" := JList (ModelsView.named <$> [JStr "llama3"; JStr "phi3"]) ]}
            (ModelsView.named <$> [JStr "llama3"; JStr "phi3"])
            [JStr "llama3"; JStr "phi3"] "gpt-oss:20b" eq_refl _ _))))
          (JStr "llama3") [JStr "phi3"] eq_refl _).
  - left. by rewrite lookup_singleton.
  - apply names_named.
  - intros Hin. apply existsb_is_str in Hin. vm_compute in Hin. discriminate.
Defined.

(** ** The statistics labels of the window *)
Section stats_labels.
Import Gui GuiView ClientMore.

Lemma run_update_stats w data :
  run_callback w (UpdateStats data) =
  Window (is_generating w) (generate_btn w) (stop_btn w) (status_label w)
         (output_text w) (apply_config (events (update_stats data)) (stats w)).
Proof. reflexivity. Qed.

End stats_labels.

(** X14.  What [update_stats] leaves on the labels, for a record that is
    not empty and whose figures are integers.  The model label and the
    completion label change only when the record has a [model], a
    [done_reason]: otherwise they keep the text of the generation before.
    The four duration labels and the two count labels are always set anew,
    an absent figure as 0.  Nothing else of the window changes, and a record
    that is empty or [None] changes nothing at all. *)
Theorem stats_labels_kept_or_replaced
    (d : gmap string json) (s : figures) (w : Gui.window)
    (Hs : figures_of d = Some s) (Hne : d ≠ ∅) :
  let w' := Gui.run_callback w (Gui.UpdateStats (JDict d)) in
  Gui.stats w' Gui.stats_model_label =
    match d !! "model" with
    | Some m => Gui.Value m
    | None => Gui.stats w Gui.stats_model_label
    end ∧
  Gui.stats w' Gui.stats_completion_label =
    match d !! "done_reason" with
    | Some r => Gui.Completed r
    | None => Gui.stats w Gui.stats_completion_label
    end ∧
  Gui.stats w' Gui.stats_total_label = Gui.Seconds (GuiView.seconds (total_duration s)) ∧
  Gui.stats w' Gui.stats_load_label = Gui.Seconds (GuiView.seconds (load_duration s)) ∧
  Gui.stats w' Gui.stats_prompt_eval_label =
    Gui.Seconds (GuiView.seconds (prompt_eval_duration s)) ∧
  Gui.stats w' Gui.stats_gen_label = Gui.Seconds (GuiView.seconds (eval_duration s)) ∧
  Gui.stats w' Gui.stats_prompt_tokens_label =
    Gui.Value (default (JInt 0) (d !! "prompt_eval_count")) ∧
  Gui.stats w' Gui.stats_gen_tokens_label =
    Gui.Value (default (JInt 0) (d !! "eval_count")) ∧
  (Gui.is_generating w', Gui.generate_btn w', Gui.stop_btn w', Gui.status_label w',
   Gui.output_text w') =
  (Gui.is_generating w, Gui.generate_btn w, Gui.stop_btn w, Gui.status_label w,
   Gui.output_text w) ∧
  Gui.run_callback w (Gui.UpdateStats (JDict ∅)) = w ∧
  Gui.run_callback w (Gui.UpdateStats JNull) = w.
Proof.
  intros w'. subst w'. rewrite run_update_stats, (update_stats_figures d s Hs Hne).
  unfold GuiView.stats_configs, GuiView.optional_config.
  destruct (d !! "model"), (d !! "done_reason"); by destruct w.
Qed.

Lemma stats_labels_kept_or_replaced_witness :
  Gui.stats (Gui.run_callback Gui.initial_window (Gui.UpdateStats (JDict Samples.hello)))
            Gui.stats_model_label = Gui.Dash.
Proof.
  apply (stats_labels_kept_or_replaced Samples.hello Samples.hello_figures
           Gui.initial_window eq_refl).
  intros H. apply (f_equal (lookup "done")) in H. by vm_compute in H.
Defined.



(** ** The Generate button *)
Section generate_button.
Import Gui GuiApp AppView.

Lemma all_space_app (a b : string) :
  all_space (a +:+ b) = all_space a && all_space b.
Proof.
  induction a as [|c a IH]; [done|].
  change (is_space c && all_space (a +:+ b) = is_space c && all_space a && all_space b).
  rewrite IH. by destruct (is_space c).
Qed.

Lemma lstrip_all_space s : all_space s = true → lstrip s = "".
Proof.
  induction s as [|c s IH]; [done|].
  change (is_space c && all_space s = true → (if is_space c then lstrip s else String c s) = "").
  destruct (is_space c); [exact IH | done].
Qed.

Lemma lstrip_spec s :
  ∃ pre, s = pre +:+ lstrip s ∧ all_space pre = true ∧
         starts_with_space (lstrip s) = false.
Proof.
  induction s as [|c s (pre & Hs & Hpre & Hst)]; [by exists ""|].
  change (lstrip (String c s)) with (if is_space c then lstrip s else String c s).
  destruct (is_space c) eqn:Hc.
  - exists (String c pre). split; [|split; [|done]].
    + change (String c s = String c (pre +:+ lstrip s)). by rewrite <- Hs.
    + change (is_space c && all_space pre = true). by rewrite Hc.
  - exists "". by repeat split.
Qed.

Lemma rstrip_cons c s :
  rstrip (String c s) =
  match rstrip s with
  | EmptyString => if is_space c then EmptyString else String c EmptyString
  | r => String c r
  end.
Proof. reflexivity. Qed.

Lemma rstrip_spec s :
  ∃ post, s = rstrip s +:+ post ∧ all_space post = true ∧
          ends_with_space (rstrip s) = false.
Proof.
  induction s as [|c s (post & Hs & Hpost & Hend)]; [by exists ""|].
  rewrite rstrip_cons. destruct (rstrip s) as [|c' r'] eqn:Hr.
  - destruct (is_space c) eqn:Hc.
    + exists (String c post). split; [|split; [|done]].
      * change (String c s = String c post). by rewrite Hs.
      * change (is_space c && all_space post = true). by rewrite Hc.
    + exists post. split; [|by split].
      change (String c s = String c post). by rewrite Hs.
  - exists post. split; [|by split].
    change (String c s = String c (String c' r' +:+ post)). by rewrite <- Hs.
Qed.

Lemma rstrip_all_space s : all_space s = true → rstrip s = "".
Proof.
  induction s as [|c s IH]; [done|].
  change (is_space c && all_space s = true → rstrip (String c s) = "").
  rewrite rstrip_cons. destruct (is_space c); [|done].
  intros Hs. by rewrite (IH Hs).
Qed.

Lemma rstrip_keeps_start s :
  starts_with_space s = false → starts_with_space (rstrip s) = false.
Proof.
  destruct s as [|c s]; [done|]. rewrite rstrip_cons.
  unfold starts_with_space at 1. intros Hc.
  destruct (rstrip s); [by rewrite Hc | done].
Qed.

Lemma rstrip_app_space s t : all_space t = true → rstrip (s +:+ t) = rstrip s.
Proof.
  intros Ht. induction s as [|c s IH]; [by apply rstrip_all_space|].
  change (rstrip (String c (s +:+ t)) = rstrip (String c s)).
  by rewrite !rstrip_cons, IH.
Qed.

Lemma lstrip_app s t :
  lstrip (s +:+ t) = if all_space s then lstrip t else lstrip s +:+ t.
Proof.
  induction s as [|c s IH]; [done|].
  change (String c s +:+ t) with (String c (s +:+ t)).
  change (lstrip (String c (s +:+ t))) with
    (if is_space c then lstrip (s +:+ t) else String c (s +:+ t)).
  change (lstrip (String c s)) with (if is_space c then lstrip s else String c s).
  change (all_space (String c s)) with (is_space c && all_space s).
  destruct (is_space c); [exact IH | done].
Qed.

Lemma strip_spec s :
  ∃ pre post, s = pre +:+ strip s +:+ post ∧
              all_space pre = true ∧ all_space post = true ∧
              starts_with_space (strip s) = false ∧ ends_with_space (strip s) = false.
Proof.
  destruct (lstrip_spec s) as (pre & Hs & Hpre & Hst).
  destruct (rstrip_spec (lstrip s)) as (post & Hl & Hpost & Hend).
  exists pre, post. unfold strip. rewrite <- Hl.
  split; [done|]. split; [done|]. split; [done|]. split; [|done].
  by apply rstrip_keeps_start.
Qed.

Lemma strip_empty s : String.eqb (strip s) "" = all_space s.
Proof.
  destruct (all_space s) eqn:Ha.
  - unfold strip. by rewrite (lstrip_all_space s Ha).
  - apply String.eqb_neq. intros He.
    destruct (strip_spec s) as (pre & post & Hs & Hpre & Hpost & _).
    rewrite He in Hs. rewrite Hs, all_space_app, Hpre in Ha.
    change ("" +:+ post) with post in Ha. by rewrite Hpost in Ha.
Qed.

Lemma strip_nl s : strip (s +:+ nl) = strip s.
Proof.
  unfold strip. rewrite lstrip_app. destruct (all_space s) eqn:Ha.
  - by rewrite (lstrip_all_space s Ha).
  - by apply rstrip_app_space.
Qed.

Lemma generate_cases now entry w :
  generate now entry w =
  if all_space entry then (update_status "Please enter a prompt" "red" w, None)
  else if is_generating w then (update_status "Already generating..." "orange" w, None)
  else (Window true DISABLED NORMAL ("Generating...", "blue")
               (output_text w ++ header now (strip entry)) (stats w),
        Some (strip entry)).
Proof.
  unfold generate. cbv zeta. rewrite strip_nl, strip_empty.
  destruct (all_space entry); [done|]. destruct (is_generating w); [done|].
  unfold insert, update_status, header. simpl. by rewrite <- !app_assoc.
Qed.

Lemma mainloop_output w (tr : list event) :
  output_text (mainloop w tr) = output_text w ++ GuiView.appended (scheduled tr).
Proof.
  unfold mainloop. generalize (scheduled tr) as cbs. intros cbs. revert w.
  induction cbs as [|cb cbs IH]; intros w; [by rewrite app_nil_r|].
  simpl foldl. rewrite IH. destruct cb; try done.
  simpl. by rewrite <- app_assoc.
Qed.
End generate_button.

(** X16.  The Generate button starts a thread exactly when the prompt
    widget holds something other than white space and no generation is
    running.  A blank prompt is turned down first ("Please enter a prompt"),
    then a running generation ("Already generating..."); either way only the
    status line changes.  When a thread is started its prompt is the text of
    the widget without the white space around it (the inside is kept as it
    is), the window is marked as generating with the buttons switched, the
    output gets the three lines of the heading, the statistics stay, and any
    further press is turned down and adds nothing to the output. *)
Theorem generate_button_gate (now entry : string) (w : Gui.window) :
  let g := GuiApp.generate now entry w in
  (g.2 = None ↔ AppView.all_space entry = true ∨ Gui.is_generating w = true) ∧
  (g.2 = None →
   AppView.same_but_status w g.1 ∧
   Gui.status_label g.1 =
     if AppView.all_space entry then ("Please enter a prompt", "red")
     else ("Already generating...", "orange")) ∧
  (∀ p, g.2 = Some p →
   p = GuiApp.strip entry ∧ p ≠ "" ∧
   AppView.starts_with_space p = false ∧ AppView.ends_with_space p = false ∧
   (∃ pre post, entry = pre +:+ p +:+ post ∧
                AppView.all_space pre = true ∧ AppView.all_space post = true) ∧
   Gui.is_generating g.1 = true ∧ Gui.generate_btn g.1 = Gui.DISABLED ∧
   Gui.stop_btn g.1 = Gui.NORMAL ∧ Gui.status_label g.1 = ("Generating...", "blue") ∧
   Gui.output_text g.1 = Gui.output_text w ++ AppView.header now p ∧
   Gui.stats g.1 = Gui.stats w ∧
   (∀ now' entry',
      (GuiApp.generate now' entry' g.1).2 = None ∧
      Gui.output_text (GuiApp.generate now' entry' g.1).1 = Gui.output_text g.1)).
Proof.
  intros g. subst g. rewrite generate_cases.
  destruct (AppView.all_space entry) eqn:Ha.
  { split; [split; [by left | done]|]. split; [by repeat split | done]. }
  destruct (Gui.is_generating w) eqn:Hg.
  { split; [split; [by right | done]|]. split; [by repeat split | done]. }
  split; [split; [done | by intros [?|?]]|]. split; [done|].
  intros p [= <-]. split; [done|].
  destruct (strip_spec entry) as (pre & post & Hs & Hpre & Hpost & Hst & Hend).
  split.
  { intros He. pose proof (strip_empty entry) as Hse. by rewrite He, Ha in Hse. }
  split; [done|]. split; [done|]. split; [by exists pre, post|].
  repeat (split; [done|]).
  intros now' entry'. rewrite generate_cases.
  by destruct (AppView.all_space entry').
Qed.

Lemma generate_button_gate_witness :
  Gui.output_text (GuiApp.generate "12:00:00" "  hi there  " Gui.initial_window).1 =
  AppView.header "12:00:00" "hi there".
Proof.
  destruct (generate_button_gate "12:00:00" "  hi there  " Gui.initial_window)
    as (_ & _ & H).
  destruct (H "hi there" eq_refl) as (_ & _ & _ & _ & _ & _ & _ & _ & _ & Ho & _).
  exact Ho.
Defined.

(** X17.  One press of Generate and the run that follows, whatever the
    server does and whenever Stop is pressed.  With a prompt and no
    generation running, the window is ready afterwards, its output is the
    output before, then the heading, then what the thread appended (nothing
    is ever taken away), and the next press with a prompt starts a thread
    again.  A press that is turned down sends no request: the window does
    not depend on the server. *)
Theorem press_run_press
    (srv : server) (flag : nat → bool) (model : string) (gpu : Z) (stream : bool)
    (now entry : string) (w : Gui.window) :
  let w1 := AppView.run srv flag model gpu stream now entry w in
  (AppView.all_space entry = false → Gui.is_generating w = false →
   GuiView.ready w1 ∧
   Gui.output_text w1 =
     Gui.output_text w ++ AppView.header now (GuiApp.strip entry) ++
     GuiView.appended (Gui.scheduled (events
       (Gui._generate_thread srv flag model gpu stream (GuiApp.strip entry)))) ∧
   (∀ now' entry', AppView.all_space entry' = false →
                   (GuiApp.generate now' entry' w1).2 = Some (GuiApp.strip entry'))) ∧
  (AppView.all_space entry = true ∨ Gui.is_generating w = true →
   AppView.same_but_status w w1 ∧
   ∀ srv' flag', AppView.run srv' flag' model gpu stream now entry w = w1).
Proof.
  intros w1. subst w1. unfold AppView.run. rewrite generate_cases.
  destruct (AppView.all_space entry) eqn:Ha.
  { split; [done|]. intros _. by repeat split. }
  destruct (Gui.is_generating w) eqn:Hg.
  { split; [done|]. intros _. by repeat split. }
  split; [|by intros [?|?]]. intros _ _.
  assert (Hready : GuiView.ready (Gui.mainloop
            (Gui.Window true Gui.DISABLED Gui.NORMAL ("Generating...", "blue")
               (Gui.output_text w ++ AppView.header now (GuiApp.strip entry))
               (Gui.stats w))
            (events (Gui._generate_thread srv flag model gpu stream
                       (GuiApp.strip entry))))).
  { rewrite generate_thread_events. simpl events. rewrite app_assoc.
    apply mainloop_complete. }
  split; [exact Hready|].
  split; [rewrite mainloop_output; simpl Gui.output_text; by rewrite <- app_assoc|].
  intros now' entry' Ha'. rewrite generate_cases, Ha'.
  destruct Hready as (-> & _). done.
Qed.

Lemma press_run_press_witness :
  Gui.output_text
    (AppView.run Samples.unreachable (λ _, true) "x" 99 true "12:00:00" "hi"
                 Gui.initial_window) =
  AppView.header "12:00:00" "hi" ++
  GuiView.appended (Gui.scheduled (events
    (Gui._generate_thread Samples.unreachable (λ _, true) "x" 99 true "hi"))).
Proof.
  destruct (press_run_press Samples.unreachable (λ _, true) "x" 99 true
              "12:00:00" "hi" Gui.initial_window) as [H _].
  destruct (H eq_refl eq_refl) as (_ & Ho & _). exact Ho.
Defined.
